(** * ymproject: the Bangumi -> YMGal matching pipeline of [main.py]

    A shallow embedding of [src/main.py].  Python values are a small
    universe [val]; dictionaries are association lists in insertion order;
    the spreadsheet files and the remote service are an explicit [world]
    threaded through a state-and-exception monad [M]. *)

From Stdlib Require Import QArith Qround Ascii String.
From stdpp Require Import gmap strings list pretty.

Set Warnings "-register-all".

Local Open Scope string_scope.
Local Open Scope Z_scope.

(** ** Python values *)

(** The values that travel through the program: decoded JSON, spreadsheet
    cells (an empty cell reads back as [VFloat NaN]) and the program's own
    strings and numbers.  A finite float is the rational it denotes;
    infinities are left out. *)
Inductive float : Type :=
| Fin (q : Q)
| NaN.

Inductive val : Type :=
| VNone
| VBool (b : bool)
| VInt (z : Z)
| VFloat (x : float)
| VStr (s : string)
| VList (l : list val)
| VDict (d : list (string * val)).

Abbreviation dict := (list (string * val)).

(** [bool(v)]: NaN is a non-zero float, hence true. *)
Definition truthy (v : val) : bool :=
  match v with
  | VNone => false
  | VBool b => b
  | VInt z => negb (z =? 0)
  | VFloat (Fin q) => negb (Qeq_bool q 0)
  | VFloat NaN => true
  | VStr s => negb (String.eqb s "")
  | VList l => match l with [] => false | _ => true end
  | VDict d => match d with [] => false | _ => true end
  end.

(** [key in d] and [d.get(key, default)] on a dictionary. *)
Fixpoint dict_find (d : dict) (k : string) : option val :=
  match d with
  | [] => None
  | (k', v) :: d' => if String.eqb k k' then Some v else dict_find d' k
  end.

Definition dict_get (d : dict) (k : string) (dflt : val) : val :=
  match dict_find d k with Some v => v | None => dflt end.

(** [pd.notna(v)] on a scalar. *)
Definition notna (v : val) : bool :=
  match v with VFloat NaN | VNone => false | _ => true end.

(** ** Exceptions and results *)

Inductive exn : Type :=
| AttributeError | TypeError | ValueError | KeyError | OverflowError
| JSONDecodeError | ConnectionError
| FileNotFoundError | PermissionError | BadZipFile.

Inductive res (A : Type) : Type :=
| Ok (a : A)
| Raise (e : exn).
Arguments Ok {A} a.
Arguments Raise {A} e.

(** [v.get(key, default)]: only dictionaries have [get]. *)
Definition py_get (v : val) (k : string) (dflt : val) : res val :=
  match v with
  | VDict d => Ok (dict_get d k dflt)
  | _ => Raise AttributeError
  end.

(** ** The parts of the Python runtime the program calls

    Built-ins and library calls whose definition is not part of the
    repository.  [ratio a b] is [SequenceMatcher(None, a, b).ratio()];
    [xlsx df] is the frame [pd.read_excel] returns for a file that
    [df.to_excel(..., index=False)] wrote. *)
Record frame : Type := Frame { columns : list string; rows : list dict }.

Class Runtime : Type := {
  py_str : val → string;
  py_float_of_str : string → option float;
  py_lower : string → string;
  py_strip : string → string;
  ratio : string → string → Q;
  xlsx : frame → frame;
}.

(** ** The world: files, the remote service, the credential cell *)

Inductive file : Type :=
| Sheet (t : frame)      (* a readable, writable workbook *)
| Locked (t : frame)     (* open in another program: writing is refused *)
| Corrupt.               (* present but not a workbook *)

Inductive request : Type :=
| PostToken
| GetSearch (keyword : string) (token : val)
| GetOrg (org_id : string) (token : val).

(** A reply of the remote service; [body = None] when the body is not JSON.
    [Unreachable] is a request that raises inside [requests]. *)
Inductive reply : Type :=
| Reply (status : Z) (payload : option val)
| Unreachable.

Record world : Type := World {
  files : gmap string file;
  inbox : list reply;          (* the replies still to come, in order *)
  sent : list request;         (* the requests issued so far, oldest first *)
  token_ref : val;             (* token_ref["value"] *)
}.

Definition M (A : Type) : Type := world → res A * world.

#[global] Instance M_ret : MRet M := λ A a w, (Ok a, w).
#[global] Instance M_bind : MBind M := λ A B f m w,
  match m w with
  | (Ok a, w') => f a w'
  | (Raise e, w') => (Raise e, w')
  end.

Definition raise {A} (e : exn) : M A := λ w, (Raise e, w).
Definition lift {A} (r : res A) : M A := λ w, (r, w).

(** [try: m  except Exception: h] *)
Definition try_except {A} (m : M A) (h : exn → M A) : M A := λ w,
  match m w with
  | (Ok a, w') => (Ok a, w')
  | (Raise e, w') => h e w'
  end.

(** What [requests] hands back: [response.status_code] and the body. *)
Record response : Type := Response { status_code : Z; body : option val }.

(** One blocking round trip: log the request, take the next reply. *)
Definition http (r : request) : M response := λ w,
  let w1 := World (files w) (tail (inbox w)) (sent w ++ [r]) (token_ref w) in
  match inbox w with
  | Reply s b :: _ => (Ok (Response s b), w1)
  | Unreachable :: _ | [] => (Raise ConnectionError, w1)
  end.

(** [response.json()] *)
Definition json (b : option val) : res val :=
  match b with Some v => Ok v | None => Raise JSONDecodeError end.

Definition get_token : M val := λ w, (Ok (token_ref w), w).
Definition set_token (t : val) : M unit := λ w,
  (Ok tt, World (files w) (inbox w) (sent w) t).

(** ** get_access_token *)

Definition get_access_token : M val :=
  response ← http PostToken;
  if status_code response =? 200 then
    data ← lift (json (body response));
    lift (py_get data "access_token" VNone)
  else mret VNone.

(** ** Floats: comparison and rounding *)

(** [x > y], [x >= y], [x < y] on floats: false as soon as one side is NaN. *)
Definition float_gt (x y : float) : bool :=
  match x, y with
  | Fin a, Fin b => negb (Qle_bool a b)
  | _, _ => false
  end.

Definition float_ge (x y : float) : bool :=
  match x, y with
  | Fin a, Fin b => Qle_bool b a
  | _, _ => false
  end.

Definition float_lt (x y : float) : bool := float_gt y x.

(** Nearest integer, ties to the even one. *)
Definition round_half_even (q : Q) : Z :=
  let n := Qnum q in
  let d := Zpos (Qden q) in
  let f := n / d in
  let r := n mod d in
  if 2 * r <? d then f
  else if d <? 2 * r then f + 1
  else if Z.even f then f else f + 1.

(** [round(x, 4)] *)
Definition round4 (x : float) : float :=
  match x with
  | Fin q => Fin (Qmake (round_half_even (q * 10000)) 10000)
  | NaN => NaN
  end.

(** ** Lists: iteration, sorting, slicing *)

Fixpoint chars (s : string) : list val :=
  match s with
  | EmptyString => []
  | String a s' => VStr (String a EmptyString) :: chars s'
  end.

(** [for item in v]: lists yield their elements, dictionaries their keys,
    strings their characters; anything else is not iterable. *)
Definition py_iter (v : val) : res (list val) :=
  match v with
  | VList l => Ok l
  | VDict d => Ok (map (λ kv, VStr (fst kv)) d)
  | VStr s => Ok (chars s)
  | _ => Raise TypeError
  end.

Section sorting.
Context {A : Type} (key : A → float).

(** Insert [x], which stood before every element of [l], into the
    descending list [l]: it passes the elements with a strictly larger
    key and stops before the first one that is not larger. *)
Fixpoint insert_desc (x : A) (l : list A) : list A :=
  match l with
  | [] => [x]
  | y :: l' => if float_lt (key x) (key y) then y :: insert_desc x l'
               else x :: y :: l'
  end.

(** [sorted(l, key=key, reverse=True)]: descending and stable (elements
    with equal keys keep their order).  CPython's sort returns this list
    whenever the keys are totally ordered, that is, when no key is NaN. *)
Definition sorted_desc (l : list A) : list A := foldr insert_desc [] l.
End sorting.

(** ** parse_search_response *)

(** One parsed search result (the dictionary built at lines 94-103). *)
Record candidate : Type := Candidate {
  name : val;
  chineseName : val;
  ym_id : val;
  score : float;
  orgId : val;
  orgName : val;
  orgWebsite : val;
  orgDescription : val;
}.

Section search.
Context `{Runtime}.

(** [float(z)] of an integer: the nearest double, ties to even.  A
    double has a 53-bit significand, so integers of at most 53 bits are
    exact; the others are rounded at their 53rd bit, and one whose
    rounded value reaches 2^1024 raises OverflowError. *)
Definition float_of_int (z : Z) : res float :=
  let a := Z.abs z in
  let e := Z.log2 a - 52 in
  if e <=? 0 then Ok (Fin (inject_Z z))
  else
    let r := round_half_even (a # Z.to_pos (2 ^ e)) * 2 ^ e in
    if 2 ^ 1024 <=? r then Raise OverflowError
    else Ok (Fin (inject_Z (Z.sgn z * r))).

(** [float(v)] *)
Definition py_float (v : val) : res float :=
  match v with
  | VInt z => float_of_int z
  | VFloat x => Ok x
  | VBool b => Ok (Fin (if b then 1 else 0))
  | VStr s => match py_float_of_str s with
              | Some x => Ok x
              | None => Raise ValueError
              end
  | VNone | VList _ | VDict _ => Raise TypeError
  end.

(** The [try] block of lines 78-81: only ValueError and TypeError are
    caught. *)
Definition item_score (it : dict) : res float :=
  match py_float (dict_get it "score" (VInt 0)) with
  | Ok x => Ok x
  | Raise ValueError | Raise TypeError => Ok (Fin 0)
  | Raise e => Raise e
  end.

(** The body of the [for item in results] loop. *)
Definition parse_item (item : val) : res candidate :=
  match item with
  | VDict it =>
    match item_score it with
    | Raise e => Raise e
    | Ok score =>
      let org := dict_get it "org" (VDict []) in
      let org_info :=
        if truthy org then org
        else VDict [("id", dict_get it "orgId" (VStr ""));
                    ("name", dict_get it "orgName" (VStr ""));
                    ("website", dict_get it "orgWebsite" (VStr ""));
                    ("description", dict_get it "orgDescription" (VStr ""))] in
      match org_info with
      | VDict oi =>
          Ok {| name := dict_get it "name" (VStr "");
                chineseName := dict_get it "chineseName" (VStr "");
                ym_id := dict_get it "id" (VStr "");
                score := round4 score;
                orgId := dict_get oi "id" (VStr "");
                orgName := dict_get oi "name" (VStr "");
                orgWebsite := dict_get oi "website" (VStr "");
                orgDescription := dict_get oi "description" (VStr "") |}
      | _ => Raise AttributeError   (* org_info.get on a non-dictionary *)
      end
    end
  | _ => Raise AttributeError       (* item.get on a non-dictionary *)
  end.

Fixpoint parse_items (items : list val) : res (list candidate) :=
  match items with
  | [] => Ok []
  | item :: rest =>
      match parse_item item with
      | Raise e => Raise e
      | Ok c => match parse_items rest with
                | Raise e => Raise e
                | Ok cs => Ok (c :: cs)
                end
      end
  end.

(** The [try] block: [response.json().get("data", {}).get("result", [])];
    [None] when it raises. *)
Definition search_results (b : option val) : option val :=
  match json b with
  | Ok response_data =>
      match py_get response_data "data" (VDict []) with
      | Ok data =>
          match py_get data "result" (VList []) with
          | Ok results => Some results
          | Raise _ => None
          end
      | Raise _ => None
      end
  | Raise _ => None
  end.

Definition parse_search_response (b : option val) : res (list candidate) :=
  match search_results b with
  | None => Ok []
  | Some results =>
      match py_iter results with
      | Ok items => parse_items items
      | Raise e => Raise e
      end
  end.

(** ** search_ym_top_matches *)

(** Lines 163-168: sort, then the threshold filter. *)
Definition top_matches (top_k : nat) (threshold : float)
    (parsed : list candidate) : list candidate :=
  let matches := sorted_desc score parsed in
  match matches with
  | m :: _ => if float_ge (score m) threshold then take 1 matches
              else take top_k matches
  | [] => take top_k matches
  end.

(** The [for attempt in range(4)] loop, [n] attempts left. *)
Fixpoint search_attempts (n : nat) (keyword : string) (top_k : nat)
    (threshold : float) : M (list candidate) :=
  match n with
  | O => mret []                       (* out of attempts *)
  | S n' =>
      token ← get_token;
      response ← http (GetSearch keyword token);
      if status_code response =? 200 then
        matches ← lift (parse_search_response (body response));
        mret (top_matches top_k threshold matches)
      else if status_code response =? 401 then
        new_token ← get_access_token;
        if truthy new_token then
          set_token new_token;; search_attempts n' keyword top_k threshold
        else mret []
      else mret []
  end.

Definition search_ym_top_matches (keyword : string) (top_k : nat)
    (threshold : float) : M (list candidate) :=
  search_attempts 4 keyword top_k threshold.

(** The call sites pass only the keyword: [top_k=3], [threshold=0.8]. *)
Definition search_default (keyword : string) : M (list candidate) :=
  search_ym_top_matches keyword 3 (Fin (8 # 10)).
End search.

(** ** Data frames and spreadsheet files *)

(** [row[c]]: a column the row has no value for holds NaN. *)
Definition cell (r : dict) (c : string) : val := dict_get r c (VFloat NaN).

Definition reindex (cs : list string) (r : dict) : dict :=
  map (λ c, (c, cell r c)) cs.

(** Column union in order of first appearance. *)
Definition merge_columns (cs ks : list string) : list string :=
  foldl (λ acc k, if bool_decide (k ∈ acc) then acc else (acc ++ [k])%list) cs ks.

(** [pd.DataFrame(row_data)] for a list of dictionaries. *)
Definition DataFrame (row_data : list dict) : frame :=
  let cs := foldl (λ acc r, merge_columns acc (map fst r)) [] row_data in
  Frame cs (map (reindex cs) row_data).

(** [pd.DataFrame(columns=cs)] *)
Definition empty_frame (cs : list string) : frame := Frame cs [].

(** [pd.concat([a, b], ignore_index=True)] *)
Definition concat (a b : frame) : frame :=
  let cs := merge_columns (columns a) (columns b) in
  Frame cs (map (reindex cs) (rows a ++ rows b)%list).

Definition EXCEL_COLUMNS_MATCHED : list string :=
  ["bgm_id"; "bgm游戏"; "日文名 (原始)"; "中文名 (原始)";
   "name"; "chineseName"; "ym_id"; "score";
   "orgId"; "orgName"; "orgWebsite"; "orgDescription";
   "匹配来源"].

Definition EXCEL_COLUMNS_ORG : list string :=
  ["org_id"; "name"; "chineseName"; "website"; "description"; "birthday"].

Definition set_file (path : string) (f : file) : M unit := λ w,
  (Ok tt, World (<[path := f]> (files w)) (inbox w) (sent w) (token_ref w)).

(** [os.path.exists(path)] *)
Definition exists_ (path : string) : M bool := λ w,
  (Ok (bool_decide (is_Some (files w !! path))), w).

(** [pd.read_excel(path)]; [load_workbook(path)] fails on the same files. *)
Definition read_excel (path : string) : M frame := λ w,
  match files w !! path with
  | Some (Sheet t) | Some (Locked t) => (Ok t, w)
  | Some Corrupt => (Raise BadZipFile, w)
  | None => (Raise FileNotFoundError, w)
  end.

Definition load_workbook (path : string) : M unit :=
  read_excel path;; mret tt.

(** ** The writer pandas picks for a path

    [DataFrame.to_excel] on a path takes the engine from the path's
    extension ([os.path.splitext(path)[-1][1:]], looked up without regard
    to case) and raises [ValueError] (No engine for filetype) when no
    writer is registered for it.  With openpyxl, which the program imports,
    the extensions xlsx and xlsm have a writer. *)

Definition ascii_lower (c : ascii) : ascii :=
  let n := nat_of_ascii c in
  if ((65 <=? n) && (n <=? 90))%nat then ascii_of_nat (n + 32) else c.

(** [os.path.splitext] read from left to right.  The state says whether
    the path component read so far has a character other than a dot, and
    which extension is open: a dot that follows such a character opens a
    new extension (leading dots open none), a separator ends the component
    and with it the extension, any other character extends the extension
    that is open. *)
Definition ext_step (st : bool * option string) (c : ascii)
    : bool * option string :=
  if Ascii.eqb c "/" then (false, None)
  else if Ascii.eqb c "." then (if st.1 then (true, Some "") else (false, None))
  else (true, (λ e, e +:+ String (ascii_lower c) "") <$> st.2).

Fixpoint ext_scan (st : bool * option string) (s : string)
    : bool * option string :=
  match s with
  | "" => st
  | String c s' => ext_scan (ext_step st c) s'
  end.

(** The extension of [path], without its dot and in lower case. *)
Definition extension (path : string) : string :=
  default "" (ext_scan (false, None) path).2.

Definition EXCEL_WRITERS : list string := ["xlsx"; "xlsm"].

Definition excel_writer (path : string) : bool :=
  existsb (String.eqb (extension path)) EXCEL_WRITERS.

Section store.
Context `{Runtime}.

(** [df.to_excel(path, index=False)]: the engine is chosen before the file
    is opened. *)
Definition to_excel (df : frame) (path : string) : M unit := λ w,
  if negb (excel_writer path) then (Raise ValueError, w)
  else
    match files w !! path with
    | Some (Locked _) => (Raise PermissionError, w)
    | _ => set_file path (Sheet (xlsx df)) w
    end.

Definition init_excel (output_file : string) : M unit :=
  e ← exists_ output_file;
  need_create ←
    (if negb e then mret true
     else try_except (load_workbook output_file;; mret false)
                     (λ _, mret true));
  if need_create : bool
  then to_excel (empty_frame EXCEL_COLUMNS_MATCHED) output_file
  else mret tt.

Definition init_org_excel (output_file : string) : M unit :=
  e ← exists_ output_file;
  if negb e then to_excel (empty_frame EXCEL_COLUMNS_ORG) output_file
  else mret tt.

Definition append_to_excel (row_data : list dict) (output_file : string)
    : M unit :=
  try_except
    (let df_new := DataFrame row_data in
     e ← exists_ output_file;
     if negb e then to_excel df_new output_file
     else
       try_except
         (df_exist ← read_excel output_file;
          to_excel (concat df_exist df_new) output_file)
         (λ exc, match exc with
                 | PermissionError => to_excel df_new (output_file +:+ ".temp")
                 | _ => raise exc
                 end))
    (λ _, to_excel (DataFrame row_data) (output_file +:+ ".backup")).

(** The writer in append mode puts the one-cell row under the last used
    row of the sheet, in its first column. *)
Definition add_row_below (t : frame) (v : val) : frame :=
  let cs := match columns t with [] => ["Unnamed: 0"] | _ => columns t end in
  Frame cs (map (reindex cs) (rows t) ++ [reindex cs [(hd "" cs, v)]])%list.

Definition append_unmatched_to_excel (name : string) (unmatched_file : string)
    : M unit :=
  e ← exists_ unmatched_file;
  if negb e
  then to_excel (DataFrame [[("原始的未匹配bgm游戏名称", VStr name)]])
                unmatched_file
  else λ w,
    match files w !! unmatched_file with
    | Some (Sheet t) => set_file unmatched_file (Sheet (add_row_below t (VStr name))) w
    | Some (Locked _) => (Raise PermissionError, w)
    | Some Corrupt => (Raise BadZipFile, w)
    | None => (Raise FileNotFoundError, w)
    end.

Definition append_org_to_excel (org_info : dict) (output_file : string)
    : M unit :=
  append_to_excel [org_info] output_file.
End store.

(** ** get_organization_details *)

Section organization.
Context `{Runtime}.

(** [v.lower()]: only strings have it. *)
Definition lower (v : val) : res string :=
  match v with
  | VStr s => Ok (py_lower s)
  | _ => Raise AttributeError
  end.

Definition priority : list string :=
  ["homepage"; "官网"; "官方网站"; "official website"].

(** The inner [for site in org_data["website"]] loop for one [title]:
    the first site whose title matches overwrites [website] and ends the
    loop; without a match [website] keeps its value. *)
Fixpoint scan_sites (title : string) (website : val) (sites : list val)
    : res val :=
  match sites with
  | [] => Ok website
  | site :: rest =>
      match py_get site "title" (VStr "") with
      | Raise e => Raise e
      | Ok t =>
          match lower t with
          | Raise e => Raise e
          | Ok lt =>
              if String.eqb lt (py_lower title)
              then py_get site "link" (VStr "")
              else scan_sites title website rest
          end
      end
  end.

(** The outer [for title in priority] loop, left as soon as [website] is
    true. *)
Fixpoint scan_priority (titles : list string) (website : val)
    (sites : list val) : res val :=
  match titles with
  | [] => Ok website
  | title :: rest =>
      match scan_sites title website sites with
      | Raise e => Raise e
      | Ok website' =>
          if truthy website' then Ok website'
          else scan_priority rest website' sites
      end
  end.

(** Lines 304-315. *)
Definition extract_website (org_data : dict) : res val :=
  match dict_get org_data "website" VNone with
  | VList sites =>
      match scan_priority priority (VStr "") sites with
      | Raise e => Raise e
      | Ok website =>
          match sites with
          | first :: _ =>
              if negb (truthy website) then py_get first "link" (VStr "")
              else Ok website
          | [] => Ok website
          end
      end
  | _ => Ok (VStr "")
  end.

(** The body of the [try] block, after the request. *)
Definition organization_of (org_id : string) (r : response)
    : res (option dict) :=
  if status_code r =? 200 then
    match json (body r) with
    | Raise e => Raise e
    | Ok data =>
        match py_get data "data" (VDict []) with
        | Raise e => Raise e
        | Ok d =>
            match py_get d "org" (VDict []) with
            | Raise e => Raise e
            | Ok org_data =>
                if negb (truthy org_data) then Ok None
                else
                  match org_data with
                  | VDict od =>
                      match extract_website od with
                      | Raise e => Raise e
                      | Ok website =>
                          Ok (Some
                            [("id", VStr org_id);
                             ("name", dict_get od "name" (VStr ""));
                             ("chineseName", dict_get od "chineseName" (VStr ""));
                             ("website", website);
                             ("description", dict_get od "introduction" (VStr ""));
                             ("birthday", dict_get od "birthday" (VStr ""))])
                      end
                  | _ => Raise AttributeError   (* org_data.get *)
                  end
            end
        end
    end
  else Ok None.

Definition get_organization_details (org_id : string) (token : val)
    : M (option dict) :=
  try_except
    (r ← http (GetOrg org_id token);
     lift (organization_of org_id r))
    (λ _, mret None).
End organization.

(** ** match_bgm_games_and_save *)

(** An entry of [processed_orgs]. *)
Record org_entry : Type := OrgEntry { info : dict; retry_count : Z }.

(** What the loop body did with one source row. *)
Inductive outcome : Type :=
| Skipped (bgm_id : string)            (* already processed *)
| EmptyName (bgm_id : string)          (* both names empty *)
| Matched (row_data : dict)            (* a row handed to append_to_excel *)
| Unmatched (bgm_id : string).         (* no candidate *)

Section pipeline.
Context `{Runtime}.

(** Lines 423-426 and 431-434: one [if matches and matches[0]["score"] >
    best_score] update of [(best_match, best_score, match_source)]. *)
Definition better (best : option candidate * float * string)
    (matches : list candidate) (source : string)
    : option candidate * float * string :=
  match matches with
  | m :: _ => if float_gt (score m) (snd (fst best))
              then (Some m, score m, source) else best
  | [] => best
  end.

(** Lines 416-434. *)
Definition select_best (jp_name cn_name : string)
    : M (option candidate * float * string) :=
  let best := (None, Fin (-1), "") in
  best ← (if negb (String.eqb jp_name "")
          then jp_matches ← search_default jp_name;
               mret (better best jp_matches "日文名")
          else mret best);
  if negb (String.eqb cn_name "")
  then cn_matches ← search_default cn_name;
       mret (better best cn_matches "中文名")
  else mret best.

(** Line 447: the cached record lacks a website or a description. *)
Definition incomplete (existing : dict) : bool :=
  negb (truthy (dict_get existing "website" VNone))
  || negb (truthy (dict_get existing "description" VNone)).

(** Lines 443-452: decide whether to look the organization up and count
    the attempt. *)
Definition mark_for_lookup (org_id : string)
    (processed_orgs : gmap string org_entry)
    : bool * gmap string org_entry :=
  match processed_orgs !! org_id with
  | Some e =>
      let existing := info e in
      if incomplete existing
      then (true, <[org_id := OrgEntry (info e) (retry_count e + 1)]> processed_orgs)
      else (false, processed_orgs)
  | None => (true, <[org_id := OrgEntry [] 1]> processed_orgs)
  end.

(** Lines 443-460, for a non-empty [org_id]: the organization record to
    use ([None] when a lookup was made and failed) and the new cache. *)
Definition resolve_org (org_id : string)
    (processed_orgs : gmap string org_entry) (org_output_file : string)
    : M (option dict * gmap string org_entry) :=
  let '(should_retry, processed_orgs) := mark_for_lookup org_id processed_orgs in
  match processed_orgs !! org_id with
  | None => raise KeyError
  | Some e =>
      if should_retry && (retry_count e <=? 3) then
        token ← get_token;
        org_info ← get_organization_details org_id token;
        match org_info with
        | Some oi =>
            let processed_orgs := <[org_id := OrgEntry oi (retry_count e)]> processed_orgs in
            append_org_to_excel oi org_output_file;;
            mret (Some oi, processed_orgs)
        | None => mret (None, processed_orgs)
        end
      else mret (Some (info e), processed_orgs)
  end.

(** [(org_info or {}).get(key, fallback)] *)
Definition org_field (org_info : option dict) (key : string) (fallback : val)
    : val :=
  match org_info with
  | Some oi => dict_get oi key fallback
  | None => fallback
  end.

(** Lines 463-477. *)
Definition make_row (bgm_id jp_name cn_name : string) (best_match : candidate)
    (org_id : string) (org_info : option dict) (match_source : string) : dict :=
  [("bgm_id", VStr bgm_id);
   ("bgm游戏", VStr (if negb (String.eqb jp_name "") then jp_name else cn_name));
   ("日文名 (原始)", VStr jp_name);
   ("中文名 (原始)", VStr cn_name);
   ("name", name best_match);
   ("chineseName", chineseName best_match);
   ("ym_id", ym_id best_match);
   ("score", VFloat (score best_match));
   ("orgId", VStr org_id);
   ("orgName", org_field org_info "name" (orgName best_match));
   ("orgWebsite", org_field org_info "website" (orgWebsite best_match));
   ("orgDescription", org_field org_info "description" (orgDescription best_match));
   ("匹配来源", VStr match_source)].

(** [str(row[c]).strip() if pd.notna(row[c]) else ""] *)
Definition name_of (row : dict) (c : string) : string :=
  if notna (cell row c) then py_strip (py_str (cell row c)) else "".

(** Line 400. *)
Definition bgm_id_of (idx : nat) (row : dict) : string :=
  match dict_find row "id" with
  | Some v => if notna v then py_str v else "ROW_" +:+ pretty idx
  | None => "ROW_" +:+ pretty idx
  end.

(** The body of the main loop (lines 400-487) for the row at index [idx]. *)
Definition process_row (output_file unmatched_file org_output_file : string)
    (processed_ids : gset string) (idx : nat) (row : dict)
    (processed_orgs : gmap string org_entry)
    : M (outcome * gmap string org_entry) :=
  let bgm_id := bgm_id_of idx row in
  if bool_decide (bgm_id ∈ processed_ids) then
    mret (Skipped bgm_id, processed_orgs)
  else
    let jp_name := name_of row "日文名" in
    let cn_name := name_of row "中文名" in
    if String.eqb jp_name "" && String.eqb cn_name "" then
      append_unmatched_to_excel ("ID_" +:+ bgm_id +:+ "_空名称") unmatched_file;;
      mret (EmptyName bgm_id, processed_orgs)
    else
      '(best_match, _, match_source) ← select_best jp_name cn_name;
      match best_match with
      | Some best_match =>
          let org_id := py_str (orgId best_match) in
          '(org_info, processed_orgs) ←
            (if negb (String.eqb org_id "")
             then resolve_org org_id processed_orgs org_output_file
             else mret (None, processed_orgs));
          let row_data :=
            make_row bgm_id jp_name cn_name best_match org_id org_info
                     match_source in
          append_to_excel [row_data] output_file;;
          mret (Matched row_data, processed_orgs)
      | None =>
          append_unmatched_to_excel ("ID_" +:+ bgm_id +:+ "_未匹配") unmatched_file;;
          mret (Unmatched bgm_id, processed_orgs)
      end.

(** [for idx, row in df_bgm.iterrows()]: what was done with the rows
    handled so far, and how the loop ended.  A row during which an
    exception escapes has appended nothing to [output_file] (the append is
    the last effect of the body) and leaves no entry. *)
Fixpoint process_rows (output_file unmatched_file org_output_file : string)
    (processed_ids : gset string) (idx : nat) (rows : list dict)
    (processed_orgs : gmap string org_entry) (w : world)
    : (list outcome * res unit) * world :=
  match rows with
  | [] => (([], Ok tt), w)
  | row :: rest =>
      match process_row output_file unmatched_file org_output_file
                        processed_ids idx row processed_orgs w with
      | (Ok (o, processed_orgs), w') =>
          let '((os, r), w'') :=
            process_rows output_file unmatched_file org_output_file
                         processed_ids (S idx) rest processed_orgs w' in
          ((o :: os, r), w'')
      | (Raise e, w') => (([], Raise e), w')
      end
  end.

(** [set(df["bgm_id"].dropna().astype(str))] *)
Definition ids_of (df : frame) : gset string :=
  list_to_set (map py_str (filter (λ v, notna v = true)
                                  (map (λ r, cell r "bgm_id") (rows df)))).

(** Lines 362-372. *)
Definition load_processed_ids (output_file : string) : M (gset string) :=
  e ← exists_ output_file;
  if e : bool then
    try_except
      (df_exist ← read_excel output_file;
       if bool_decide ("bgm_id" ∈ columns df_exist)
       then mret (ids_of df_exist) else mret ∅)
      (λ _, mret ∅)
  else mret ∅.

(** Lines 384-396.  [row["org_id"]] raises on the first row when the
    column is missing, which leaves the cache empty. *)
Definition load_org_cache (org_output_file : string)
    : M (gmap string org_entry) :=
  e ← exists_ org_output_file;
  if e : bool then
    try_except
      (org_df ← read_excel org_output_file;
       if bool_decide ("org_id" ∈ columns org_df)
       then mret (foldl (λ m row, <[py_str (cell row "org_id") := OrgEntry row 0]> m)
                        ∅ (rows org_df))
       else mret ∅)
      (λ _, mret ∅)
  else mret ∅.

(** Lines 353-396: everything before the loop.  [None] is the early
    return when no token could be obtained. *)
Definition prepare (input_file output_file org_output_file : string)
    : M (option (frame * gset string * gmap string org_entry)) :=
  df_bgm ← read_excel input_file;
  if negb (bool_decide ("日文名" ∈ columns df_bgm))
     || negb (bool_decide ("中文名" ∈ columns df_bgm))
  then raise ValueError
  else
    processed_ids ← load_processed_ids output_file;
    token ← get_access_token;
    set_token token;;
    if negb (truthy token) then mret None
    else
      init_excel output_file;;
      init_org_excel org_output_file;;
      processed_orgs ← load_org_cache org_output_file;
      mret (Some (df_bgm, processed_ids, processed_orgs)).

Definition match_bgm_games_and_save
    (input_file output_file unmatched_file org_output_file : string)
    (w : world) : (list outcome * res unit) * world :=
  match prepare input_file output_file org_output_file w with
  | (Ok (Some (df_bgm, processed_ids, processed_orgs)), w') =>
      process_rows output_file unmatched_file org_output_file
                   processed_ids 0 (rows df_bgm) processed_orgs w'
  | (Ok None, w') => (([], Ok tt), w')
  | (Raise e, w') => (([], Raise e), w')
  end.
End pipeline.

(** ** The secondary aligner: match_ym_with_bangumi *)

#[global] Instance res_ret : MRet res := λ A a, Ok a.
#[global] Instance res_bind : MBind res := λ A B f r,
  match r with
  | Ok a => f a
  | Raise e => Raise e
  end.

(** [row[c]] on a row of a frame: a missing column is a [KeyError]. *)
Definition row_get (r : dict) (c : string) : res val :=
  match dict_find r c with
  | Some v => Ok v
  | None => Raise KeyError
  end.

Section aligner.
Context `{Runtime}.

Definition calculate_similarity (str1 str2 : val) : res Q :=
  a ← lower str1;
  b ← lower str2;
  mret (ratio a b).

(** The inner loop (lines 522-525), started from [(best_match,
    best_score)]. *)
Fixpoint best_bangumi (ym_name : val) (bg_rows : list dict)
    (best : option dict * Q) : res (option dict * Q) :=
  match bg_rows with
  | [] => Ok best
  | bg_row :: rest =>
      bg_name ← row_get bg_row "游戏名称";
      score ← calculate_similarity ym_name bg_name;
      best_bangumi ym_name rest
        (if negb (Qle_bool score (snd best)) then (Some bg_row, score)
         else best)
  end.

(** The body of the outer loop: the row appended to [results], if any. *)
Definition align_row (ym_row : dict) (bg_rows : list dict)
    : res (option dict) :=
  ym_name ← row_get ym_row "name";
  ym_cn_name ← row_get ym_row "chineseName";
  ym_id ← row_get ym_row "ym_id";
  '(best_match, best_score) ← best_bangumi ym_name bg_rows (None, 0%Q);
  match best_match with
  | Some bm =>
      if Qle_bool (8 # 10) best_score then
        bangumi_name ← row_get bm "游戏名称";
        mret (Some
          [("ym_id", ym_id);
           ("ym_name", ym_name);
           ("ym_chinese_name", ym_cn_name);
           ("bangumi_id", dict_get bm "游戏ID" (VStr ""));
           ("bangumi_name", bangumi_name);
           ("bangumi_score", dict_get bm "评分" (VStr ""));
           ("bangumi_rank", dict_get bm "排名" (VStr ""));
           ("bangumi_votes", dict_get bm "投票数" (VStr ""));
           ("bangumi_summary", dict_get bm "简介" (VStr ""));
           ("match_score", VFloat (round4 (Fin best_score)))])
      else mret None
  | None => mret None
  end.

Fixpoint align_rows (ym_rows bg_rows : list dict) : res (list dict) :=
  match ym_rows with
  | [] => Ok []
  | ym_row :: rest =>
      r ← align_row ym_row bg_rows;
      rs ← align_rows rest bg_rows;
      mret (match r with Some row => row :: rs | None => rs end)
  end.

(** The rows handed to [to_csv]. *)
Definition match_ym_with_bangumi (ym_file bangumi_file : string)
    : M (list dict) :=
  ym_df ← read_excel ym_file;
  bg_df ← read_excel bangumi_file;
  lift (align_rows (rows ym_df) (rows bg_df)).
End aligner.

(** ** A runtime to evaluate the program on examples

    It agrees with CPython on the inputs the examples use: [str] of strings,
    integers, booleans, [None] and short decimals; [float] of plain decimal
    strings; [lower] and [strip] on ASCII; a spreadsheet layer that returns
    what was written, except that blank and [None] cells read back as NaN.
    [exact_ratio] is the similarity of equal and of letter-disjoint strings
    only (1 and 0); it stands in for [difflib] on such pairs. *)
Module Sample.

Definition lower_ascii (a : ascii) : ascii :=
  let n := nat_of_ascii a in
  if ((65 <=? n) && (n <=? 90))%nat then ascii_of_nat (n + 32) else a.

Fixpoint lower (s : string) : string :=
  match s with
  | EmptyString => EmptyString
  | String a s' => String (lower_ascii a) (lower s')
  end.

Definition is_space (a : ascii) : bool :=
  let n := nat_of_ascii a in
  ((n =? 32) || ((9 <=? n) && (n <=? 13)))%nat.

Fixpoint lstrip (s : string) : string :=
  match s with
  | String a s' => if is_space a then lstrip s' else s
  | EmptyString => EmptyString
  end.

Definition strip (s : string) : string :=
  String.rev (lstrip (String.rev (lstrip s))).

(** Up to [n] fractional digits of [r / d], trailing zeros dropped. *)
Fixpoint frac_digits (n : nat) (r d : Z) : string :=
  match n with
  | O => ""
  | S n' => if r =? 0 then ""
            else pretty (10 * r / d) +:+ frac_digits n' (10 * r mod d) d
  end.

Definition str_float (x : float) : string :=
  match x with
  | NaN => "nan"
  | Fin q =>
      let d := Zpos (Qden q) in
      let a := Z.abs (Qnum q) in
      let fr := frac_digits 17 (a mod d) d in
      (if Qnum q <? 0 then "-" else "") +:+ pretty (a / d) +:+ "." +:+
      (if String.eqb fr "" then "0" else fr)
  end.

Definition str (v : val) : string :=
  match v with
  | VStr s => s
  | VInt z => pretty z
  | VNone => "None"
  | VBool true => "True"
  | VBool false => "False"
  | VFloat x => str_float x
  | VList _ => "[...]"
  | VDict _ => "{...}"
  end.

Definition digit (a : ascii) : option Z :=
  let n := nat_of_ascii a in
  if ((48 <=? n) && (n <=? 57))%nat then Some (Z.of_nat n - 48) else None.

(** [digits acc scale s]: read decimal digits, [scale] counting the
    fractional ones read so far once the point is passed. *)
Fixpoint decimal (seen_point : bool) (num : Z) (den : positive) (s : string)
    : option Q :=
  match s with
  | EmptyString => Some (num # den)
  | String a s' =>
      match digit a with
      | Some k => decimal seen_point (10 * num + k)
                          (if seen_point then 10 * den else den)%positive s'
      | None => if Ascii.eqb a "." && negb seen_point
                then decimal true num den s' else None
      end
  end.

Definition float_of_str (s : string) : option float :=
  match strip s with
  | EmptyString | "." => None
  | String "-" s' =>
      match s' with
      | EmptyString | "." => None
      | _ => option_map (λ q, Fin (- q)) (decimal false 0 1 s')
      end
  | s' => option_map Fin (decimal false 0 1 s')
  end.

Definition exact_ratio (a b : string) : Q :=
  if String.eqb a b then 1 else 0.

Definition blank_to_nan (v : val) : val :=
  match v with
  | VStr "" | VNone => VFloat NaN
  | _ => v
  end.

Definition read_back (df : frame) : frame :=
  Frame (columns df)
        (map (λ r, map (λ kv, (fst kv, blank_to_nan (snd kv))) r) (rows df)).

#[global] Instance runtime : Runtime := {|
  py_str := str;
  py_float_of_str := float_of_str;
  py_lower := lower;
  py_strip := strip;
  ratio := exact_ratio;
  xlsx := read_back;
|}.

End Sample.

(** ** Vocabulary of the statements *)

Definition is_search (r : request) : bool :=
  match r with GetSearch _ _ => true | _ => false end.

(** The number of search requests among [trace]. *)
Fixpoint searches (trace : list request) : nat :=
  match trace with
  | [] => 0
  | r :: trace' => (if is_search r then 1 else 0) + searches trace'
  end.

(** The token endpoint answers 200 with a dictionary whose [access_token]
    is [t]. *)
Definition grants (r : reply) (t : val) : Prop :=
  ∃ d, r = Reply 200 (Some (VDict d)) ∧ dict_get d "access_token" VNone = t.

(** The token endpoint answers, but with no usable token: a status other
    than 200, or a dictionary whose [access_token] is missing or false. *)
Definition refuses (r : reply) : Prop :=
  (∃ s b, r = Reply s b ∧ s ≠ 200) ∨ (∃ t, grants r t ∧ truthy t = false).

(** The refresh itself fails with [e]: the token endpoint is unreachable
    (in the script of replies: the next reply is [Unreachable], or there
    is none), or it answers 200 with a body that is not JSON or that is
    not a dictionary. *)
Definition refresh_fails (replies : list reply) (e : exn) : Prop :=
  (replies = [] ∧ e = ConnectionError)
  ∨ (∃ rest, replies = Unreachable :: rest ∧ e = ConnectionError)
  ∨ (∃ rest, replies = Reply 200 None :: rest ∧ e = JSONDecodeError)
  ∨ (∃ v rest, replies = Reply 200 (Some v) :: rest ∧ (∀ d, v ≠ VDict d)
               ∧ e = AttributeError).

(** [k] attempts that each met a 401 followed by a successful refresh. *)
Inductive unauthorized_rounds : nat → list reply → Prop :=
| ur_nil : unauthorized_rounds 0 []
| ur_cons n b r t l :
    grants r t → truthy t = true → unauthorized_rounds n l →
    unauthorized_rounds (S n) (Reply 401 b :: r :: l).

(** Descending order of the keys, as [sorted(..., reverse=True)] leaves
    them. *)
Fixpoint descending {A} (key : A → float) (l : list A) : Prop :=
  match l with
  | [] => True
  | x :: l' => Forall (λ y, float_ge (key x) (key y) = true) l' ∧ descending key l'
  end.

Definition finite (x : float) : Prop := ∃ q, x = Fin q.

(** [x == y] on floats: numeric equality, false as soon as one is NaN. *)
Definition float_eq (x y : float) : Prop :=
  match x, y with
  | Fin a, Fin b => (a == b)%Q
  | _, _ => False
  end.

(** A computation that touches nothing but the files. *)
Definition files_only {A} (m : M A) : Prop :=
  ∀ w, sent (snd (m w)) = sent w
       ∧ inbox (snd (m w)) = inbox w
       ∧ token_ref (snd (m w)) = token_ref w.

(** The entry is marked for lookup: the organization is not in the cache
    yet, or its cached record lacks a website or a description. *)
Definition marked (processed_orgs : gmap string org_entry) (org_id : string)
    : bool :=
  match processed_orgs !! org_id with
  | None => true
  | Some e => incomplete (info e)
  end.

(** The entry's retry count once the call has marked it. *)
Definition count_after (processed_orgs : gmap string org_entry)
    (org_id : string) : Z :=
  match processed_orgs !! org_id with
  | None => 1
  | Some e => if incomplete (info e) then retry_count e + 1
              else retry_count e
  end.

Section website_vocabulary.
Context `{Runtime}.

(** A labeled link: a dictionary whose title, when present, is a string. *)
Definition labeled (site : val) : Prop :=
  ∃ d t, site = VDict d ∧ dict_get d "title" (VStr "") = VStr t.

Definition site_link (site : val) : val :=
  match site with
  | VDict d => dict_get d "link" (VStr "")
  | _ => VStr ""
  end.

(** The site's title equals [p] up to case. *)
Definition titled (p : string) (site : val) : bool :=
  match site with
  | VDict d =>
      match dict_get d "title" (VStr "") with
      | VStr t => String.eqb (py_lower t) (py_lower p)
      | _ => false
      end
  | _ => false
  end.

(** The link of the first listed site titled [p]. *)
Definition first_titled (p : string) (sites : list val) : option val :=
  site_link <$> find (titled p) sites.

(** The link found for the first title of [titles] that has a site and
    whose link passes [ok]. *)
Fixpoint pick (ok : val → bool) (titles : list string) (sites : list val)
    : option val :=
  match titles with
  | [] => None
  | p :: rest =>
      match first_titled p sites with
      | Some l => if ok l then Some l else pick ok rest sites
      | None => pick ok rest sites
      end
  end.

(** Fall back to the first listed link. *)
Definition or_first_link (o : option val) (sites : list val) : val :=
  match o with
  | Some l => l
  | None => match sites with
            | first :: _ => site_link first
            | [] => VStr ""
            end
  end.

(** The selection as the specification words it: the link whose title
    equals the first entry of the priority order that matches any title,
    else the first listed link. *)
Definition claimed_website (sites : list val) : val :=
  or_first_link (pick (λ _, true) priority sites) sites.

(** The selection the code makes: an entry whose link is empty is passed
    over. *)
Definition selected_website (sites : list val) : val :=
  or_first_link (pick truthy priority sites) sites.
End website_vocabulary.

(** The frame's last row carries every field of [r] as [r] has it. *)
Definition holds_last (df : frame) (r : dict) : Prop :=
  ∃ row, last (rows df) = Some row
         ∧ ∀ k v, dict_find r k = Some v → cell row k = v.

(** The last row of [df] has, for every field of [r], what [conv] makes
    of the field's value. *)
Definition holds_last_as (conv : val → val) (df : frame) (r : dict) : Prop :=
  ∃ row, last (rows df) = Some row
         ∧ ∀ k v, dict_find r k = Some v → cell row k = conv v.

(** The spreadsheet layer reads every cell back on its own: a cell written
    from [v] comes back as [conv v], rows and columns as written. *)
Definition cellwise `{Runtime} (conv : val → val) : Prop :=
  ∀ df, xlsx df
        = Frame (columns df)
                (map (λ r, map (λ kv, (fst kv, conv (snd kv))) r) (rows df)).

(** [m] is the largest of the numbers [l]. *)
Definition is_maximum (m : Q) (l : list Q) : Prop :=
  (∃ x, x ∈ l ∧ (x == m)%Q) ∧ ∀ x, x ∈ l → (x <= m)%Q.

Section aligner_vocabulary.
Context `{Runtime}.

(** The similarity of two names: the ratio of their lower-cased forms. *)
Definition similarity (a b : string) : Q := ratio (py_lower a) (py_lower b).

(** [difflib] returns ratios between 0 and 1. *)
Definition ratio_bounded : Prop :=
  ∀ a b, (0 <= ratio a b)%Q ∧ (ratio a b <= 1)%Q.

(** A matched row the aligner can read: it has the three columns, and its
    name is a string. *)
Definition ym_readable (ym_row : dict) : Prop :=
  ∃ a cn i, dict_find ym_row "name" = Some (VStr a)
            ∧ dict_find ym_row "chineseName" = Some cn
            ∧ dict_find ym_row "ym_id" = Some i.

Definition ym_name_of (ym_row : dict) : string :=
  match dict_find ym_row "name" with Some (VStr a) => a | _ => "" end.

(** Some name of the third table is similar to the row's name by at least
    0.8. *)
Definition reaches (names : list string) (ym_row : dict) : bool :=
  existsb (λ n, Qle_bool (8 # 10) (similarity (ym_name_of ym_row) n)) names.

(** [row] joins [ym_row] to a row of the third table whose name is most
    similar to its name, and carries that similarity, rounded. *)
Definition joins (bg_rows : list dict) (names : list string)
    (ym_row row : dict) : Prop :=
  ∃ bm n,
    bm ∈ bg_rows ∧ dict_find bm "游戏名称" = Some (VStr n)
    ∧ is_maximum (similarity (ym_name_of ym_row) n)
                 (map (similarity (ym_name_of ym_row)) names)
    ∧ dict_find row "ym_id" = dict_find ym_row "ym_id"
    ∧ dict_find row "ym_name" = Some (VStr (ym_name_of ym_row))
    ∧ dict_find row "bangumi_name" = Some (VStr n)
    ∧ dict_find row "bangumi_id" = Some (dict_get bm "游戏ID" (VStr ""))
    ∧ dict_find row "match_score"
      = Some (VFloat (round4 (Fin (similarity (ym_name_of ym_row) n)))).
End aligner_vocabulary.

(** The source identifier an entry of the journal is about. *)
Definition outcome_id (o : outcome) : string :=
  match o with
  | Skipped i | EmptyName i | Unmatched i => i
  | Matched row_data =>
      match dict_find row_data "bgm_id" with
      | Some (VStr i) => i
      | _ => ""
      end
  end.

(** The identifiers of the rows handed to [append_to_excel]. *)
Definition matched_ids (os : list outcome) : list string :=
  omap (λ o, match o with
             | Matched _ => Some (outcome_id o)
             | _ => None
             end) os.

Section resume_vocabulary.
Context `{Runtime}.

(** The identifiers of the source rows, the first of which has index
    [idx]. *)
Fixpoint source_ids (idx : nat) (rows : list dict) : list string :=
  match rows with
  | [] => []
  | row :: rest => bgm_id_of idx row :: source_ids (S idx) rest
  end.

(** The identifiers the run takes as already processed: what
    [load_processed_ids] returns when the run starts. *)
Definition stored_ids (output_file : string) (w : world) : gset string :=
  match load_processed_ids output_file w with
  | (Ok ids, _) => ids
  | (Raise _, _) => ∅
  end.

Definition is_skipped (o : outcome) : bool :=
  match o with Skipped _ => true | _ => false end.

(** The rows with their indices, the first of which is [idx]. *)
Fixpoint indexed (idx : nat) (rows : list dict) : list (nat * dict) :=
  match rows with
  | [] => []
  | row :: rest => (idx, row) :: indexed (S idx) rest
  end.

(** The rows whose identifier is not among [stored]. *)
Definition pending (stored : gset string) (irows : list (nat * dict))
    : list (nat * dict) :=
  List.filter (λ ir, negb (bool_decide (bgm_id_of ir.1 ir.2 ∈ stored))) irows.

(** The main loop over rows that carry their own index, so that it can be
    run over a part of the source rows: [process_rows] is this loop over
    all of them. *)
Fixpoint process_indexed (output_file unmatched_file org_output_file : string)
    (processed_ids : gset string) (irows : list (nat * dict))
    (processed_orgs : gmap string org_entry) (w : world)
    : (list outcome * res unit) * world :=
  match irows with
  | [] => (([], Ok tt), w)
  | (idx, row) :: rest =>
      match process_row output_file unmatched_file org_output_file
                        processed_ids idx row processed_orgs w with
      | (Ok (o, processed_orgs), w') =>
          let '((os, r), w'') :=
            process_indexed output_file unmatched_file org_output_file
                            processed_ids rest processed_orgs w' in
          ((o :: os, r), w'')
      | (Raise e, w') => (([], Raise e), w')
      end
  end.
End resume_vocabulary.

(** ** Example replies, files and worlds *)

Module Examples.

(** A token reply carrying [t]. *)
Definition token_reply (t : string) : reply :=
  Reply 200 (Some (VDict [("access_token", VStr t)])).

(** A search result without organization data. *)
Definition result_item (n : string) (s : Q) : val :=
  VDict [("name", VStr n); ("id", VInt 7); ("score", VFloat (Fin s))].

Definition search_body (items : list val) : option val :=
  Some (VDict [("data", VDict [("result", VList items)])]).

Definition search_reply (items : list val) : reply :=
  Reply 200 (search_body items).

Definition org_body (fields : dict) : val :=
  VDict [("data", VDict [("org", VDict fields)])].

Definition source_row (i : Z) (jp : string) : dict :=
  [("id", VInt i); ("日文名", VStr jp); ("中文名", VFloat NaN)].

Definition source_frame (rs : list dict) : frame :=
  Frame ["id"; "日文名"; "中文名"] rs.

(** A source table that lists the identifier 1 twice, no matched store
    yet, and a service that finds a candidate for both rows. *)
Definition duplicate_world : world :=
  World {["in.xlsx" := Sheet (source_frame [source_row 1 "A"; source_row 1 "B"])]}
        [token_reply "T";
         search_reply [result_item "A1" (9 # 10)];
         search_reply [result_item "B1" (7 # 10)]]
        [] VNone.

(** A matched store that already holds identifier 1, and a source table
    with the identifiers 1 and 2. *)
Definition stored_frame : frame :=
  Frame EXCEL_COLUMNS_MATCHED
        [reindex EXCEL_COLUMNS_MATCHED [("bgm_id", VInt 1); ("name", VStr "A1")]].

Definition resume_world : world :=
  World {["in.xlsx" := Sheet (source_frame [source_row 1 "A"; source_row 2 "B"]);
          "out.xlsx" := Sheet stored_frame]}
        [token_reply "T"; search_reply [result_item "B1" (7 # 10)]]
        [] VNone.

(** A matched record. *)
Definition record : dict :=
  [("bgm_id", VStr "1"); ("bgm游戏", VStr "A"); ("日文名 (原始)", VStr "A");
   ("中文名 (原始)", VStr "甲"); ("name", VStr "A1"); ("chineseName", VStr "甲一");
   ("ym_id", VInt 7); ("score", VFloat (Fin (9 # 10))); ("orgId", VStr "10");
   ("orgName", VStr "Org"); ("orgWebsite", VStr "http://x");
   ("orgDescription", VStr "D"); ("匹配来源", VStr "日文名")].

(** A matched record whose Chinese name is empty. *)
Definition blank_record : dict :=
  [("bgm_id", VStr "1"); ("name", VStr "A1"); ("chineseName", VStr "")].

(** The matched store is open in another program. *)
Definition locked_world : world :=
  World {["out.xlsx" := Locked (empty_frame EXCEL_COLUMNS_MATCHED)]} [] [] VNone.

Definition writable_world : world :=
  World {["out.xlsx" := Sheet stored_frame]} [] [] VNone.

(** The organization store is present but is not a workbook. *)
Definition corrupt_world : world :=
  World {["org.xlsx" := Corrupt]} [] [] VNone.

(** Two labeled links; the one titled with the first priority entry has
    an empty link. *)
Definition sites_with_empty_homepage : list val :=
  [VDict [("title", VStr "Homepage"); ("link", VStr "")];
   VDict [("title", VStr "官网"); ("link", VStr "http://a")]].

Definition sites_with_links : list val :=
  [VDict [("title", VStr "Wiki"); ("link", VStr "http://w")];
   VDict [("title", VStr "Official Website"); ("link", VStr "http://o")];
   VDict [("title", VStr "官网"); ("link", VStr "http://a")]].

(** One 401, a refresh, then the results. *)
Definition retry_world (items : list val) : world :=
  World ∅ [Reply 401 None; token_reply "T2"; search_reply items] [] (VStr "T1").

(** Four 401 replies, each followed by a successful refresh. *)
Definition exhausted_world : world :=
  World ∅ [Reply 401 None; token_reply "T2"; Reply 401 None; token_reply "T3";
           Reply 401 None; token_reply "T4"; Reply 401 None; token_reply "T5"]
        [] (VStr "T1").

(** A 401 whose refresh is refused. *)
Definition refused_world : world :=
  World ∅ [Reply 401 None; Reply 500 None] [] (VStr "T1").

(** A 401 after which the token endpoint cannot be reached. *)
Definition unreachable_refresh_world : world :=
  World ∅ [Reply 401 None; Unreachable] [] (VStr "T1").

(** A 401 after which the token endpoint answers 200 with a body that is
    not JSON. *)
Definition garbled_refresh_world : world :=
  World ∅ [Reply 401 None; Reply 200 None] [] (VStr "T1").

(** Both name variants find a candidate. *)
Definition two_names_world (sa sb : Q) : world :=
  World ∅ [search_reply [result_item "A1" sa]; search_reply [result_item "B1" sb]]
        [] (VStr "T").

(** A cache entry for organization 10 that lacks a website. *)
Definition incomplete_entry (n : Z) : org_entry :=
  OrgEntry [("id", VStr "10"); ("name", VStr "Org"); ("website", VStr "");
            ("description", VStr "D")] n.

Definition org_world : world :=
  World ∅ [Reply 200 (Some (org_body [("name", VStr "Org");
                                        ("website", VStr "http://x");
                                        ("introduction", VStr "D")]))]
        [] (VStr "T").

(** A service that never delivers the organization, and [n] resolve calls
    in a row for organization 10, starting from [cache]. *)
Definition failing_org_world : world :=
  World ∅ [Reply 500 None; Reply 500 None; Reply 500 None; Reply 500 None]
        [] (VStr "T").

Fixpoint resolve_times (n : nat) (cache : gmap string org_entry) (w : world)
    : world :=
  match n with
  | O => w
  | S n' =>
      match resolve_org "10" cache "org.xlsx" w with
      | (Ok (_, cache'), w') => resolve_times n' cache' w'
      | (Raise _, w') => w'
      end
  end.

(** Rows of the third table, and a matched row to align. *)
Definition bangumi_rows : list dict :=
  [[("游戏ID", VInt 5); ("游戏名称", VStr "Kizuki")];
   [("游戏ID", VInt 6); ("游戏名称", VStr "CLANNAD")]].

Definition ym_row : dict :=
  [("name", VStr "Clannad"); ("chineseName", VStr "团子"); ("ym_id", VInt 7)].

(** A matched row that resembles no name of the third table, and one whose
    name cell is blank. *)
Definition other_ym_row : dict :=
  [("name", VStr "Xyz"); ("chineseName", VStr "其他"); ("ym_id", VInt 8)].

Definition unnamed_ym_row : dict :=
  [("name", VFloat NaN); ("chineseName", VStr "无名"); ("ym_id", VInt 9)].

Definition alignment_world (ym_rows : list dict) : world :=
  World {["ym.xlsx" := Sheet (Frame ["name"; "chineseName"; "ym_id"] ym_rows);
          "bg.xlsx" := Sheet (Frame ["游戏ID"; "游戏名称"] bangumi_rows)]}
        [] [] VNone.

End Examples.

(** ** Further vocabulary *)

Definition is_dict (v : val) : bool :=
  match v with VDict _ => true | _ => false end.

Definition is_str (v : val) : bool :=
  match v with VStr _ => true | _ => false end.

(** The rational a finite float denotes; NaN has none. *)
Definition float_value (x : float) : option Q :=
  match x with Fin q => Some q | NaN => None end.

(** [x < y] strictly, both finite. *)
Definition float_below (x y : float) : Prop :=
  match x, y with
  | Fin a, Fin b => (a < b)%Q
  | _, _ => False
  end.

(** [response.json().get("data", {}).get("org", {})] *)
Definition reply_org (b : option val) : res val :=
  data ← json b;
  d ← py_get data "data" (VDict []);
  py_get d "org" (VDict []).

(** ** Further example inputs *)

Module MoreExamples.

(** A candidate with the name [n] and the score [s]. *)
Definition cand (n : string) (s : Q) : candidate :=
  Candidate (VStr n) (VStr "") (VInt 7) (Fin s)
            (VStr "") (VStr "") (VStr "") (VStr "").

(** A result item whose score is null, and what it parses to. *)
Definition null_score_item : dict := [("name", VStr "A"); ("score", VNone)].

Definition null_score_candidate : candidate :=
  Candidate (VStr "A") (VStr "") (VStr "") (Fin (0 # 10000))
            (VStr "") (VStr "") (VStr "") (VStr "").

(** The service answers 500 once. *)
Definition error_world : world := World ∅ [Reply 500 None] [] (VStr "T").

(** A 401, a refresh, then the connection breaks. *)
Definition broken_world : world :=
  World ∅ [Reply 401 None; Examples.token_reply "T2"; Unreachable] []
        (VStr "T1").

(** An organization whose first link has a null title. *)
Definition null_title_body : val :=
  Examples.org_body
    [("name", VStr "Org");
     ("website", VList [VDict [("title", VNone); ("link", VStr "http://a")]])].

Definition null_title_world : world :=
  World ∅ [Reply 200 (Some null_title_body)] [] (VStr "T").

(** The organization of [Examples.org_world], as the reply carries it. *)
Definition string_website_org : dict :=
  [("name", VStr "Org"); ("website", VStr "http://x");
   ("introduction", VStr "D")].

(** A source table with a Japanese name in every row, and one without
    identifiers. *)
Definition named_source : frame :=
  Examples.source_frame [Examples.source_row 1 "A"].

Definition rows_without_id : list dict :=
  [[("日文名", VStr "A")]; [("日文名", VStr "B")]; [("日文名", VStr "C")]].

(** A source row whose two names are empty. *)
Definition nameless_row : dict :=
  [("id", VInt 3); ("日文名", VFloat NaN); ("中文名", VStr "  ")].

Definition idle_world : world := World ∅ [] [] (VStr "T").

(** Candidate rows of which the second and the third tie. *)
Definition tied_rows : list dict :=
  [[("游戏ID", VInt 5); ("游戏名称", VStr "Kizuki")];
   [("游戏ID", VInt 6); ("游戏名称", VStr "CLANNAD")];
   [("游戏ID", VInt 8); ("游戏名称", VStr "clannad")]].

(** A matched row whose name cell is empty. *)
Definition blank_name_row : dict :=
  [("name", VFloat NaN); ("chineseName", VStr "团子"); ("ym_id", VInt 7)].

End MoreExamples.

(** * Properties *)

(** ** Stepping through the monad *)

Ltac run := unfold mbind, M_bind, mret, M_ret, lift, raise, get_token,
                   set_token, http, try_except; cbn.

Lemma get_access_token_grants r t fs rest st tk :
  grants r t →
  get_access_token (World fs (r :: rest) st tk)
  = (Ok t, World fs rest (st ++ [PostToken]) tk).
Proof. intros (d & -> & <-). unfold get_access_token. by run. Qed.

Lemma get_access_token_refuses r fs rest st tk :
  refuses r →
  ∃ t, get_access_token (World fs (r :: rest) st tk)
       = (Ok t, World fs rest (st ++ [PostToken]) tk) ∧ truthy t = false.
Proof.
  intros [(s & b & -> & Hs)|(t & Hg & Ht)].
  - exists VNone. split; [|done]. unfold get_access_token. run.
    by destruct (Z.eqb_spec s 200).
  - exists t. split; [|done]. by apply get_access_token_grants.
Qed.

(** ** Sorting *)

Section sorting_facts.
Context {A : Type} (key : A → float).

Lemma insert_desc_perm x (l : list A) : insert_desc key x l ≡ₚ x :: l.
Proof.
  induction l as [|y l IH]; cbn; [done|].
  destruct (float_lt (key x) (key y)); [|done].
  rewrite IH. apply Permutation_swap.
Qed.

Lemma sorted_desc_perm (l : list A) : sorted_desc key l ≡ₚ l.
Proof.
  induction l as [|x l IH]; cbn; [done|].
  fold (sorted_desc key l). by rewrite insert_desc_perm, IH.
Qed.

Lemma sorted_desc_length (l : list A) :
  length (sorted_desc key l) = length l.
Proof. apply Permutation_length, sorted_desc_perm. Qed.

Lemma float_ge_trans x y z :
  float_ge x y = true → float_ge y z = true → float_ge x z = true.
Proof.
  destruct x as [a|], y as [b|], z as [c|]; cbn; try done.
  rewrite !Qle_bool_iff. intros ??. by eapply Qle_trans.
Qed.

Lemma float_lt_ge x y :
  finite x → finite y → float_lt x y = false → float_ge x y = true.
Proof.
  intros [a ->] [b ->]. cbn. rewrite negb_false_iff. done.
Qed.

Lemma float_lt_le x y : float_lt x y = true → float_ge y x = true.
Proof.
  destruct x as [a|], y as [b|]; cbn; try done.
  rewrite negb_true_iff. intros Hn.
  apply Qle_bool_iff, Qlt_le_weak, Qnot_le_lt. intros Hle.
  apply Qle_bool_iff in Hle. congruence.
Qed.

Lemma insert_desc_descending x (l : list A) :
  finite (key x) → Forall (λ y, finite (key y)) l →
  descending key l → descending key (insert_desc key x l).
Proof.
  intros Hx. induction l as [|y l IH]; intros Hfin Hd; cbn.
  { split; [constructor|done]. }
  destruct Hd as [Hy Hd]. inversion Hfin as [|?? Hfy Hfl]; subst.
  destruct (float_lt (key x) (key y)) eqn:E; cbn.
  - split; [|by apply IH].
    rewrite insert_desc_perm. constructor; [|done].
    by apply float_lt_le.
  - pose proof (float_lt_ge _ _ Hx Hfy E) as Hge.
    split; [|done]. constructor; [done|].
    eapply Forall_impl; [exact Hy|]. cbn. intros z Hz.
    by eapply float_ge_trans.
Qed.

(** Without NaN among the keys the result is in descending order. *)
Lemma sorted_desc_descending (l : list A) :
  Forall (λ y, finite (key y)) l → descending key (sorted_desc key l).
Proof.
  induction 1 as [|x l Hx Hl IH]; cbn; [done|].
  fold (sorted_desc key l). apply insert_desc_descending; [done| |done].
  by rewrite sorted_desc_perm.
Qed.
End sorting_facts.

(** ** The search client *)

Section search_facts.
Context `{Runtime}.
Implicit Types (keyword : string) (top_k : nat) (threshold : float).

(** A 401 followed by a successful refresh: one token request, the new
    token stored, and the loop goes on with one attempt fewer. *)
Lemma search_attempts_401 n keyword top_k threshold fs b r t rest st tk :
  grants r t → truthy t = true →
  search_attempts (S n) keyword top_k threshold
                  (World fs (Reply 401 b :: r :: rest) st tk)
  = search_attempts n keyword top_k threshold
      (World fs rest (st ++ [GetSearch keyword tk; PostToken]) t).
Proof.
  intros Hg Ht. cbn [search_attempts]. run.
  erewrite get_access_token_grants by done. rewrite Ht. cbn.
  by rewrite <- app_assoc.
Qed.

Lemma search_attempts_rounds keyword top_k threshold k pre :
  unauthorized_rounds k pre →
  ∀ n w rest, inbox w = (pre ++ rest)%list →
  ∃ w1, search_attempts (k + n) keyword top_k threshold w
        = search_attempts n keyword top_k threshold w1
      ∧ files w1 = files w ∧ inbox w1 = rest
      ∧ ∃ trace, sent w1 = (sent w ++ trace)%list ∧ searches trace = k.
Proof.
  induction 1 as [|k b r t l Hg Ht Hl IH]; intros n w rest Hin.
  - exists w. repeat split; try done. exists []. by rewrite app_nil_r.
  - destruct w as [fs ib st tk]. simpl in Hin. subst ib.
    set (w2 := World fs (l ++ rest) (st ++ [GetSearch keyword tk; PostToken]) t).
    destruct (IH n w2 rest eq_refl) as (w1 & E & Hf & Hi & trace & Hs & Hc).
    exists w1. split.
    { rewrite <- E. by apply search_attempts_401. }
    repeat split; try done.
    exists (GetSearch keyword tk :: PostToken :: trace). split.
    + rewrite Hs. unfold w2. cbn. by rewrite <- app_assoc.
    + cbn. by rewrite Hc.
Qed.

(** Whatever the service answers, [n] attempts issue at most [n]
    searches. *)
Lemma search_attempts_bound n keyword top_k threshold w :
  ∃ trace, sent (snd (search_attempts n keyword top_k threshold w))
           = (sent w ++ trace)%list
         ∧ (searches trace ≤ n)%nat.
Proof.
  revert w. induction n as [|n IH]; intros [fs ib st tk].
  { exists []. cbn. by rewrite app_nil_r. }
  cbn [search_attempts]. run.
  destruct ib as [|[s b|] ib]; cbn;
    [exists [GetSearch keyword tk]; split; [done|cbn; lia]|
    |exists [GetSearch keyword tk]; split; [done|cbn; lia]].
  destruct (s =? 200).
  { exists [GetSearch keyword tk].
    destruct (parse_search_response b); cbn; (split; [done|lia]). }
  destruct (s =? 401); [|exists [GetSearch keyword tk]; cbn; split; [done|lia]].
  unfold get_access_token. run.
  destruct ib as [|[s' b'|] ib]; cbn;
    [exists [GetSearch keyword tk; PostToken]; rewrite <- app_assoc;
     split; [done|cbn; lia]|
    |exists [GetSearch keyword tk; PostToken]; rewrite <- app_assoc;
     split; [done|cbn; lia]].
  assert (Hstop : ∃ trace,
    ((st ++ [GetSearch keyword tk]) ++ [PostToken])%list = (st ++ trace)%list
    ∧ (searches trace ≤ S n)%nat).
  { exists [GetSearch keyword tk; PostToken].
    rewrite <- app_assoc. split; [done|cbn; lia]. }
  destruct (s' =? 200); cbn; [|by apply Hstop].
  destruct (json b') as [data|e]; cbn; [|by apply Hstop].
  destruct (py_get data "access_token" VNone) as [t|e]; cbn; [|by apply Hstop].
  destruct (truthy t); cbn; [|by apply Hstop].
  match goal with |- context [search_attempts n _ _ _ ?w2] =>
    destruct (IH w2) as (trace & Hs & Hc) end.
  exists (GetSearch keyword tk :: PostToken :: trace).
  rewrite Hs. cbn. rewrite <- !app_assoc. split; [done|lia].
Qed.

Lemma search_attempts_200 n keyword top_k threshold b rest fs st tk parsed :
  parse_search_response b = Ok parsed →
  search_attempts (S n) keyword top_k threshold
                  (World fs (Reply 200 b :: rest) st tk)
  = (Ok (top_matches top_k threshold parsed),
     World fs rest (st ++ [GetSearch keyword tk]) tk).
Proof. intros E. cbn [search_attempts]. run. by rewrite E. Qed.

Lemma search_attempts_refused n keyword top_k threshold b r rest fs st tk :
  refuses r →
  search_attempts (S n) keyword top_k threshold
                  (World fs (Reply 401 b :: r :: rest) st tk)
  = (Ok [], World fs rest (st ++ [GetSearch keyword tk; PostToken]) tk).
Proof.
  intros Hr. cbn [search_attempts]. run.
  destruct (get_access_token_refuses r fs rest (st ++ [GetSearch keyword tk]) tk Hr)
    as (t & -> & ->).
  cbn. by rewrite <- app_assoc.
Qed.

Lemma get_access_token_fails replies e fs st tk :
  refresh_fails replies e →
  fst (get_access_token (World fs replies st tk)) = Raise e.
Proof.
  intros [[-> ->]|[(rest & -> & ->)|[(rest & -> & ->)|(v & rest & -> & Hv & ->)]]];
    unfold get_access_token; run; try done.
  destruct v; try done. by destruct (Hv d).
Qed.

Lemma search_attempts_failed_refresh n keyword top_k threshold b replies e fs st tk :
  refresh_fails replies e →
  fst (search_attempts (S n) keyword top_k threshold
                       (World fs (Reply 401 b :: replies) st tk))
  = Raise e.
Proof.
  intros Hr. cbn [search_attempts]. run.
  pose proof (get_access_token_fails replies e fs
                (st ++ [GetSearch keyword tk]) tk Hr) as Hf.
  destruct (get_access_token _) as [[t|e'] w1]; cbn in Hf; [done|].
  by injection Hf as ->.
Qed.

Lemma float_ge_refl x : finite x → float_ge x x = true.
Proof. intros [q ->]. cbn. apply Qle_bool_iff, Qle_refl. Qed.

(** C4. A search call that ends on a 200 reply (possibly after 401
    replies that were each followed by a successful refresh) returns the
    parsed candidates sorted by descending score and cut: exactly the top
    candidate when its score is at least the threshold, in particular
    when it equals the threshold, and otherwise the first [top_k], hence
    at most [top_k], candidates. *)
Theorem search_threshold_short_circuit keyword top_k threshold
    k pre b rest w parsed :
  unauthorized_rounds k pre → (k < 4)%nat →
  inbox w = (pre ++ Reply 200 b :: rest)%list →
  parse_search_response b = Ok parsed →
  let ranked := sorted_desc score parsed in
  ∃ result w',
    search_ym_top_matches keyword top_k threshold w = (Ok result, w')
    ∧ inbox w' = rest
    ∧ (∀ top others, ranked = top :: others →
         float_ge (score top) threshold = true →
         result = [top] ∧ length result = 1%nat)
    ∧ (∀ top others, ranked = top :: others →
         finite threshold → score top = threshold → result = [top])
    ∧ (∀ top others, ranked = top :: others →
         float_ge (score top) threshold = false →
         result = take top_k ranked ∧ (length result ≤ top_k)%nat)
    ∧ (ranked = [] → result = []).
Proof.
  intros Hpre Hk Hin Hparse ranked.
  destruct (search_attempts_rounds keyword top_k threshold k pre Hpre
              (4 - k) w (Reply 200 b :: rest) Hin)
    as (w1 & E & Hf & Hi & trace & Hs & Hc).
  replace (k + (4 - k))%nat with 4%nat in E by lia.
  destruct (4 - k)%nat as [|m] eqn:Em; [lia|].
  destruct w1 as [fs1 ib1 st1 tk1]. cbn in Hi. subst ib1.
  rewrite (search_attempts_200 _ _ _ _ _ _ _ _ _ _ Hparse) in E.
  eexists _, _. split; [exact E|]. split; [done|].
  unfold top_matches. fold ranked.
  assert (Htop : ∀ top others, ranked = top :: others →
            float_ge (score top) threshold = true →
            match ranked with
            | m :: _ => if float_ge (score m) threshold then take 1 ranked
                        else take top_k ranked
            | [] => take top_k ranked
            end = [top]).
  { intros top others -> Hge. by rewrite Hge. }
  split; [|split; [|split]].
  - intros top others Hr Hge. erewrite Htop by done. done.
  - intros top others Hr Hfin Heq. eapply Htop; [done|].
    rewrite Heq. by apply float_ge_refl.
  - intros top others Hr Hlt. rewrite Hr, Hlt.
    split; [done|]. rewrite length_take. lia.
  - intros Hr. rewrite Hr. by destruct top_k.
Qed.

(** C5 (as amended).  One search call issues at most four search
    requests whatever the service answers; a 401 followed by a successful
    refresh costs exactly one token request, stores the new token and
    leaves one attempt fewer; four such rounds, or a 401 whose refresh is
    answered without a usable token, end the call with the empty list,
    not with an exception.  A 401 whose refresh itself fails (the token
    endpoint is unreachable, or its 200 reply is not JSON or not a
    dictionary) makes the call raise that failure. *)
Theorem search_retries_at_most_four keyword top_k threshold :
  (∀ w, ∃ trace,
      sent (snd (search_ym_top_matches keyword top_k threshold w))
      = (sent w ++ trace)%list
      ∧ (searches trace ≤ 4)%nat)
  ∧ (∀ n fs b r t rest st tk,
      grants r t → truthy t = true →
      search_attempts (S n) keyword top_k threshold
                      (World fs (Reply 401 b :: r :: rest) st tk)
      = search_attempts n keyword top_k threshold
          (World fs rest (st ++ [GetSearch keyword tk; PostToken]) t))
  ∧ (∀ pre rest w,
      unauthorized_rounds 4 pre → inbox w = (pre ++ rest)%list →
      ∃ w', search_ym_top_matches keyword top_k threshold w = (Ok [], w')
            ∧ inbox w' = rest)
  ∧ (∀ k pre b r rest w,
      unauthorized_rounds k pre → (k < 4)%nat → refuses r →
      inbox w = (pre ++ Reply 401 b :: r :: rest)%list →
      ∃ w', search_ym_top_matches keyword top_k threshold w = (Ok [], w')
            ∧ inbox w' = rest)
  ∧ (∀ k pre b replies e w,
      unauthorized_rounds k pre → (k < 4)%nat → refresh_fails replies e →
      inbox w = (pre ++ Reply 401 b :: replies)%list →
      fst (search_ym_top_matches keyword top_k threshold w) = Raise e).
Proof.
  split; [|split; [|split; [|split]]].
  - intros w. apply search_attempts_bound.
  - intros. by apply search_attempts_401.
  - intros pre rest w Hpre Hin.
    destruct (search_attempts_rounds keyword top_k threshold 4 pre Hpre
                0 w rest Hin) as (w1 & E & Hf & Hi & _).
    exists w1. by split.
  - intros k pre b r rest w Hpre Hk Hr Hin.
    destruct (search_attempts_rounds keyword top_k threshold k pre Hpre
                (4 - k) w _ Hin) as (w1 & E & Hf & Hi & _).
    replace (k + (4 - k))%nat with 4%nat in E by lia.
    destruct (4 - k)%nat as [|m] eqn:Em; [lia|].
    destruct w1 as [fs1 ib1 st1 tk1]. cbn in Hi. subst ib1.
    rewrite (search_attempts_refused _ _ _ _ _ _ _ _ _ _ Hr) in E.
    eexists. by split.
  - intros k pre b replies e w Hpre Hk Hr Hin.
    destruct (search_attempts_rounds keyword top_k threshold k pre Hpre
                (4 - k) w _ Hin) as (w1 & E & Hf & Hi & _).
    replace (k + (4 - k))%nat with 4%nat in E by lia.
    destruct (4 - k)%nat as [|m] eqn:Em; [lia|].
    destruct w1 as [fs1 ib1 st1 tk1]. cbn in Hi. subst ib1.
    unfold search_ym_top_matches. rewrite E.
    by apply search_attempts_failed_refresh.
Qed.
End search_facts.

(** ** Best-match selection *)

Section selection_facts.
Context `{Runtime}.

(** The two searches are made in the order A, B and the running best is
    replaced only by a strictly larger top score. *)
Lemma select_best_both jp_name cn_name w a others w1 b others' w2 :
  jp_name ≠ "" → cn_name ≠ "" →
  search_default jp_name w = (Ok (a :: others), w1) →
  search_default cn_name w1 = (Ok (b :: others'), w2) →
  select_best jp_name cn_name w
  = (Ok (better (better (None, Fin (-1), "") (a :: others) "日文名")
                (b :: others') "中文名"), w2).
Proof.
  intros Hjp Hcn Ea Eb. unfold select_best.
  apply String.eqb_neq in Hjp, Hcn. rewrite Hjp, Hcn. cbn [negb].
  unfold mbind at 1, M_bind at 1. unfold mbind at 1, M_bind at 1.
  rewrite Ea. unfold mret at 1, M_ret at 1.
  unfold mbind at 1, M_bind at 1. by rewrite Eb.
Qed.

(** C3. Both name variants are searched, A first.  Provided A's top
    score is above the initial best score -1.0 (scores are non-negative in
    the data model): when B's top score is not strictly greater than A's,
    in particular when the two are equal, A's top candidate is selected
    and the source field records A; when B's top score is strictly
    greater, B's top candidate is selected and the source field records
    B. *)
Theorem select_best_strict_comparison jp_name cn_name w a others w1
    b others' w2 :
  jp_name ≠ "" → cn_name ≠ "" →
  search_default jp_name w = (Ok (a :: others), w1) →
  search_default cn_name w1 = (Ok (b :: others'), w2) →
  float_gt (score a) (Fin (-1)) = true →
  (float_gt (score b) (score a) = false →
     select_best jp_name cn_name w = (Ok (Some a, score a, "日文名"), w2))
  ∧ (float_eq (score b) (score a) →
     select_best jp_name cn_name w = (Ok (Some a, score a, "日文名"), w2))
  ∧ (float_gt (score b) (score a) = true →
     select_best jp_name cn_name w = (Ok (Some b, score b, "中文名"), w2)).
Proof.
  intros Hjp Hcn Ea Eb Ha.
  rewrite (select_best_both _ _ _ _ _ _ _ _ _ Hjp Hcn Ea Eb).
  unfold better. cbn [fst snd]. rewrite Ha. cbn [fst snd].
  assert (Hle : float_gt (score b) (score a) = false →
    (Ok (if float_gt (score b) (score a)
         then (Some b, score b, "中文名")
         else (Some a, score a, "日文名")), w2)
    = (Ok (Some a, score a, "日文名"), w2)).
  { by intros ->. }
  split; [exact Hle|split].
  - intros Heq. apply Hle.
    destruct (score a) as [qa|], (score b) as [qb|]; cbn in *; try done.
    apply negb_false_iff, Qle_bool_iff. rewrite Heq. apply Qle_refl.
  - by intros ->.
Qed.
End selection_facts.

(** ** Computations that only touch files *)

Create HintDb files_only.

Lemma files_only_ret {A} (a : A) : files_only (mret a).
Proof. by intros w. Qed.

Lemma files_only_raise {A} e : files_only (@raise A e).
Proof. by intros w. Qed.

Lemma files_only_bind {A B} (m : M A) (f : A → M B) :
  files_only m → (∀ a, files_only (f a)) → files_only (m ≫= f).
Proof.
  intros Hm Hf w. unfold mbind, M_bind.
  destruct (Hm w) as (Hs & Hi & Ht). destruct (m w) as [[a|e] w1]; cbn in *.
  - destruct (Hf a w1) as (Hs' & Hi' & Ht'). by rewrite Hs', Hi', Ht'.
  - done.
Qed.

Lemma files_only_try {A} (m : M A) (h : exn → M A) :
  files_only m → (∀ e, files_only (h e)) → files_only (try_except m h).
Proof.
  intros Hm Hh w. unfold try_except.
  destruct (Hm w) as (Hs & Hi & Ht). destruct (m w) as [[a|e] w1]; cbn in *.
  - done.
  - destruct (Hh e w1) as (Hs' & Hi' & Ht'). by rewrite Hs', Hi', Ht'.
Qed.

Lemma files_only_set_file path f : files_only (set_file path f).
Proof. by intros w. Qed.

Lemma files_only_exists path : files_only (exists_ path).
Proof. by intros w. Qed.

Lemma files_only_read_excel path : files_only (read_excel path).
Proof. intros w. unfold read_excel. by destruct (files w !! path) as [[]|]. Qed.

#[global] Hint Resolve files_only_ret files_only_raise files_only_set_file
  files_only_exists files_only_read_excel : files_only.

Ltac files_only :=
  repeat first
    [ progress intros
    | apply files_only_bind
    | apply files_only_try
    | solve [auto with files_only]
    | match goal with
      | |- files_only (if ?b then _ else _) => destruct b
      | |- files_only (match ?x with _ => _ end) => destruct x
      end ].

Section store_facts.
Context `{Runtime}.

Lemma files_only_to_excel df path : files_only (to_excel df path).
Proof.
  intros w. unfold to_excel.
  destruct (excel_writer path); cbn; [|done].
  by destruct (files w !! path) as [[]|].
Qed.
Hint Resolve files_only_to_excel : files_only.

Lemma files_only_load_workbook path : files_only (load_workbook path).
Proof. unfold load_workbook. files_only. Qed.
Hint Resolve files_only_load_workbook : files_only.

Lemma files_only_init_excel path : files_only (init_excel path).
Proof. unfold init_excel. files_only. Qed.

Lemma files_only_init_org_excel path : files_only (init_org_excel path).
Proof. unfold init_org_excel. files_only. Qed.

Lemma files_only_append_to_excel row_data path :
  files_only (append_to_excel row_data path).
Proof. unfold append_to_excel. files_only. Qed.

Lemma files_only_append_org_to_excel org_info path :
  files_only (append_org_to_excel org_info path).
Proof. apply files_only_append_to_excel. Qed.

Lemma files_only_append_unmatched_to_excel name path :
  files_only (append_unmatched_to_excel name path).
Proof.
  unfold append_unmatched_to_excel. files_only.
  intros w. by destruct (files w !! path) as [[]|].
Qed.
End store_facts.

#[global] Hint Resolve files_only_to_excel files_only_load_workbook
  files_only_init_excel files_only_init_org_excel files_only_append_to_excel
  files_only_append_org_to_excel files_only_append_unmatched_to_excel
  : files_only.

(** ** The organization cache and its retry budget *)

Section cache_facts.
Context `{Runtime}.

(** A lookup issues exactly one request and never raises. *)
Lemma get_organization_details_request org_id token w :
  ∃ r w', get_organization_details org_id token w = (Ok r, w')
          ∧ sent w' = (sent w ++ [GetOrg org_id token])%list
          ∧ files w' = files w ∧ token_ref w' = token_ref w
          ∧ inbox w' = tail (inbox w).
Proof.
  unfold get_organization_details. run.
  destruct (inbox w) as [|[s b|] ib]; cbn; [by eexists _, _| |by eexists _, _].
  destruct (organization_of org_id (Response s b)); by eexists _, _.
Qed.

Lemma mark_for_lookup_spec org_id (processed_orgs : gmap string org_entry) :
  ∃ e, (mark_for_lookup org_id processed_orgs).2 !! org_id = Some e
       ∧ (mark_for_lookup org_id processed_orgs).1 = marked processed_orgs org_id
       ∧ retry_count e = count_after processed_orgs org_id
       ∧ info e = match processed_orgs !! org_id with
                  | Some e0 => info e0
                  | None => []
                  end.
Proof.
  unfold mark_for_lookup, marked, count_after.
  destruct (processed_orgs !! org_id) as [e0|] eqn:E; cbn.
  - destruct (incomplete (info e0)); cbn.
    + eexists. by rewrite lookup_insert_eq.
    + exists e0. by rewrite E.
  - eexists. by rewrite lookup_insert_eq.
Qed.

(** C2. A resolve call sends one organization request exactly when the
    entry is marked for lookup (not in the cache, or cached without a
    website or a description) and its retry count, after the call has
    counted the attempt, is at most 3; otherwise it sends nothing, leaves
    the world as it is and returns the cached record.  In particular an
    entry whose retry count already exceeds 3 is answered from the cache,
    complete or not. *)
Theorem resolve_org_retry_budget org_id (processed_orgs : gmap string org_entry)
    org_output_file w r w' :
  resolve_org org_id processed_orgs org_output_file w = (r, w') →
  (marked processed_orgs org_id = true
     ∧ count_after processed_orgs org_id ≤ 3
     → sent w' = (sent w ++ [GetOrg org_id (token_ref w)])%list)
  ∧ (marked processed_orgs org_id = false
     ∨ 3 < count_after processed_orgs org_id
     → w' = w
       ∧ ∃ e cache, processed_orgs !! org_id = Some e
                    ∧ r = Ok (Some (info e), cache)
                    ∧ (retry_count <$> cache !! org_id)
                      = Some (count_after processed_orgs org_id))
  ∧ (∀ e, processed_orgs !! org_id = Some e → 3 < retry_count e →
       w' = w ∧ ∃ cache, r = Ok (Some (info e), cache)).
Proof.
  intros E. unfold resolve_org in E.
  destruct (mark_for_lookup_spec org_id processed_orgs)
    as (e1 & Hl & Hm & Hc & Hi).
  destruct (mark_for_lookup org_id processed_orgs) as [should_retry cache1].
  cbn [fst snd] in *. rewrite Hl in E. subst should_retry.
  rewrite Hc in E.
  assert (Hskip : marked processed_orgs org_id = false
                  ∨ 3 < count_after processed_orgs org_id →
          w' = w ∧ ∃ e cache, processed_orgs !! org_id = Some e
                    ∧ r = Ok (Some (info e), cache)
                    ∧ (retry_count <$> cache !! org_id)
                      = Some (count_after processed_orgs org_id)).
  { intros Hno.
    assert (marked processed_orgs org_id
            && (count_after processed_orgs org_id <=? 3) = false) as Hf.
    { destruct Hno as [->|Hgt]; [done|].
      apply andb_false_iff. right. by apply Z.leb_gt. }
    rewrite Hf in E. injection E as <- <-. split; [done|].
    destruct (processed_orgs !! org_id) as [e0|] eqn:E0.
    - exists e0, cache1. rewrite Hi, Hl. cbn. by rewrite Hc.
    - unfold marked, count_after in Hno. rewrite E0 in Hno.
      destruct Hno; [done|lia]. }
  split; [|split; [exact Hskip|]].
  - intros [Hmk Hle]. rewrite Hmk in E.
    apply Z.leb_le in Hle. rewrite Hle in E. cbn [andb] in E.
    unfold mbind at 1, M_bind at 1, get_token in E.
    unfold mbind at 1, M_bind at 1 in E.
    destruct (get_organization_details_request org_id (token_ref w) w)
      as (o & w1 & Eo & Hs & Hf & Ht & Hib).
    rewrite Eo in E. destruct o as [oi|].
    + unfold mbind, M_bind in E.
      pose proof (files_only_append_org_to_excel oi org_output_file w1)
        as (Hs2 & _).
      destruct (append_org_to_excel oi org_output_file w1) as [[[]|ex] w2];
        cbn in *; injection E as <- <-; by rewrite Hs2, Hs.
    + by injection E as <- <-.
  - intros e He Hgt. destruct Hskip as [-> (e' & cache & He' & -> & _)].
    + unfold marked, count_after. rewrite He.
      destruct (incomplete (info e)); [right; lia|by left].
    + split; [done|]. exists cache. congruence.
Qed.
End cache_facts.

(** ** The organization lookup: the website field *)

Section website_facts.
Context `{Runtime}.

Lemma scan_sites_labeled title website sites :
Forall labeled sites →
scan_sites title website sites
= Ok (match first_titled title sites with
      | Some l => l
      | None => website
      end).
Proof.
unfold first_titled.
induction 1 as [|site sites (d & t & -> & Ht) Hs IH]; cbn; [done|].
rewrite Ht. cbn. destruct (String.eqb (py_lower t) (py_lower title)); cbn.
- done.
- exact IH.
Qed.

(** Started from a false [website], the priority loop ends on the picked
  link, or on a false value when no entry yields a true link. *)
Lemma scan_priority_labeled titles website sites :
Forall labeled sites → truthy website = false →
∃ v, scan_priority titles website sites = Ok v
     ∧ match pick truthy titles sites with
       | Some l => v = l ∧ truthy l = true
       | None => truthy v = false
       end.
Proof.
intros Hs. revert website.
induction titles as [|p titles IH]; intros website Hw; cbn.
{ by exists website. }
rewrite scan_sites_labeled by done.
destruct (first_titled p sites) as [l|]; cbn.
- destruct (truthy l) eqn:El.
  + by exists l.
  + by apply IH.
- rewrite Hw. by apply IH.
Qed.

Lemma labeled_link site :
labeled site → py_get site "link" (VStr "") = Ok (site_link site).
Proof. by intros (d & t & -> & _). Qed.

Lemma extract_website_labeled od sites :
dict_get od "website" VNone = VList sites → Forall labeled sites →
extract_website od = Ok (selected_website sites).
Proof.
intros Ew Hs. unfold extract_website, selected_website. rewrite Ew.
destruct sites as [|first sites]; [done|].
destruct (scan_priority_labeled priority (VStr "") (first :: sites) Hs eq_refl)
  as (v & -> & Hv).
destruct (pick truthy priority (first :: sites)) as [l|]; cbn.
- destruct Hv as [-> Hl]. by rewrite Hl.
- rewrite Hv. cbn. apply labeled_link. by inversion Hs.
Qed.

Lemma pick_ext (ok ok' : val → bool) titles sites :
(∀ p l, first_titled p sites = Some l → ok l = ok' l) →
pick ok titles sites = pick ok' titles sites.
Proof.
intros Hok. induction titles as [|p titles IH]; cbn; [done|].
destruct (first_titled p sites) as [l|] eqn:E; [|done].
by rewrite (Hok p l E), IH.
Qed.

Lemma first_titled_link p sites l :
first_titled p sites = Some l → ∃ site, site ∈ sites ∧ l = site_link site.
Proof.
unfold first_titled. destruct (find (titled p) sites) as [site|] eqn:E; [|done].
intros [= <-]. exists site. split; [|done].
apply list_elem_of_In. by eapply find_some.
Qed.


(** C10. A 200 reply whose organization carries a plain string in its
  website field yields a record whose website is the empty string: the
  string is dropped. *)
Theorem string_website_is_dropped org_id token w data d od s rest :
inbox w = Reply 200 (Some data) :: rest →
py_get data "data" (VDict []) = Ok d →
py_get d "org" (VDict []) = Ok (VDict od) →
dict_find od "website" = Some (VStr s) →
∃ result w',
  get_organization_details org_id token w = (Ok (Some result), w')
  ∧ dict_find result "website" = Some (VStr "")
  ∧ dict_find result "id" = Some (VStr org_id)
  ∧ dict_find result "name" = Some (dict_get od "name" (VStr ""))
  ∧ dict_find result "description"
    = Some (dict_get od "introduction" (VStr "")).
Proof.
intros Hin Hd Ho Hw.
unfold get_organization_details, organization_of. run. rewrite Hin. cbn.
rewrite Hd. cbn. rewrite Ho.
assert (truthy (VDict od) = true) as -> by (by destruct od).
cbn. unfold extract_website, dict_get at 1. rewrite Hw. cbn.
eexists _, _. split; [done|]. by cbn.
Qed.
End website_facts.

(** ** The incremental store *)

Lemma length_append (s x : string) :
  String.length (s +:+ x) = (String.length s + String.length x)%nat.
Proof. induction s as [|a s IH]; simpl; [done|]. by rewrite IH. Qed.

Lemma sibling_ne (s x : string) : x ≠ "" → s +:+ x ≠ s.
Proof.
  intros Hx E. assert (String.length (s +:+ x) = String.length s) as E'
    by by rewrite E.
  rewrite length_append in E'. destruct x; [done|]. cbn in E'. lia.
Qed.

Lemma dict_find_cell r k v : dict_find r k = Some v → cell r k = v.
Proof. unfold cell, dict_get. by intros ->. Qed.

Lemma dict_find_reindex cs r k :
  k ∈ cs → dict_find (reindex cs r) k = Some (cell r k).
Proof.
  unfold reindex. induction cs as [|c cs IH]; cbn.
  { by intros ?%elem_of_nil. }
  intros Hin. destruct (String.eqb_spec k c) as [->|Hne]; [done|].
  apply IH. apply elem_of_cons in Hin. by destruct Hin.
Qed.

Lemma cell_reindex cs r k : k ∈ cs → cell (reindex cs r) k = cell r k.
Proof. intros Hin. by apply dict_find_cell, dict_find_reindex. Qed.

Lemma merge_columns_incl_l cs ks k : k ∈ cs → k ∈ merge_columns cs ks.
Proof.
  unfold merge_columns. revert cs.
  induction ks as [|c ks IH]; intros cs Hin; cbn; [done|].
  apply IH. case_bool_decide; [done|]. apply elem_of_app. by left.
Qed.

Lemma merge_columns_incl_r cs ks k : k ∈ ks → k ∈ merge_columns cs ks.
Proof.
  unfold merge_columns. revert cs.
  induction ks as [|c ks IH]; intros cs Hin; cbn.
  { by apply elem_of_nil in Hin. }
  apply elem_of_cons in Hin as [->|Hin]; [|by apply IH].
  apply (merge_columns_incl_l _ ks). case_bool_decide; [done|].
  apply elem_of_app. right. by apply list_elem_of_singleton.
Qed.

Lemma dict_find_key r k v : dict_find r k = Some v → k ∈ map fst r.
Proof.
  induction r as [|[k' v'] r IH]; cbn; [done|].
  destruct (String.eqb_spec k k') as [->|Hne]; intros E.
  - apply elem_of_cons. by left.
  - apply elem_of_cons. right. by apply IH.
Qed.

Lemma DataFrame_single r :
  DataFrame [r] = Frame (merge_columns [] (map fst r))
                        [reindex (merge_columns [] (map fst r)) r].
Proof. done. Qed.

Lemma holds_last_single r : holds_last (DataFrame [r]) r.
Proof.
  rewrite DataFrame_single. eexists. split; [done|].
  intros k v Hk. rewrite cell_reindex.
  - by apply dict_find_cell.
  - apply merge_columns_incl_r. by eapply dict_find_key.
Qed.

Lemma holds_last_concat t r : holds_last (concat t (DataFrame [r])) r.
Proof.
  unfold concat. rewrite DataFrame_single. cbn [rows columns].
  rewrite map_app. cbn [map]. eexists. split.
  { cbn [rows]. apply last_snoc. }
  intros k v Hk.
  assert (k ∈ merge_columns [] (map fst r)) as Hin.
  { apply merge_columns_incl_r. by eapply dict_find_key. }
  rewrite cell_reindex by by apply merge_columns_incl_r.
  rewrite cell_reindex by done. by apply dict_find_cell.
Qed.

Section store_roundtrip.
Context `{Runtime}.

Lemma ext_scan_app s1 s2 st :
ext_scan st (s1 +:+ s2) = ext_scan (ext_scan st s1) s2.
Proof. revert st. induction s1 as [|c s1 IH]; intros st; simpl; [done|apply IH]. Qed.

(** No writer serves the two fallback names. *)
Lemma excel_writer_temp path : excel_writer (path +:+ ".temp") = false.
Proof.
unfold excel_writer, extension. rewrite ext_scan_app.
by destruct (ext_scan (false, None) path) as [[] ?].
Qed.

Lemma excel_writer_backup path : excel_writer (path +:+ ".backup") = false.
Proof.
unfold excel_writer, extension. rewrite ext_scan_app.
by destruct (ext_scan (false, None) path) as [[] ?].
Qed.

Lemma to_excel_no_writer df path w :
excel_writer path = false → to_excel df path w = (Raise ValueError, w).
Proof. intros E. unfold to_excel. by rewrite E. Qed.

Lemma to_excel_writes df path w :
excel_writer path = true →
(∀ t, files w !! path ≠ Some (Locked t)) →
to_excel df path w
= (Ok tt, World (<[path := Sheet (xlsx df)]> (files w)) (inbox w) (sent w)
                (token_ref w)).
Proof.
intros Hw Hn. unfold to_excel, set_file. rewrite Hw. cbn.
destruct (files w !! path) as [[t|t|]|] eqn:E; try done.
by destruct (Hn t).
Qed.

Lemma to_excel_locked df path w t :
excel_writer path = true →
files w !! path = Some (Locked t) →
to_excel df path w = (Raise PermissionError, w).
Proof. intros Hw E. unfold to_excel. by rewrite Hw, E. Qed.

Lemma to_excel_other df path w r w' q :
to_excel df path w = (r, w') → q ≠ path → files w' !! q = files w !! q.
Proof.
unfold to_excel, set_file. intros E Hq.
destruct (excel_writer path); cbn in E; [|by injection E as <- <-].
destruct (files w !! path) as [[t|t|]|]; injection E as <- <-; cbn;
  try done; by rewrite lookup_insert_ne.
Qed.

(** A write either fails and changes nothing or stores a sheet. *)
Lemma to_excel_raises df path w e w' :
to_excel df path w = (Raise e, w') → w' = w.
Proof.
unfold to_excel, set_file. intros E.
destruct (excel_writer path); cbn in E; [|congruence].
destruct (files w !! path) as [[t|t|]|]; congruence.
Qed.

(** Both fallbacks of [append_to_excel] write under a name for which
  there is no writer: when the file is present and cannot be rewritten
  (it is locked, or it is not a workbook) the call raises and no file
  changes. *)
Lemma append_to_excel_unwritable row_data output_file w f :
files w !! output_file = Some f →
(f = Corrupt ∨ ∃ t, f = Locked t) →
append_to_excel row_data output_file w = (Raise ValueError, w).
Proof.
intros E Hf. unfold append_to_excel, exists_. run. rewrite E.
rewrite bool_decide_eq_true_2 by by eexists. cbn.
unfold read_excel at 1. rewrite E.
pose proof (to_excel_no_writer (DataFrame row_data) _ w
              (excel_writer_backup output_file)) as Hb.
pose proof (to_excel_no_writer (DataFrame row_data) _ w
              (excel_writer_temp output_file)) as Ht.
destruct Hf as [->|[t ->]]; [by rewrite Hb|].
destruct (to_excel (concat t (DataFrame row_data)) output_file w)
  as [[[]|e] w1] eqn:E1.
- unfold to_excel in E1. rewrite E in E1.
  by destruct (excel_writer output_file).
- apply to_excel_raises in E1 as E2. subst w1.
  destruct e; rewrite ?Ht, ?Hb; try done.
Qed.

(** C6 (what the two initialisers do).  [init_excel] creates the file with
  its header when it is missing and recreates it when it is present but
  is not a workbook; a workbook it leaves as it is.  [init_org_excel]
  creates the file with its header when it is missing, and leaves a
  present file as it is even when it is not a workbook, so that the file
  stays unreadable. *)
Theorem init_org_excel_keeps_corrupt_file path w :
files w !! path = Some Corrupt →
init_org_excel path w = (Ok tt, w)
∧ read_excel path (snd (init_org_excel path w)) = (Raise BadZipFile, w)
∧ (excel_writer path = true →
   ∃ w', init_excel path w = (Ok tt, w')
         ∧ read_excel path w'
           = (Ok (xlsx (empty_frame EXCEL_COLUMNS_MATCHED)), w')).
Proof.
intros E. split; [|split].
- unfold init_org_excel, exists_. run. rewrite E.
  rewrite bool_decide_eq_true_2 by by eexists. done.
- unfold init_org_excel, exists_. run. rewrite E.
  rewrite bool_decide_eq_true_2 by by eexists. cbn.
  unfold read_excel. by rewrite E.
- intros Hw. unfold init_excel, exists_, load_workbook. run. rewrite E.
  rewrite bool_decide_eq_true_2 by by eexists. cbn.
  unfold read_excel at 1. rewrite E.
  rewrite to_excel_writes by (try done; intros t; by rewrite E).
  eexists. split; [done|]. unfold read_excel. cbn.
  by rewrite lookup_insert_eq.
Qed.

Lemma dict_find_map_values (conv : val → val) (row : dict) k :
dict_find (map (λ kv, (fst kv, conv (snd kv))) row) k
= conv <$> dict_find row k.
Proof.
induction row as [|[k' v'] row IH]; cbn; [done|].
by destruct (String.eqb k k').
Qed.

Lemma last_map {A B} (f : A → B) (l : list A) :
last (map f l) = f <$> last l.
Proof.
induction l as [|x l IH]; [done|].
destruct l as [|y l]; [done|]. exact IH.
Qed.

Lemma holds_last_as_single conv r :
cellwise conv → holds_last_as conv (xlsx (DataFrame [r])) r.
Proof.
intros Hc. rewrite Hc, DataFrame_single. cbn [rows map last].
eexists. split; [done|]. intros k v Hk.
apply dict_find_cell. rewrite dict_find_map_values.
rewrite dict_find_reindex by (apply merge_columns_incl_r; by eapply dict_find_key).
cbn. do 2 f_equal. by apply dict_find_cell.
Qed.

Lemma holds_last_as_concat conv t r :
cellwise conv → holds_last_as conv (xlsx (concat t (DataFrame [r]))) r.
Proof.
intros Hc. rewrite Hc. unfold concat. rewrite DataFrame_single.
cbn [rows columns]. rewrite !map_app. cbn [map]. eexists. split.
{ apply last_snoc. }
intros k v Hk.
assert (k ∈ merge_columns [] (map fst r)) as Hin.
{ apply merge_columns_incl_r. by eapply dict_find_key. }
apply dict_find_cell. rewrite dict_find_map_values.
rewrite dict_find_reindex by by apply merge_columns_incl_r.
cbn. do 2 f_equal. rewrite cell_reindex by done. by apply dict_find_cell.
Qed.

End store_roundtrip.

(** ** The secondary aligner *)

Section aligner_facts.
Context `{Runtime}.

Lemma calculate_similarity_strings a b :
calculate_similarity (VStr a) (VStr b) = Ok (similarity a b).
Proof. done. Qed.

Lemma Qle_bool_false x y : Qle_bool x y = false → (y < x)%Q.
Proof.
intros E. apply Qnot_le_lt. intros Hle. apply Qle_bool_iff in Hle. congruence.
Qed.

(** The inner loop keeps the first row that reaches the largest similarity
  above the starting score. *)
Lemma best_bangumi_spec ym_name bg_rows names :
Forall2 (λ row n, dict_find row "游戏名称" = Some (VStr n)) bg_rows names →
∀ best, ∃ best',
  best_bangumi (VStr ym_name) bg_rows best = Ok best'
  ∧ (snd best <= snd best')%Q
  ∧ (∀ n, n ∈ names → (similarity ym_name n <= snd best')%Q)
  ∧ (best' = best
     ∨ ∃ bm n, fst best' = Some bm ∧ bm ∈ bg_rows ∧ n ∈ names
               ∧ dict_find bm "游戏名称" = Some (VStr n)
               ∧ snd best' = similarity ym_name n
               ∧ (snd best < snd best')%Q).
Proof.
induction 1 as [|row n bg_rows names Hrow Hrest IH]; intros best.
{ exists best. cbn. split; [done|]. split; [apply Qle_refl|].
  split; [by intros n ?%elem_of_nil|by left]. }
cbn [best_bangumi]. unfold row_get. rewrite Hrow.
unfold mbind at 1, res_bind at 1. rewrite calculate_similarity_strings.
unfold mbind at 1, res_bind at 1.
destruct (Qle_bool (similarity ym_name n) (snd best)) eqn:E; cbn [negb].
- apply Qle_bool_iff in E.
  destruct (IH best) as (best' & -> & Hle & Hall & Hcase).
  exists best'. split; [done|]. split; [done|]. split.
  + intros n' [->|Hin]%elem_of_cons; [|by apply Hall].
    by eapply Qle_trans.
  + destruct Hcase as [->|(bm & n' & ? & ? & ? & ? & ? & ?)]; [by left|].
    right. exists bm, n'. rewrite !elem_of_cons. eauto 10.
- apply Qle_bool_false in E.
  destruct (IH (Some row, similarity ym_name n))
    as (best' & -> & Hle & Hall & Hcase).
  cbn [fst snd] in *.
  exists best'. split; [done|]. split.
  { eapply Qle_trans; [apply Qlt_le_weak, E|done]. }
  split.
  + intros n' [->|Hin]%elem_of_cons; [done|by apply Hall].
  + right. destruct Hcase as [->|(bm & n' & ? & ? & ? & ? & ? & ?)].
    * exists row, n. cbn. rewrite !elem_of_cons. eauto 10.
    * exists bm, n'. rewrite !elem_of_cons.
      split; [done|]. split; [by right|]. split; [by right|].
      split; [done|]. split; [done|]. by eapply Qlt_trans.
Qed.

Lemma reaches_iff names ym_row m :
is_maximum m (map (similarity (ym_name_of ym_row)) names) →
reaches names ym_row = true ↔ (8 # 10 <= m)%Q.
Proof.
intros [(x & Hx & Hxm) Hmax]. unfold reaches. rewrite existsb_exists. split.
- intros (n & Hn & Hq). apply Qle_bool_iff in Hq.
  eapply Qle_trans; [exact Hq|]. apply Hmax.
  apply list_elem_of_fmap. exists n. split; [done|]. by apply list_elem_of_In.
- intros Hm. apply list_elem_of_fmap in Hx as (n & -> & Hn).
  exists n. split; [by apply list_elem_of_In|].
  apply Qle_bool_iff. by rewrite Hxm.
Qed.

(** One pass of the outer loop over a readable row. *)
Lemma align_row_spec ym_row bg_rows names :
ym_readable ym_row →
Forall2 (λ row n, dict_find row "游戏名称" = Some (VStr n)) bg_rows names →
(reaches names ym_row = false ∧ align_row ym_row bg_rows = Ok None)
∨ (reaches names ym_row = true
   ∧ ∃ row, align_row ym_row bg_rows = Ok (Some row)
            ∧ joins bg_rows names ym_row row).
Proof.
intros (a & cn & i & Hname & Hcn & Hid) Hrows.
assert (ym_name_of ym_row = a) as Ha by (unfold ym_name_of; by rewrite Hname).
destruct (best_bangumi_spec a bg_rows names Hrows (None, 0%Q))
  as (best' & Eb & Hle & Hall & Hcase).
assert (Hbelow : ∀ s, (∀ n, n ∈ names → (similarity a n <= s)%Q) →
          (s < 8 # 10)%Q → reaches names ym_row = false).
{ intros s Hs Hlt. unfold reaches. rewrite Ha.
  destruct (existsb _ names) eqn:E; [|done].
  apply existsb_exists in E as (n & Hn & Hq). apply Qle_bool_iff in Hq.
  apply list_elem_of_In in Hn. exfalso. apply (Qlt_irrefl s).
  eapply Qlt_le_trans; [exact Hlt|].
  eapply Qle_trans; [exact Hq|by apply Hs]. }
assert (Halign : align_row ym_row bg_rows
         = '(best_match, best_score) ← Ok best';
           match best_match with
           | Some bm =>
               if Qle_bool (8 # 10) best_score then
                 bangumi_name ← row_get bm "游戏名称";
                 mret (Some
                   [("ym_id", i);
                    ("ym_name", VStr a);
                    ("ym_chinese_name", cn);
                    ("bangumi_id", dict_get bm "游戏ID" (VStr ""));
                    ("bangumi_name", bangumi_name);
                    ("bangumi_score", dict_get bm "评分" (VStr ""));
                    ("bangumi_rank", dict_get bm "排名" (VStr ""));
                    ("bangumi_votes", dict_get bm "投票数" (VStr ""));
                    ("bangumi_summary", dict_get bm "简介" (VStr ""));
                    ("match_score", VFloat (round4 (Fin best_score)))])
               else mret None
           | None => mret None
           end).
{ unfold align_row, row_get. rewrite Hname, Hcn, Hid.
  unfold mbind at 1, res_bind at 1. unfold mbind at 1, res_bind at 1.
  unfold mbind at 1, res_bind at 1. by rewrite Eb. }
rewrite Halign. clear Halign.
destruct Hcase as [->|(bm & n & Hfst & Hbm & Hn & Hfind & Hsnd & Hlt)].
- left. split; [|done]. by apply (Hbelow 0%Q).
- destruct best' as [bo bs]. cbn [fst snd] in *. subst bo bs.
  cbn [mbind res_bind]. unfold row_get.
  destruct (Qle_bool (8 # 10) (similarity a n)) eqn:E.
  + right. split.
    * unfold reaches. rewrite Ha. apply existsb_exists. exists n.
      split; [by apply list_elem_of_In|done].
    * rewrite Hfind. cbn. eexists. split; [done|]. exists bm, n. rewrite Ha.
      split; [done|]. split; [done|]. split.
      { split.
        - exists (similarity a n). split; [|reflexivity].
          apply list_elem_of_fmap. by exists n.
        - intros x (n' & -> & Hn')%list_elem_of_fmap. by apply Hall. }
      rewrite Hid. by repeat split.
  + left. split; [|done].
    apply (Hbelow (similarity a n)); [exact Hall|by apply Qle_bool_false].
Qed.

(** A row whose name is not a string stops the loop. *)
Lemma align_row_not_a_string ym_row bg_row bg_rows names v cn i :
dict_find ym_row "name" = Some v → (∀ a, v ≠ VStr a) →
dict_find ym_row "chineseName" = Some cn →
dict_find ym_row "ym_id" = Some i →
Forall2 (λ row n, dict_find row "游戏名称" = Some (VStr n))
        (bg_row :: bg_rows) names →
align_row ym_row (bg_row :: bg_rows) = Raise AttributeError.
Proof.
intros Hname Hv Hcn Hid Hrows. inversion Hrows as [|? n ? ? Hn _]; subst.
unfold align_row, row_get. rewrite Hname, Hcn, Hid. cbn.
unfold row_get. rewrite Hn. cbn.
destruct v; try done. by destruct (Hv s).
Qed.

Lemma align_rows_prefix pre rest bg_rows names e :
Forall ym_readable pre →
Forall2 (λ row n, dict_find row "游戏名称" = Some (VStr n)) bg_rows names →
align_rows rest bg_rows = Raise e →
align_rows (pre ++ rest) bg_rows = Raise e.
Proof.
intros Hpre Hrows Hrest. induction Hpre as [|row pre Hr _ IH]; [done|].
cbn [app align_rows]. rewrite IH.
by destruct (align_row_spec row bg_rows names Hr Hrows)
  as [[_ ->]|(_ & row' & -> & _)].
Qed.

(** C9 (as amended).  Let the names of the third table be strings.  For
  matched rows whose names are strings: the similarity of two names is
  the ratio of their lower-cased forms, a number between 0 and 1 when
  [difflib]'s ratios are; a row reaches the threshold exactly when the
  largest similarity over all names of the third table is at least 0.8
  (never, when the table is empty); and the batch returns, in the order
  of the matched rows, exactly one joined row for every matched row that
  reaches the threshold and none for the others, each joined row carrying
  a third-table row whose name has the largest similarity and that
  similarity rounded.  These are the rows the job hands to the CSV
  writer.  But when, after rows with string names, a matched row comes
  whose name is not a string, and the third table is not empty, the batch
  raises: the job emits no row at all. *)
Theorem alignment_emits_rows_reaching_threshold ym_rows bg_rows names :
Forall2 (λ row n, dict_find row "游戏名称" = Some (VStr n)) bg_rows names →
(Forall ym_readable ym_rows →
   (∀ a n, calculate_similarity (VStr a) (VStr n)
           = Ok (ratio (py_lower a) (py_lower n))
           ∧ (ratio_bounded →
              (0 <= similarity a n)%Q ∧ (similarity a n <= 1)%Q))
   ∧ (∀ ym_row m,
        is_maximum m (map (similarity (ym_name_of ym_row)) names) →
        reaches names ym_row = true ↔ (8 # 10 <= m)%Q)
   ∧ (∀ ym_row, names = [] → reaches names ym_row = false)
   ∧ ∃ rs, align_rows ym_rows bg_rows = Ok rs
           ∧ Forall2 (joins bg_rows names)
                     (List.filter (reaches names) ym_rows) rs
           ∧ ∀ ym_file bangumi_file w ym_df bg_df,
               read_excel ym_file w = (Ok ym_df, w) → rows ym_df = ym_rows →
               read_excel bangumi_file w = (Ok bg_df, w) →
               rows bg_df = bg_rows →
               match_ym_with_bangumi ym_file bangumi_file w = (Ok rs, w))
∧ (∀ before ym_row after v cn i,
     ym_rows = (before ++ ym_row :: after)%list →
     Forall ym_readable before →
     dict_find ym_row "name" = Some v → (∀ a, v ≠ VStr a) →
     dict_find ym_row "chineseName" = Some cn →
     dict_find ym_row "ym_id" = Some i →
     bg_rows ≠ [] →
     align_rows ym_rows bg_rows = Raise AttributeError
     ∧ ∀ ym_file bangumi_file w ym_df bg_df,
         read_excel ym_file w = (Ok ym_df, w) → rows ym_df = ym_rows →
         read_excel bangumi_file w = (Ok bg_df, w) →
         rows bg_df = bg_rows →
         match_ym_with_bangumi ym_file bangumi_file w
         = (Raise AttributeError, w)).
Proof.
intros Hrows. split.
- intros Hym. split; [|split; [|split]].
  + intros a n. split; [done|]. intros Hb. apply Hb.
  + intros ym_row m. apply reaches_iff.
  + by intros ym_row ->.
  + assert (∃ rs, align_rows ym_rows bg_rows = Ok rs
                  ∧ Forall2 (joins bg_rows names)
                            (List.filter (reaches names) ym_rows) rs)
      as (rs & E & Hj).
    { induction Hym as [|ym_row ym_rows Hr Hrest IH].
      { exists []. split; [done|constructor]. }
      destruct IH as (rs & E & Hj). cbn [align_rows List.filter].
      destruct (align_row_spec ym_row bg_rows names Hr Hrows)
        as [[-> ->]|(-> & row & -> & Hjoin)]; rewrite E; cbn.
      - by exists rs.
      - exists (row :: rs). split; [done|by constructor]. }
    exists rs. split; [done|]. split; [done|].
    intros ym_file bangumi_file w ym_df bg_df Ey <- Eb <-.
    unfold match_ym_with_bangumi. run. rewrite Ey. cbn. rewrite Eb. cbn.
    by rewrite E.
- intros before ym_row after v cn i -> Hbefore Hname Hv Hcn Hid Hne.
  assert (align_rows (before ++ ym_row :: after) bg_rows
          = Raise AttributeError) as E.
  { apply (align_rows_prefix before _ bg_rows names); [done..|].
    destruct bg_rows as [|bg_row bg_rows]; [done|].
    cbn [align_rows].
    by rewrite (align_row_not_a_string ym_row bg_row bg_rows names v cn i). }
  split; [done|].
  intros ym_file bangumi_file w ym_df bg_df Ey Hy Eb <-.
  unfold match_ym_with_bangumi. run. rewrite Ey. cbn. rewrite Eb. cbn.
  by rewrite Hy, E.
Qed.
End aligner_facts.

(** ** Resuming: rows already in the matched store *)

Lemma bind_inv {A B} (m : M A) (f : A → M B) w b w' :
  (m ≫= f) w = (Ok b, w') → ∃ a w1, m w = (Ok a, w1) ∧ f a w1 = (Ok b, w').
Proof.
  unfold mbind, M_bind. destruct (m w) as [[a|e] w1]; [|done].
  intros E. by exists a, w1.
Qed.

Lemma matched_ids_sublist os : matched_ids os `sublist_of` map outcome_id os.
Proof.
  induction os as [|o os IH]; cbn; [done|].
  destruct o; cbn; by constructor.
Qed.

Section resume_facts.
Context `{Runtime}.
Implicit Types (processed_ids : gset string).

(** A row whose identifier is in the processed set is skipped: nothing is
  requested, nothing is written. *)
Lemma process_row_skips output_file unmatched_file org_output_file
  processed_ids idx row processed_orgs w :
bgm_id_of idx row ∈ processed_ids →
process_row output_file unmatched_file org_output_file processed_ids idx row
            processed_orgs w
= (Ok (Skipped (bgm_id_of idx row), processed_orgs), w).
Proof. intros Hin. unfold process_row. by rewrite bool_decide_eq_true_2. Qed.

Lemma process_row_outcome output_file unmatched_file org_output_file
  processed_ids idx row processed_orgs w o cache w' :
process_row output_file unmatched_file org_output_file processed_ids idx row
            processed_orgs w = (Ok (o, cache), w') →
outcome_id o = bgm_id_of idx row
∧ (bgm_id_of idx row ∈ processed_ids → o = Skipped (bgm_id_of idx row))
∧ (bgm_id_of idx row ∉ processed_ids →
   ∀ i, o ≠ Skipped i).
Proof.
unfold process_row. case_bool_decide as Hin.
{ intros [= <- <- <-]. done. }
intros E.
assert (outcome_id o = bgm_id_of idx row ∧ ∀ i, o ≠ Skipped i) as [Ho Hns];
  [|done].
destruct (String.eqb (name_of row "日文名") "" &&
          String.eqb (name_of row "中文名") "").
{ apply bind_inv in E as (? & ? & _ & [= <- <- <-]). done. }
apply bind_inv in E as ([[best_match best_score] match_source] & w1 & _ & E).
destruct best_match as [best_match|].
- apply bind_inv in E as ([org_info cache1] & w2 & _ & E).
  apply bind_inv in E as (? & ? & _ & [= <- <- <-]). done.
- apply bind_inv in E as (? & ? & _ & [= <- <- <-]). done.
Qed.

(** The journal follows the source rows in order, and its entries are
  skips exactly at the processed identifiers. *)
Lemma process_rows_journal output_file unmatched_file org_output_file
  processed_ids rows :
∀ idx processed_orgs w os r w',
process_rows output_file unmatched_file org_output_file processed_ids idx
             rows processed_orgs w = ((os, r), w') →
map outcome_id os = take (length os) (source_ids idx rows)
∧ Forall (λ o, (outcome_id o ∈ processed_ids → o = Skipped (outcome_id o))
               ∧ (outcome_id o ∉ processed_ids → ∀ i, o ≠ Skipped i)) os.
Proof.
induction rows as [|row rows IH]; intros idx cache w os r w' E; cbn in E.
{ injection E as <- <- <-. done. }
destruct (process_row _ _ _ _ idx row cache w) as [[[o cache1]|e] w1] eqn:Er.
- destruct (process_rows _ _ _ _ (S idx) rows cache1 w1)
    as [[os1 r1] w2] eqn:Es.
  injection E as <- <- <-.
  destruct (IH _ _ _ _ _ _ Es) as [Hids Hall].
  destruct (process_row_outcome _ _ _ _ _ _ _ _ _ _ _ Er) as (Ho & Hs & Hn).
  split.
  + cbn. by rewrite Ho, Hids.
  + constructor; [|done]. by rewrite Ho.
- injection E as <- <- <-. done.
Qed.

Lemma load_processed_ids_store output_file w t :
read_excel output_file w = (Ok t, w) → "bgm_id" ∈ columns t →
load_processed_ids output_file w = (Ok (ids_of t), w).
Proof.
intros Er Hc. unfold load_processed_ids, exists_. run.
assert (is_Some (files w !! output_file)) as Hsome.
{ unfold read_excel in Er. by destruct (files w !! output_file) as [[]|]. }
rewrite bool_decide_eq_true_2 by done. cbn. rewrite Er.
by rewrite bool_decide_eq_true_2.
Qed.

Lemma read_excel_pure path w r w' : read_excel path w = (r, w') → w' = w.
Proof.
unfold read_excel. destruct (files w !! path) as [[]|]; by intros [= _ <-].
Qed.

Lemma load_processed_ids_pure output_file w :
  ∃ ids, load_processed_ids output_file w = (Ok ids, w).
Proof.
  unfold load_processed_ids, exists_, read_excel. run.
  destruct (files w !! output_file) as [[t|t|]|] eqn:E; cbn;
    rewrite ?E; cbn; try case_bool_decide; by eexists.
Qed.

Lemma stored_ids_load output_file w :
load_processed_ids output_file w = (Ok (stored_ids output_file w), w).
Proof.
unfold stored_ids.
by destruct (load_processed_ids_pure output_file w) as [ids ->].
Qed.

Lemma prepare_stored_ids input_file output_file org_output_file w
  df_bgm processed_ids processed_orgs w' :
prepare input_file output_file org_output_file w
= (Ok (Some (df_bgm, processed_ids, processed_orgs)), w') →
processed_ids = stored_ids output_file w
∧ read_excel input_file w = (Ok df_bgm, w).
Proof.
intros E. unfold prepare in E.
apply bind_inv in E as (df & w1 & Ein & E).
pose proof (read_excel_pure _ _ _ _ Ein) as ->.
destruct (negb (bool_decide ("日文名" ∈ columns df))
          || negb (bool_decide ("中文名" ∈ columns df))); [done|].
apply bind_inv in E as (pids & w1 & Ep & E).
rewrite stored_ids_load in Ep. injection Ep as <- <-.
apply bind_inv in E as (token & w1 & _ & E).
apply bind_inv in E as ([] & w2 & _ & E).
destruct (negb (truthy token)); [done|].
apply bind_inv in E as ([] & w3 & _ & E).
apply bind_inv in E as ([] & w4 & _ & E).
apply bind_inv in E as (cache & w5 & _ & E).
injection E as <- <- <- <-. done.
Qed.

Lemma process_rows_indexed output_file unmatched_file org_output_file
  processed_ids rows :
∀ idx processed_orgs w,
process_rows output_file unmatched_file org_output_file processed_ids idx
             rows processed_orgs w
= process_indexed output_file unmatched_file org_output_file processed_ids
                  (indexed idx rows) processed_orgs w.
Proof.
induction rows as [|row rows IH]; intros idx cache w; cbn; [done|].
destruct (process_row _ _ _ _ idx row cache w) as [[[o cache1]|e] w1]; [|done].
by rewrite IH.
Qed.

(** Leaving the processed rows out of the loop changes neither the world
  in which it ends nor the way it ends, and removes from the journal the
  skips only: a skipped row costs no request and no write. *)
Lemma process_indexed_pending output_file unmatched_file org_output_file
  processed_ids irows :
∀ processed_orgs w,
(process_indexed output_file unmatched_file org_output_file processed_ids
                 (pending processed_ids irows) processed_orgs w).2
= (process_indexed output_file unmatched_file org_output_file processed_ids
                   irows processed_orgs w).2
∧ (process_indexed output_file unmatched_file org_output_file processed_ids
                   (pending processed_ids irows) processed_orgs w).1.2
  = (process_indexed output_file unmatched_file org_output_file processed_ids
                     irows processed_orgs w).1.2
∧ (process_indexed output_file unmatched_file org_output_file processed_ids
                   (pending processed_ids irows) processed_orgs w).1.1
  = List.filter (λ o, negb (is_skipped o))
      (process_indexed output_file unmatched_file org_output_file
                       processed_ids irows processed_orgs w).1.1.
Proof.
induction irows as [|[idx row] irows IH]; intros cache w; [done|].
cbn [pending List.filter fst snd]. fold (pending processed_ids irows).
case_bool_decide as Hin; cbn [negb].
- cbn [process_indexed]. rewrite process_row_skips by done.
  specialize (IH cache w).
  destruct (process_indexed _ _ _ _ irows cache w) as [[os r] w1].
  cbn in *. exact IH.
- cbn [process_indexed].
  destruct (process_row _ _ _ _ idx row cache w) as [[[o cache1]|e] w1] eqn:Er;
    [|done].
  destruct (process_row_outcome _ _ _ _ _ _ _ _ _ _ _ Er) as (_ & _ & Hn).
  specialize (Hn Hin). specialize (IH cache1 w1).
  destruct (process_indexed _ _ _ _ (pending processed_ids irows) cache1 w1)
    as [[os' r'] w'].
  destruct (process_indexed _ _ _ _ irows cache1 w1) as [[os r] w2].
  cbn in *. destruct IH as (-> & -> & ->).
  split; [done|]. split; [done|].
  destruct o as [i| | |]; [by destruct (Hn i)|done..].
Qed.

(** A source whose identifiers are all processed is passed over as a
  whole. *)
Lemma process_rows_all_skipped output_file unmatched_file org_output_file
  processed_ids rows :
∀ idx processed_orgs w,
(∀ i, i ∈ source_ids idx rows → i ∈ processed_ids) →
process_rows output_file unmatched_file org_output_file processed_ids idx
             rows processed_orgs w
= ((map Skipped (source_ids idx rows), Ok tt), w).
Proof.
induction rows as [|row rows IH]; intros idx cache w Hall; cbn; [done|].
rewrite process_row_skips by (apply Hall; by left).
rewrite IH; [done|]. intros i Hi. apply Hall. by right.
Qed.

(** C1 (as amended).  Let the stored identifiers be those the run loads
  from the matched store when it starts: none when there is no store
  yet, those of the store's [bgm_id] column when the store is readable.
  A source row whose identifier is stored is skipped without a request or
  a write, so that the run ends in the same world, and in the same way,
  as the loop run over the other rows only (with the journal of that
  loop, but for the skips), and a source whose identifiers are all stored
  leaves the world as it was before the loop.
  The journal of the run follows the source rows in order; no row handed
  to [append_to_excel] carries a stored identifier; and when the
  identifiers of the source rows are pairwise distinct, so are the
  identifiers of the rows appended by the run, whether or not there was
  a store. *)
Theorem resume_skips_processed_ids input_file output_file unmatched_file
  org_output_file w os r w' :
match_bgm_games_and_save input_file output_file unmatched_file
                         org_output_file w = ((os, r), w') →
(files w !! output_file = None → stored_ids output_file w = ∅)
∧ (∀ t, read_excel output_file w = (Ok t, w) → "bgm_id" ∈ columns t →
     stored_ids output_file w = ids_of t)
∧ (∀ idx row processed_orgs w0,
     bgm_id_of idx row ∈ stored_ids output_file w →
     process_row output_file unmatched_file org_output_file
                 (stored_ids output_file w) idx row processed_orgs w0
     = (Ok (Skipped (bgm_id_of idx row), processed_orgs), w0))
∧ (∀ o, o ∈ os → outcome_id o ∈ stored_ids output_file w →
     o = Skipped (outcome_id o))
∧ (∀ i, i ∈ matched_ids os → i ∉ stored_ids output_file w)
∧ (∀ df_bgm, read_excel input_file w = (Ok df_bgm, w) →
     map outcome_id os = take (length os) (source_ids 0 (rows df_bgm))
     ∧ (NoDup (source_ids 0 (rows df_bgm)) → NoDup (matched_ids os)))
∧ (∀ df_bgm processed_ids processed_orgs w1,
     prepare input_file output_file org_output_file w
     = (Ok (Some (df_bgm, processed_ids, processed_orgs)), w1) →
     processed_ids = stored_ids output_file w
     ∧ process_indexed output_file unmatched_file org_output_file
         (stored_ids output_file w) (indexed 0 (rows df_bgm))
         processed_orgs w1
       = ((os, r), w')
     ∧ process_indexed output_file unmatched_file org_output_file
         (stored_ids output_file w)
         (pending (stored_ids output_file w) (indexed 0 (rows df_bgm)))
         processed_orgs w1
       = ((List.filter (λ o, negb (is_skipped o)) os, r), w')
     ∧ ((∀ i, i ∈ source_ids 0 (rows df_bgm) →
              i ∈ stored_ids output_file w) →
        w' = w1 ∧ r = Ok tt
        ∧ os = map Skipped (source_ids 0 (rows df_bgm)))).
Proof.
intros E.
split.
{ intros Hn. pose proof (stored_ids_load output_file w) as Hl.
  unfold load_processed_ids, exists_ in Hl. revert Hl. run. rewrite Hn.
  rewrite bool_decide_eq_false_2 by (by intros [? ?]). cbn. congruence. }
split.
{ intros t Er Hc. pose proof (stored_ids_load output_file w) as Hl.
  rewrite (load_processed_ids_store _ _ _ Er Hc) in Hl. congruence. }
split.
{ intros. by apply process_row_skips. }
unfold match_bgm_games_and_save in E.
destruct (prepare input_file output_file org_output_file w)
  as [[[[[df pids] cache]|]|e] w1] eqn:Ep.
2,3: injection E as <- <- <-;
     (split; [by intros o ?%elem_of_nil|]);
     (split; [by intros i ?%elem_of_nil|]);
     (split; [intros; split; [done|constructor]|]);
     by intros ? ? ? ? [=].
destruct (prepare_stored_ids _ _ _ _ _ _ _ _ Ep) as [-> Hin].
destruct (process_rows_journal _ _ _ _ _ _ _ _ _ _ _ E) as [Hids Hall].
rewrite Forall_forall in Hall.
split; [|split; [|split]].
- intros o Ho. by apply Hall.
- intros i Hi Hpid. unfold matched_ids in Hi.
  apply list_elem_of_omap in Hi as (o & Ho & Hm).
  destruct o as [| |rd|]; try done. injection Hm as <-.
  discriminate (proj1 (Hall _ Ho) Hpid).
- intros df_bgm Hin'. rewrite Hin in Hin'. injection Hin' as <-.
  split; [done|]. intros Hnd.
  eapply sublist_NoDup; [|apply matched_ids_sublist].
  rewrite Hids. eapply sublist_NoDup; [exact Hnd|apply sublist_take].
- intros df' pids' cache' w1' [= <- <- <- <-]. split; [done|].
  split; [by rewrite <- process_rows_indexed|]. split.
  + rewrite process_rows_indexed in E.
    pose proof (process_indexed_pending output_file unmatched_file
                  org_output_file (stored_ids output_file w)
                  (indexed 0 (rows df)) cache w1) as (H1 & H2 & H3).
    rewrite E in H1, H2, H3. cbn in H1, H2, H3.
    destruct (process_indexed _ _ _ _ (pending _ _) cache w1) as [[os' r'] w''].
    cbn in *. by subst.
  + intros Hall'. rewrite process_rows_all_skipped in E by done.
    by injection E as <- <- <-.
Qed.
End resume_facts.

(** ** Initialising a store twice *)

Section init_facts.
Context `{Runtime}.

(** What [init_excel] leaves at a path with an Excel extension: a workbook
    is kept, anything else becomes the empty matched table. *)
Lemma init_excel_result path w :
  excel_writer path = true →
  ∃ w', init_excel path w = (Ok tt, w')
        ∧ files w' !! path
          = Some (match files w !! path with
                  | Some (Sheet t) => Sheet t
                  | Some (Locked t) => Locked t
                  | Some Corrupt | None =>
                      Sheet (xlsx (empty_frame EXCEL_COLUMNS_MATCHED))
                  end).
Proof.
  intros Hw.
  unfold init_excel, exists_, load_workbook, read_excel, to_excel, set_file.
  rewrite Hw. run. destruct (files w !! path) as [[t|t|]|] eqn:E; cbn.
  - rewrite E. by eexists.
  - rewrite E. by eexists.
  - rewrite E. cbn. rewrite E. eexists. split; [done|]. cbn.
    by rewrite lookup_insert_eq.
  - rewrite E. eexists. split; [done|]. cbn. by rewrite lookup_insert_eq.
Qed.

(** A second [init_excel] changes nothing. *)
Lemma init_excel_idempotent path w w' :
  excel_writer path = true →
  init_excel path w = (Ok tt, w') → init_excel path w' = (Ok tt, w').
Proof.
  intros Hw E. destruct (init_excel_result path w Hw) as (w1 & E1 & Hf).
  rewrite E in E1. injection E1 as <-.
  unfold init_excel, exists_, load_workbook, read_excel. run. rewrite Hf.
  cbn. by destruct (files w !! path) as [[t|t|]|]; rewrite Hf.
Qed.

(** [init_org_excel] creates a missing file and keeps a present one,
    whatever it holds; a second call changes nothing. *)
Lemma init_org_excel_result path w :
  excel_writer path = true →
  ∃ w', init_org_excel path w = (Ok tt, w')
        ∧ files w' !! path
          = Some (match files w !! path with
                  | Some f => f
                  | None => Sheet (xlsx (empty_frame EXCEL_COLUMNS_ORG))
                  end).
Proof.
  intros Hw. unfold init_org_excel, exists_, to_excel, set_file.
  rewrite Hw. run.
  destruct (files w !! path) as [f|] eqn:E; cbn.
  - by exists w.
  - rewrite E. eexists. split; [done|]. cbn. by rewrite lookup_insert_eq.
Qed.

Lemma init_org_excel_idempotent path w w' :
  excel_writer path = true →
  init_org_excel path w = (Ok tt, w') → init_org_excel path w' = (Ok tt, w').
Proof.
  intros Hw E. destruct (init_org_excel_result path w Hw) as (w1 & E1 & Hf).
  rewrite E in E1. injection E1 as <-.
  unfold init_org_excel, exists_. run. by rewrite Hf.
Qed.
End init_facts.

(** ** The statements at concrete inputs *)

Section examples.
Import Examples.

(** One source identifier listed twice is matched twice in a single run:
    the store ends with two records for it. *)
Lemma duplicate_source_id_is_matched_twice :
  let run := match_bgm_games_and_save "in.xlsx" "out.xlsx" "un.xlsx" "org.xlsx"
                                      duplicate_world in
  matched_ids run.1.1 = ["1"; "1"]
  ∧ run.1.2 = Ok tt
  ∧ ∃ t, files run.2 !! "out.xlsx" = Some (Sheet t)
         ∧ map (λ r, cell r "bgm_id") (rows t) = [VStr "1"; VStr "1"].
Proof.
  split; [by vm_compute|split; [by vm_compute|]].
  eexists. split; by vm_compute.
Qed.

Lemma resume_skips_processed_ids_witness :
  let run := match_bgm_games_and_save "in.xlsx" "out.xlsx" "un.xlsx" "org.xlsx"
                                      resume_world in
  stored_ids "out.xlsx" resume_world = ids_of stored_frame
  ∧ (∀ i, i ∈ matched_ids run.1.1 → i ∉ stored_ids "out.xlsx" resume_world)
  ∧ map outcome_id run.1.1 = ["1"; "2"]
  ∧ matched_ids run.1.1 = ["2"].
Proof.
  intros run.
  assert (E : match_bgm_games_and_save "in.xlsx" "out.xlsx" "un.xlsx"
                "org.xlsx" resume_world = ((run.1.1, run.1.2), run.2))
    by (by vm_compute).
  destruct (resume_skips_processed_ids "in.xlsx" "out.xlsx" "un.xlsx"
              "org.xlsx" resume_world run.1.1 run.1.2 run.2 E)
    as (_ & Hstore & _ & _ & Hm & _).
  split.
  - apply Hstore; [reflexivity|]. vm_compute. constructor.
  - split; [exact Hm|]. split; by vm_compute.
Defined.

Lemma resolve_org_retry_budget_witness :
  let third := resolve_org "10" {["10" := incomplete_entry 2]} "org.xlsx" org_world in
  let fourth := resolve_org "10" {["10" := incomplete_entry 3]} "org.xlsx" org_world in
  let later := resolve_org "10" {["10" := incomplete_entry 4]} "org.xlsx" org_world in
  (marked {["10" := incomplete_entry 2]} "10" = true
   ∧ count_after {["10" := incomplete_entry 2]} "10" ≤ 3
   ∧ 3 < count_after {["10" := incomplete_entry 3]} "10"
   ∧ 3 < retry_count (incomplete_entry 4))
  ∧ sent third.2 = [GetOrg "10" (VStr "T")]
  ∧ fourth.2 = org_world
  ∧ later.2 = org_world.
Proof.
  intros third fourth later.
  assert (H1 : marked {["10" := incomplete_entry 2]} "10" = true) by reflexivity.
  assert (H2 : count_after {["10" := incomplete_entry 2]} "10" ≤ 3)
    by (vm_compute; discriminate).
  assert (H3 : 3 < count_after {["10" := incomplete_entry 3]} "10")
    by reflexivity.
  assert (H4 : 3 < retry_count (incomplete_entry 4)) by reflexivity.
  split; [done|]. split; [|split].
  - refine (proj1 (resolve_org_retry_budget "10" {["10" := incomplete_entry 2]}
                     "org.xlsx" org_world third.1 third.2 _) (conj H1 H2)).
    by vm_compute.
  - refine (proj1 (proj1 (proj2
      (resolve_org_retry_budget "10" {["10" := incomplete_entry 3]}
         "org.xlsx" org_world fourth.1 fourth.2 _)) (or_intror H3))).
    by vm_compute.
  - refine (proj1 (proj2 (proj2
      (resolve_org_retry_budget "10" {["10" := incomplete_entry 4]}
         "org.xlsx" org_world later.1 later.2 _)) (incomplete_entry 4) _ H4)).
    + by vm_compute.
    + by vm_compute.
Defined.

(** Three calls for an organization that stays unresolved send three
    requests; the fourth and fifth send none. *)
Lemma fourth_resolve_sends_nothing :
  sent (resolve_times 3 ∅ failing_org_world)
  = [GetOrg "10" (VStr "T"); GetOrg "10" (VStr "T"); GetOrg "10" (VStr "T")]
  ∧ resolve_times 4 ∅ failing_org_world = resolve_times 3 ∅ failing_org_world
  ∧ resolve_times 5 ∅ failing_org_world = resolve_times 3 ∅ failing_org_world.
Proof. split; [|split]; by vm_compute. Qed.

Lemma select_best_strict_comparison_witness :
  (∃ a w2, select_best "A" "B" (two_names_world (75 # 100) (75 # 100))
           = (Ok (Some a, score a, "日文名"), w2)
           ∧ name a = VStr "A1")
  ∧ (∃ b w2, select_best "A" "B" (two_names_world (6 # 10) (75 # 100))
             = (Ok (Some b, score b, "中文名"), w2)
             ∧ name b = VStr "B1").
Proof.
  split.
  - eexists _, _. split.
    + refine (proj1 (proj2
        (select_best_strict_comparison "A" "B"
           (two_names_world (75 # 100) (75 # 100)) _ _ _ _ _ _ _ _ _ _ _)) _).
      * done.
      * done.
      * vm_compute. reflexivity.
      * vm_compute. reflexivity.
      * reflexivity.
      * vm_compute. reflexivity.
    + reflexivity.
  - eexists _, _. split.
    + refine (proj2 (proj2
        (select_best_strict_comparison "A" "B"
           (two_names_world (6 # 10) (75 # 100)) _ _ _ _ _ _ _ _ _ _ _)) _).
      * done.
      * done.
      * vm_compute. reflexivity.
      * vm_compute. reflexivity.
      * reflexivity.
      * reflexivity.
    + reflexivity.
Defined.

Lemma one_round : unauthorized_rounds 1 [Reply 401 None; token_reply "T2"].
Proof.
  apply (ur_cons 0 None (token_reply "T2") (VStr "T2") []).
  - by eexists.
  - reflexivity.
  - constructor.
Defined.

Lemma four_rounds :
  unauthorized_rounds 4
    [Reply 401 None; token_reply "T2"; Reply 401 None; token_reply "T3";
     Reply 401 None; token_reply "T4"; Reply 401 None; token_reply "T5"].
Proof.
  apply (ur_cons 3 None (token_reply "T2") (VStr "T2")); [by eexists|done|].
  apply (ur_cons 2 None (token_reply "T3") (VStr "T3")); [by eexists|done|].
  apply (ur_cons 1 None (token_reply "T4") (VStr "T4")); [by eexists|done|].
  apply (ur_cons 0 None (token_reply "T5") (VStr "T5")); [by eexists|done|].
  constructor.
Defined.

Lemma search_threshold_short_circuit_witness :
  let items := [result_item "low" (5 # 10); result_item "top" (8 # 10);
                result_item "mid" (6 # 10)] in
  ∃ top w',
    search_ym_top_matches "k" 3 (Fin (8 # 10)) (retry_world items)
    = (Ok [top], w')
    ∧ name top = VStr "top".
Proof.
  intros items.
  destruct (search_threshold_short_circuit "k" 3 (Fin (8 # 10)) 1
              [Reply 401 None; token_reply "T2"] (search_body items) []
              (retry_world items)
              (default [] (match parse_search_response (search_body items) with
                           | Ok l => Some l | Raise _ => None end))
              one_round ltac:(lia) eq_refl eq_refl)
    as (result & w' & E & _ & Hone & _).
  destruct (Hone _ _ eq_refl eq_refl) as [-> _].
  by eexists _, _.
Defined.

(** The token endpoint cannot be reached after a 401, or answers 200 with
    a body that is not JSON: the search call raises. *)
Lemma failed_refresh_makes_search_raise :
  fst (search_ym_top_matches "k" 3 (Fin (8 # 10)) unreachable_refresh_world)
  = Raise ConnectionError
  ∧ fst (search_ym_top_matches "k" 3 (Fin (8 # 10)) garbled_refresh_world)
    = Raise JSONDecodeError.
Proof. split; by vm_compute. Qed.

Lemma search_retries_at_most_four_witness :
  (∃ trace w',
     search_ym_top_matches "k" 3 (Fin (8 # 10)) exhausted_world = (Ok [], w')
     ∧ sent w' = trace ∧ searches trace = 4%nat ∧ inbox w' = [])
  ∧ (∃ w', search_ym_top_matches "k" 3 (Fin (8 # 10)) refused_world
           = (Ok [], w') ∧ inbox w' = [])
  ∧ fst (search_ym_top_matches "k" 3 (Fin (8 # 10)) garbled_refresh_world)
    = Raise JSONDecodeError.
Proof.
  pose proof (search_retries_at_most_four "k" 3 (Fin (8 # 10)))
    as (Hbound & Hstep & Hexhaust & Hrefused & Hfails).
  split; [|split].
  - destruct (Hexhaust _ [] exhausted_world four_rounds eq_refl) as (w' & E & Hi).
    exists (sent w'), w'. split; [done|]. split; [done|]. split; [|done].
    assert (w' = (search_ym_top_matches "k" 3 (Fin (8 # 10)) exhausted_world).2)
      as -> by by rewrite E.
    reflexivity.
  - apply (Hrefused 0%nat [] None (Reply 500 None) [] refused_world).
    + constructor.
    + lia.
    + left. exists 500, None. split; [reflexivity|discriminate].
    + reflexivity.
  - apply (Hfails 0%nat [] None [Reply 200 None] JSONDecodeError
             garbled_refresh_world).
    + constructor.
    + lia.
    + right. right. left. by exists [].
    + reflexivity.
Defined.

Lemma init_org_excel_keeps_corrupt_file_witness :
  files corrupt_world !! "org.xlsx" = Some Corrupt
  ∧ init_org_excel "org.xlsx" corrupt_world = (Ok tt, corrupt_world)
  ∧ read_excel "org.xlsx" corrupt_world = (Raise BadZipFile, corrupt_world).
Proof.
  assert (H : files corrupt_world !! "org.xlsx" = Some Corrupt) by reflexivity.
  split; [exact H|].
  destruct (init_org_excel_keeps_corrupt_file "org.xlsx" corrupt_world H)
    as (E & _ & _).
  split; [exact E|reflexivity].
Defined.





Lemma exact_ratio_bounded : ratio_bounded.
Proof.
  intros a b. cbn. unfold Sample.exact_ratio.
  destruct (String.eqb a b); split; discriminate.
Qed.

(** The first matched row equals a name of the third table but for case,
    so that its largest similarity is 1; the second has a blank name.  The
    batch raises, and the first row is not emitted. *)
Lemma blank_name_aborts_alignment :
  is_maximum 1 (map (similarity "Clannad") ["Kizuki"; "CLANNAD"])
  ∧ (∃ row, align_row ym_row bangumi_rows = Ok (Some row))
  ∧ align_rows [ym_row; unnamed_ym_row] bangumi_rows = Raise AttributeError
  ∧ match_ym_with_bangumi "ym.xlsx" "bg.xlsx"
      (alignment_world [ym_row; unnamed_ym_row])
    = (Raise AttributeError, alignment_world [ym_row; unnamed_ym_row]).
Proof.
  split; [|split; [eexists; by vm_compute|split; by vm_compute]].
  split.
  - exists 1%Q. split; [|reflexivity]. vm_compute. right. left.
  - intros x Hx. cbn in Hx.
    repeat (apply elem_of_cons in Hx as [->|Hx]; [by vm_compute|]).
    by apply elem_of_nil in Hx.
Qed.

Lemma alignment_emits_rows_reaching_threshold_witness :
  (Forall ym_readable [ym_row; other_ym_row]
   ∧ Forall2 (λ row n, dict_find row "游戏名称" = Some (VStr n)) bangumi_rows
             ["Kizuki"; "CLANNAD"])
  ∧ List.filter (reaches ["Kizuki"; "CLANNAD"]) [ym_row; other_ym_row] = [ym_row]
  ∧ ((0 <= similarity "Clannad" "CLANNAD")%Q
     ∧ (similarity "Clannad" "CLANNAD" <= 1)%Q)
  ∧ (∃ row, match_ym_with_bangumi "ym.xlsx" "bg.xlsx"
              (alignment_world [ym_row; other_ym_row])
            = (Ok [row], alignment_world [ym_row; other_ym_row])
            ∧ dict_find row "bangumi_name" = Some (VStr "CLANNAD")
            ∧ dict_find row "match_score" = Some (VFloat (Fin (10000 # 10000))))
  ∧ align_rows [ym_row; unnamed_ym_row; other_ym_row] bangumi_rows
    = Raise AttributeError.
Proof.
  assert (Hym : Forall ym_readable [ym_row; other_ym_row]).
  { repeat constructor; by eexists _, _, _. }
  assert (Hbg : Forall2 (λ row n, dict_find row "游戏名称" = Some (VStr n))
                        bangumi_rows ["Kizuki"; "CLANNAD"]).
  { repeat constructor. }
  split; [done|]. split; [reflexivity|].
  destruct (proj1 (alignment_emits_rows_reaching_threshold
                     [ym_row; other_ym_row] bangumi_rows ["Kizuki"; "CLANNAD"]
                     Hbg) Hym)
    as (Hsim & _ & _ & rs & E & Hj & Hjob).
  split; [exact (proj2 (Hsim "Clannad" "CLANNAD") exact_ratio_bounded)|].
  split.
  - pose proof E as E'. vm_compute in E'. injection E' as <-.
    eexists. split.
    + exact (Hjob "ym.xlsx" "bg.xlsx" (alignment_world [ym_row; other_ym_row])
                  _ _ eq_refl eq_refl eq_refl eq_refl).
    + split; reflexivity.
  - refine (proj1 (proj2 (alignment_emits_rows_reaching_threshold
                     [ym_row; unnamed_ym_row; other_ym_row] bangumi_rows
                     ["Kizuki"; "CLANNAD"] Hbg)
                   [ym_row] unnamed_ym_row [other_ym_row] (VFloat NaN)
                   (VStr "无名") (VInt 9) eq_refl _ eq_refl _ eq_refl eq_refl _)).
    + repeat constructor. by eexists _, _, _.
    + discriminate.
    + discriminate.
Defined.

Lemma string_website_is_dropped_witness :
  ∃ result w',
    get_organization_details "10" (VStr "T") org_world = (Ok (Some result), w')
    ∧ dict_find result "website" = Some (VStr "")
    ∧ dict_find result "name" = Some (VStr "Org").
Proof.
  destruct (string_website_is_dropped "10" (VStr "T") org_world
              (org_body [("name", VStr "Org"); ("website", VStr "http://x");
                         ("introduction", VStr "D")])
              _ _ "http://x" [] eq_refl eq_refl eq_refl eq_refl)
    as (result & w' & E & Hw & _ & Hn & _).
  exists result, w'. split; [exact E|]. split; [exact Hw|exact Hn].
Defined.
End examples.

(** * Further properties of the code *)

(** ** The credential manager and the search client *)

Section client_facts.
Context `{Runtime}.
Implicit Types (keyword : string) (top_k : nat) (threshold : float).

(** X1. [get_access_token] sends exactly one token request, consumes one
    reply and leaves the files and the credential cell alone; for every
    status other than 200 it returns [None] whatever the body holds. *)
Theorem get_access_token_single_request w :
  (∃ r w', get_access_token w = (r, w')
           ∧ sent w' = (sent w ++ [PostToken])%list
           ∧ inbox w' = tail (inbox w)
           ∧ files w' = files w ∧ token_ref w' = token_ref w)
  ∧ (∀ s b rest, inbox w = Reply s b :: rest → s ≠ 200 →
       fst (get_access_token w) = Ok VNone).
Proof.
  split.
  - unfold get_access_token. run.
    destruct (inbox w) as [|[s b|] ib]; cbn; [by eexists _, _| |by eexists _, _].
    destruct (s =? 200); cbn; [|by eexists _, _].
    destruct (json b) as [data|e]; cbn; [|by eexists _, _].
    destruct (py_get data "access_token" VNone); by eexists _, _.
  - intros s b rest Hin Hs. unfold get_access_token. run. rewrite Hin. cbn.
    by destruct (Z.eqb_spec s 200).
Qed.

(** X2. A search reply that is not JSON, whose top level or whose [data]
    is not an object, or that has no [data] or no [result] key, parses to
    the empty list: none of these raises. *)
Theorem parse_search_response_malformed :
  parse_search_response None = Ok []
  ∧ (∀ v, is_dict v = false → parse_search_response (Some v) = Ok [])
  ∧ (∀ d, dict_find d "data" = None →
       parse_search_response (Some (VDict d)) = Ok [])
  ∧ (∀ d data, dict_find d "data" = Some data → is_dict data = false →
       parse_search_response (Some (VDict d)) = Ok [])
  ∧ (∀ d data, dict_find d "data" = Some (VDict data) →
       dict_find data "result" = None →
       parse_search_response (Some (VDict d)) = Ok []).
Proof.
  split; [done|]. split; [by intros []|]. split; [|split].
  - intros d Hd. unfold parse_search_response, search_results. cbn.
    unfold dict_get. by rewrite Hd.
  - intros d data Hd Hdata. unfold parse_search_response, search_results. cbn.
    unfold dict_get. rewrite Hd. by destruct data.
  - intros d data Hd Hr. unfold parse_search_response, search_results. cbn.
    unfold dict_get. rewrite Hd. cbn. unfold dict_get. by rewrite Hr.
Qed.

Lemma round_half_even_floor n (d : positive) :
  n / Zpos d ≤ round_half_even (n # d).
Proof.
  unfold round_half_even. cbn [Qnum Qden].
  destruct (_ <? _); [lia|]. destruct (_ <? _); [lia|].
  destruct (Z.even _); lia.
Qed.

Lemma round_half_even_integer z : round_half_even (inject_Z z * 10000) = z * 10000.
Proof.
  unfold round_half_even. cbn [Qnum Qden inject_Z Qmult].
  change (Z.pos (1 * 1)) with 1. rewrite Z.div_1_r, Z.mod_1_r. done.
Qed.

(** An integer of at most 53 bits is converted exactly. *)
Lemma float_of_int_exact z :
  Z.abs z < 2 ^ 53 → float_of_int z = Ok (Fin (inject_Z z)).
Proof.
  intros Hz. unfold float_of_int.
  assert (Z.log2 (Z.abs z) - 52 ≤ 0) as He.
  { destruct (Z.eq_dec (Z.abs z) 0) as [->|Hne]; [done|].
    assert (Z.log2 (Z.abs z) < 53); [|lia].
    apply Z.log2_lt_pow2; lia. }
  cbn zeta. by rewrite (proj2 (Z.leb_le _ _) He).
Qed.

(** An integer of 2^1024 or more has no double. *)
Lemma float_of_int_overflow z :
  2 ^ 1024 ≤ Z.abs z → float_of_int z = Raise OverflowError.
Proof.
  intros Hz. unfold float_of_int. cbn zeta.
  set (a := Z.abs z) in *. set (e := Z.log2 a - 52).
  assert (0 < a) as Ha by (pose proof (Z.pow_pos_nonneg 2 1024); lia).
  assert (1024 ≤ Z.log2 a) as Hl by (apply Z.log2_le_pow2; lia).
  destruct (Z.leb_spec e 0) as [He|He]; [subst e; lia|].
  assert (0 < 2 ^ e) as Hp by (apply Z.pow_pos_nonneg; lia).
  pose proof (round_half_even_floor a (Z.to_pos (2 ^ e))) as Hf.
  rewrite Z2Pos.id in Hf by done.
  assert (2 ^ 52 ≤ a / 2 ^ e) as Hq.
  { apply Z.div_le_lower_bound; [done|].
    rewrite Z.mul_comm, <- Z.pow_add_r by lia.
    replace (52 + e) with (Z.log2 a) by (subst e; lia).
    apply Z.log2_spec. done. }
  assert (2 ^ 1024 ≤ round_half_even (a # Z.to_pos (2 ^ e)) * 2 ^ e) as Hr.
  { transitivity (2 ^ 52 * 2 ^ e).
    - rewrite <- Z.pow_add_r by lia. apply Z.pow_le_mono_r; subst e; lia.
    - apply Z.mul_le_mono_nonneg_r; lia. }
  by rewrite (proj2 (Z.leb_le _ _) Hr).
Qed.

(** The score of an item that parses is the rounded value of the [try]
    block. *)
Lemma parse_item_score it c :
  parse_item (VDict it) = Ok c → ∃ x, item_score it = Ok x ∧ score c = round4 x.
Proof.
  unfold parse_item. destruct (item_score it) as [x|e]; [|done].
  intros E. exists x. split; [done|].
  destruct (if truthy (dict_get it "org" (VDict [])) then _ else _);
    try done. by injection E as <-.
Qed.

(** X3. An item whose score is missing, null, a list or an object gets
    the score 0.0, and so does one whose score is a string that [float]
    rejects; a float score is kept, rounded to four decimals, and an
    integer score of at most 53 bits is kept as it is (a boolean counts
    as 1 or 0).  An integer score of 2^1024 or more has no float: the
    conversion raises OverflowError, which the handler does not catch, so
    the item does not parse. *)
Theorem parse_item_score_default it :
  (∀ c, parse_item (VDict it) = Ok c →
     (dict_find it "score" = None → score c = Fin (0 # 10000))
     ∧ (∀ v, dict_find it "score" = Some v →
          v = VNone ∨ (∃ l, v = VList l) ∨ (∃ d, v = VDict d)
          ∨ (∃ s, v = VStr s ∧ py_float_of_str s = None) →
          score c = Fin (0 # 10000))
     ∧ (∀ q, dict_find it "score" = Some (VFloat (Fin q)) →
          score c = round4 (Fin q))
     ∧ (∀ z, dict_find it "score" = Some (VInt z) → Z.abs z < 2 ^ 53 →
          score c = round4 (Fin (inject_Z z))
          ∧ score c = Fin (z * 10000 # 10000))
     ∧ (∀ b, dict_find it "score" = Some (VBool b) →
          score c = Fin ((if b then 10000 else 0) # 10000)))
  ∧ (∀ z, dict_find it "score" = Some (VInt z) → 2 ^ 1024 ≤ Z.abs z →
       parse_item (VDict it) = Raise OverflowError).
Proof.
  split.
  - intros c E. apply parse_item_score in E as (x & Ex & ->).
    unfold item_score, dict_get in Ex.
    split; [|split; [|split; [|split]]].
    + intros Hs. rewrite Hs in Ex. cbn in Ex. by injection Ex as <-.
    + intros v Hs Hv. rewrite Hs in Ex.
      destruct Hv as [->|[[l ->]|[[d ->]|(s & -> & Hf)]]]; cbn in Ex;
        rewrite ?Hf in Ex; by injection Ex as <-.
    + intros q Hs. rewrite Hs in Ex. cbn in Ex. by injection Ex as <-.
    + intros z Hs Hz. rewrite Hs in Ex. cbn [py_float] in Ex.
      rewrite float_of_int_exact in Ex by done. injection Ex as <-.
      split; [done|]. unfold round4. by rewrite round_half_even_integer.
    + intros b Hs. rewrite Hs in Ex. cbn in Ex. injection Ex as <-.
      by destruct b.
  - intros z Hs Hz. unfold parse_item, item_score, dict_get. rewrite Hs.
    cbn [py_float]. by rewrite float_of_int_overflow.
Qed.
End client_facts.

(** ** Rounding and ranking *)

Lemma round_half_even_near n (d : positive) :
  let k := round_half_even (n # d) in
  2 * Z.abs (k * Zpos d - n) ≤ Zpos d.
Proof.
  unfold round_half_even. cbn [Qnum Qden].
  pose proof (Z.div_mod n (Zpos d) ltac:(lia)) as Hdm.
  pose proof (Z.mod_pos_bound n (Zpos d) ltac:(lia)) as Hb.
  set (f := n / Zpos d) in *. set (r := n mod Zpos d) in *.
  destruct (Z.ltb_spec (2 * r) (Zpos d)); [nia|].
  destruct (Z.ltb_spec (Zpos d) (2 * r)); [nia|].
  destruct (Z.even f); nia.
Qed.

(** X4. [round(x, 4)] of a finite float is a multiple of 0.0001 that lies
    within 0.00005 of [x], and rounding a second time changes nothing. *)
Theorem round4_nearest_ten_thousandth q :
  ∃ k, round4 (Fin q) = Fin (k # 10000)
       ∧ (q - (1 # 20000) <= k # 10000)%Q
       ∧ (k # 10000 <= q + (1 # 20000))%Q
       ∧ round4 (round4 (Fin q)) = round4 (Fin q).
Proof.
  destruct q as [n d]. eexists. split; [reflexivity|].
  pose proof (round_half_even_near (n * 10000) (d * 1)) as Hk.
  cbn zeta in Hk.
  change ((n # d) * 10000)%Q with ((n * 10000) # (d * 1)) in *.
  set (k := round_half_even ((n * 10000) # (d * 1))) in *.
  rewrite Pos.mul_1_r in Hk.
  split; [|split].
  - unfold Qle, Qminus, Qplus, Qopp. cbn [Qnum Qden].
    rewrite !Pos2Z.inj_mul. lia.
  - unfold Qle, Qplus. cbn [Qnum Qden]. rewrite !Pos2Z.inj_mul. lia.
  - cbn [round4]. f_equal. f_equal.
    unfold round_half_even. cbn [Qnum Qden Qmult].
    change (Zpos (10000 * 1)) with 10000.
    rewrite Z.div_mul by done. rewrite Z.mod_mul by done. cbn. done.
Qed.

Section ranking_facts.
Context {A : Type} (key : A → float).

Lemma descending_take n (l : list A) :
  descending key l → descending key (take n l).
Proof.
  revert n. induction l as [|x l IH]; intros [|n] Hd; cbn; try done.
  destruct Hd as [Hx Hd]. split; [|by apply IH].
  apply Forall_forall. intros y Hy. rewrite Forall_forall in Hx.
  apply Hx. by eapply subseteq_take.
Qed.

(** An element no later one exceeds and every earlier one is strictly
    below comes out first. *)
Lemma insert_desc_head_ge x (l : list A) :
  Forall (λ y, float_ge (key x) (key y) = true) l →
  head (insert_desc key x l) = Some x.
Proof.
  destruct l as [|y l]; cbn; [done|]. intros Hy. inversion Hy as [|?? Hge _]; subst.
  unfold float_lt, float_gt. unfold float_ge in Hge.
  destruct (key x) as [a|], (key y) as [b|]; try done. by rewrite Hge.
Qed.

Lemma insert_desc_head_below x c (l : list A) :
  float_below (key x) (key c) →
  head (insert_desc key x (c :: l)) = Some c.
Proof.
  cbn. unfold float_lt, float_gt, float_below.
  destruct (key x) as [a|], (key c) as [b|]; try done. intros Hlt.
  destruct (Qle_bool b a) eqn:E; [|done].
  apply Qle_bool_iff in E. exfalso. by apply (Qlt_not_le _ _ Hlt).
Qed.

Lemma sorted_desc_head_first l1 c l2 :
  Forall (λ x, float_below (key x) (key c)) l1 →
  Forall (λ x, float_ge (key c) (key x) = true) l2 →
  head (sorted_desc key (l1 ++ c :: l2)) = Some c.
Proof.
  intros H1 H2. induction H1 as [|x l1 Hx _ IH]; cbn.
  - fold (sorted_desc key l2). apply insert_desc_head_ge.
    by rewrite sorted_desc_perm.
  - fold (sorted_desc key (l1 ++ c :: l2)).
    destruct (sorted_desc key (l1 ++ c :: l2)) as [|c' rest]; [done|].
    injection IH as ->. by apply insert_desc_head_below.
Qed.
End ranking_facts.

Section ranking_client.
Context `{Runtime}.

Lemma top_matches_prefix top_k threshold parsed :
  ∃ n, top_matches top_k threshold parsed = take n (sorted_desc score parsed).
Proof.
  unfold top_matches. destruct (sorted_desc score parsed) as [|m l] eqn:E.
  { by exists top_k. }
  destruct (float_ge (score m) threshold); [by exists 1%nat|by exists top_k].
Qed.

(** X5. What a successful search returns is an initial segment of the
    parsed candidates in ranked order: every returned candidate is one of
    the parsed ones and, when no score is NaN, the returned list is in
    descending score order and its first candidate has a score at least as
    large as that of every parsed candidate. *)
Theorem top_matches_best_first top_k threshold parsed :
  (∃ n, top_matches top_k threshold parsed
        = take n (sorted_desc score parsed))
  ∧ (∀ c, c ∈ top_matches top_k threshold parsed → c ∈ parsed)
  ∧ (Forall (λ c, finite (score c)) parsed →
       descending score (top_matches top_k threshold parsed)
       ∧ ∀ c rest, top_matches top_k threshold parsed = c :: rest →
           ∀ c', c' ∈ parsed → float_ge (score c) (score c') = true).
Proof.
  destruct (top_matches_prefix top_k threshold parsed) as [n ->].
  split; [by exists n|]. split.
  - intros c Hc. rewrite <- (sorted_desc_perm score parsed).
    by eapply subseteq_take.
  - intros Hfin.
    pose proof (sorted_desc_descending score parsed Hfin) as Hd.
    split; [by apply descending_take|].
    intros c rest E c' Hc'.
    destruct (sorted_desc score parsed) as [|x l] eqn:Es; [by destruct n|].
    destruct n as [|n]; [done|]. cbn in E. injection E as -> _.
    assert (Hperm : ∀ y, y ∈ parsed → y ∈ c :: l).
    { intros y Hy. by rewrite <- Es, sorted_desc_perm. }
    destruct Hd as [Hx _]. apply Hperm in Hc'.
    apply elem_of_cons in Hc' as [->|Hc'].
    + apply float_ge_refl. rewrite Forall_forall in Hfin. apply Hfin.
      rewrite <- (sorted_desc_perm score parsed), Es. by left.
    + rewrite Forall_forall in Hx. by apply Hx.
Qed.

(** X6. Ties go to the candidate the service listed first: a candidate
    that every earlier one is strictly below and no later one exceeds is
    ranked first, and is the first one returned when [top_k] is not 0. *)
Theorem first_listed_wins_ties top_k threshold l1 c l2 :
  Forall (λ x, float_below (score x) (score c)) l1 →
  Forall (λ x, float_ge (score c) (score x) = true) l2 →
  head (sorted_desc score (l1 ++ c :: l2)) = Some c
  ∧ ((0 < top_k)%nat →
     head (top_matches top_k threshold (l1 ++ c :: l2)) = Some c).
Proof.
  intros H1 H2.
  pose proof (sorted_desc_head_first score l1 c l2 H1 H2) as Hh.
  split; [done|]. intros Hk. unfold top_matches.
  destruct (sorted_desc score (l1 ++ c :: l2)) as [|m l]; [done|].
  injection Hh as ->. destruct (float_ge (score c) threshold); [done|].
  by destruct top_k; [lia|].
Qed.
End ranking_client.

(** ** The search loop: statuses, failures, the credential cell *)

Section search_loop_facts.
Context `{Runtime}.
Implicit Types (keyword : string) (top_k : nat) (threshold : float).

(** X7. A reply whose status is neither 200 nor 401 ends the call at once
    with the empty list: one search request, no refresh, no retry, the
    credential cell and the files unchanged. *)
Theorem search_other_status_returns_empty keyword top_k threshold w s b rest :
  inbox w = Reply s b :: rest → s ≠ 200 → s ≠ 401 →
  search_ym_top_matches keyword top_k threshold w
  = (Ok [], World (files w) rest
                  (sent w ++ [GetSearch keyword (token_ref w)]) (token_ref w)).
Proof.
  intros Hin H200 H401. unfold search_ym_top_matches.
  cbn [search_attempts]. run. rewrite Hin. cbn.
  destruct (Z.eqb_spec s 200); [done|]. by destruct (Z.eqb_spec s 401).
Qed.

Lemma search_attempts_cell n keyword top_k threshold w :
  let w' := snd (search_attempts n keyword top_k threshold w) in
  files w' = files w
  ∧ (token_ref w' = token_ref w ∨ truthy (token_ref w') = true).
Proof.
  revert w. induction n as [|n IH]; intros [fs ib st tk]; cbn zeta.
  { cbn. by split; [|left]. }
  cbn [search_attempts]. run.
  destruct ib as [|[s b|] ib]; cbn; [by split; [|left]| |by split; [|left]].
  destruct (s =? 200).
  { destruct (parse_search_response b); cbn; by split; [|left]. }
  destruct (s =? 401); [|by split; [|left]].
  unfold get_access_token. run.
  destruct ib as [|[s' b'|] ib]; cbn; [by split; [|left]| |by split; [|left]].
  destruct (s' =? 200); cbn; [|by split; [|left]].
  destruct (json b') as [data|e]; cbn; [|by split; [|left]].
  destruct (py_get data "access_token" VNone) as [t|e]; cbn; [|by split; [|left]].
  destruct (truthy t) eqn:Et; cbn; [|by split; [|left]].
  match goal with |- context [search_attempts n _ _ _ ?w2] =>
    destruct (IH w2) as [Hf Ht] end.
  cbn in Hf, Ht. split; [done|]. right.
  destruct Ht as [->|Ht]; done.
Qed.

(** X8. A search call never writes a file, and the only values it stores
    in the credential cell are tokens that are true: afterwards the cell is
    unchanged or holds a true value, so a usable credential is never
    replaced by an empty one. *)
Theorem search_keeps_credential_usable keyword top_k threshold w :
  let w' := snd (search_ym_top_matches keyword top_k threshold w) in
  files w' = files w
  ∧ (token_ref w' = token_ref w ∨ truthy (token_ref w') = true)
  ∧ (truthy (token_ref w) = true → truthy (token_ref w') = true).
Proof.
  cbn zeta.
  destruct (search_attempts_cell 4 keyword top_k threshold w) as [Hf Ht].
  split; [done|]. split; [done|]. intros Hw.
  destruct Ht as [Ht|Ht]; [|done]. unfold search_ym_top_matches. by rewrite Ht.
Qed.

(** X9. A request that fails inside the HTTP library is not caught: on
    the first attempt or after any number of 401 rounds, an unreachable
    service or a missing reply makes the call raise [ConnectionError]. *)
Theorem search_network_failure_escapes keyword top_k threshold k pre rest w :
  unauthorized_rounds k pre → (k < 4)%nat →
  inbox w = pre ∨ inbox w = (pre ++ Unreachable :: rest)%list →
  fst (search_ym_top_matches keyword top_k threshold w) = Raise ConnectionError.
Proof.
  intros Hpre Hk Hin. unfold search_ym_top_matches.
  assert (∃ tl, inbox w = (pre ++ tl)%list
                ∧ (tl = [] ∨ tl = Unreachable :: rest)) as (tl & Htl & Hcase).
  { destruct Hin as [Hin|Hin].
    - exists []. rewrite app_nil_r. by split; [|left].
    - exists (Unreachable :: rest). by split; [|right]. }
  destruct (search_attempts_rounds keyword top_k threshold k pre Hpre
              (4 - k) w tl Htl) as (w1 & E & _ & Hi & _).
  replace (k + (4 - k))%nat with 4%nat in E by lia. rewrite E.
  destruct (4 - k)%nat as [|m] eqn:Em; [lia|].
  cbn [search_attempts]. run. rewrite Hi. by destruct Hcase as [-> | ->].
Qed.
End search_loop_facts.

(** ** The organization lookup and the cache *)

Section lookup_facts.
Context `{Runtime}.

Lemma organization_of_shape org_id r result :
  organization_of org_id r = Ok (Some result) →
  ∃ od, reply_org (body r) = Ok (VDict od)
        ∧ status_code r = 200
        ∧ ∃ website, extract_website od = Ok website
          ∧ result = [("id", VStr org_id);
                      ("name", dict_get od "name" (VStr ""));
                      ("chineseName", dict_get od "chineseName" (VStr ""));
                      ("website", website);
                      ("description", dict_get od "introduction" (VStr ""));
                      ("birthday", dict_get od "birthday" (VStr ""))].
Proof.
  unfold organization_of, reply_org.
  destruct (Z.eqb_spec (status_code r) 200); [|done].
  destruct (json (body r)) as [data|]; [|done]. cbn.
  destruct (py_get data "data" (VDict [])) as [d|]; [|done]. cbn.
  destruct (py_get d "org" (VDict [])) as [org_data|]; [|done]. cbn.
  destruct (truthy org_data); [|done]. cbn.
  destruct org_data as [| | | | | |od]; try done.
  destruct (extract_website od) as [website|] eqn:Ew; [|done].
  intros [= <-]. exists od. split; [done|]. split; [exact e|]. by exists website.
Qed.

(** X10. An organization lookup never raises: it sends exactly one
    request, takes one reply, leaves the files and the credential cell
    alone, and yields no record for every status other than 200 (401
    included) and for a request that fails. *)
Theorem get_organization_details_never_raises org_id token w :
  (∃ r w', get_organization_details org_id token w = (Ok r, w')
           ∧ sent w' = (sent w ++ [GetOrg org_id token])%list
           ∧ inbox w' = tail (inbox w)
           ∧ files w' = files w ∧ token_ref w' = token_ref w)
  ∧ (∀ s b rest, inbox w = Reply s b :: rest → s ≠ 200 →
       fst (get_organization_details org_id token w) = Ok None)
  ∧ (head (inbox w) = None ∨ head (inbox w) = Some Unreachable →
       fst (get_organization_details org_id token w) = Ok None).
Proof.
  split; [|split].
  - destruct (get_organization_details_request org_id token w)
      as (r & w' & E & Hs & Hf & Ht & Hi).
    by exists r, w'.
  - intros s b rest Hin Hs. unfold get_organization_details, organization_of.
    run. rewrite Hin. cbn. by destruct (Z.eqb_spec s 200).
  - unfold get_organization_details. run.
    destruct (inbox w) as [|[s b|] ib]; cbn; try done.
    by intros [|[=]].
Qed.

(** X11. One malformed entry in the link list discards the whole record:
    when the first listed site is not an object, or its title is not a
    string, a 200 reply that carries an organization yields no record. *)
Theorem malformed_first_link_discards_record org_id token w data d od site
    sites rest :
  inbox w = Reply 200 (Some data) :: rest →
  py_get data "data" (VDict []) = Ok d →
  py_get d "org" (VDict []) = Ok (VDict od) →
  dict_find od "website" = Some (VList (site :: sites)) →
  (is_dict site = false
   ∨ ∃ sd, site = VDict sd ∧ is_str (dict_get sd "title" (VStr "")) = false) →
  fst (get_organization_details org_id token w) = Ok None.
Proof.
  intros Hin Hd Ho Hw Hsite.
  unfold get_organization_details, organization_of. run. rewrite Hin. cbn.
  rewrite Hd. cbn. rewrite Ho.
  assert (truthy (VDict od) = true) as -> by (by destruct od).
  cbn. unfold extract_website, dict_get at 1. rewrite Hw.
  assert (scan_priority priority (VStr "") (site :: sites) = Raise AttributeError)
    as ->; [|done].
  cbn. destruct Hsite as [Hs|(sd & -> & Ht)].
  - by destruct site.
  - cbn. by destruct (dict_get sd "title" (VStr "")).
Qed.

(** X12. A record that a lookup returns has the six fields id, name,
    chineseName, website, description, birthday in this order; its id is
    the identifier that was asked for, whatever the reply says, and its
    description is the reply's [introduction]. *)
Theorem organization_record_shape org_id token w result w' :
  get_organization_details org_id token w = (Ok (Some result), w') →
  map fst result
  = ["id"; "name"; "chineseName"; "website"; "description"; "birthday"]
  ∧ dict_find result "id" = Some (VStr org_id)
  ∧ ∃ s b od, head (inbox w) = Some (Reply s b) ∧ s = 200
       ∧ reply_org b = Ok (VDict od)
       ∧ dict_find result "description"
         = Some (dict_get od "introduction" (VStr ""))
       ∧ dict_find result "name" = Some (dict_get od "name" (VStr "")).
Proof.
  intros E. unfold get_organization_details in E. revert E. run.
  destruct (inbox w) as [|[s b|] ib]; cbn; [done| |done].
  destruct (organization_of org_id (Response s b)) as [o|] eqn:Eo; [|done].
  intros [= -> _].
  destruct (organization_of_shape _ _ _ Eo) as (od & Hod & Hs & website & _ & ->).
  split; [done|]. split; [done|]. by exists s, b, od.
Qed.

(** X13. A reply whose website field is not a list (a string, a number,
    null, or no field at all) gives a record with an empty website, which
    the cache counts as incomplete: such an organization is looked up
    again on later encounters until its budget is spent. *)
Theorem record_without_link_list_is_incomplete org_id token w data d od rest :
  inbox w = Reply 200 (Some data) :: rest →
  py_get data "data" (VDict []) = Ok d →
  py_get d "org" (VDict []) = Ok (VDict od) → od ≠ [] →
  (∀ sites, dict_get od "website" VNone ≠ VList sites) →
  ∃ result w',
    get_organization_details org_id token w = (Ok (Some result), w')
    ∧ dict_find result "website" = Some (VStr "")
    ∧ incomplete result = true.
Proof.
  intros Hin Hd Ho Hne Hw.
  unfold get_organization_details, organization_of. run. rewrite Hin. cbn.
  rewrite Hd. cbn. rewrite Ho.
  assert (truthy (VDict od) = true) as -> by (by destruct od).
  cbn. unfold extract_website.
  destruct (dict_get od "website" VNone) as [| | | | |sites|] eqn:Ew;
    try (eexists _, _; by repeat split).
  by destruct (Hw sites).
Qed.
End lookup_facts.

(** ** The cache entry after a resolve call *)

Section cache_entry_facts.
Context `{Runtime}.

(** X14. A resolve call changes no entry but that of its own
    organization, which exists afterwards with the retry count the call
    has counted; when a lookup was due, the entry holds the fetched record
    if one came back and keeps its previous record if none did, and the
    call returns exactly what the lookup returned. *)
Theorem resolve_org_updates_own_entry org_id
    (processed_orgs : gmap string org_entry) org_output_file w r cache w' :
  resolve_org org_id processed_orgs org_output_file w = (Ok (r, cache), w') →
  (∀ k, k ≠ org_id → cache !! k = processed_orgs !! k)
  ∧ (retry_count <$> cache !! org_id)
    = Some (count_after processed_orgs org_id)
  ∧ (marked processed_orgs org_id = true
     → count_after processed_orgs org_id ≤ 3
     → fst (get_organization_details org_id (token_ref w) w) = Ok r
       ∧ (info <$> cache !! org_id)
         = Some (match r with
                 | Some oi => oi
                 | None => match processed_orgs !! org_id with
                           | Some e => info e
                           | None => []
                           end
                 end)).
Proof.
  intros E. unfold resolve_org in E.
  destruct (mark_for_lookup_spec org_id processed_orgs)
    as (e1 & Hl & Hm & Hc & Hi).
  assert (Hframe : ∀ k, k ≠ org_id →
            (mark_for_lookup org_id processed_orgs).2 !! k = processed_orgs !! k).
  { intros k Hk. unfold mark_for_lookup.
    destruct (processed_orgs !! org_id) as [e0|]; cbn.
    - destruct (incomplete (info e0)); cbn; [|done]. by rewrite lookup_insert_ne.
    - by rewrite lookup_insert_ne. }
  destruct (mark_for_lookup org_id processed_orgs) as [should_retry cache1].
  cbn [fst snd] in *. rewrite Hl in E. subst should_retry. rewrite Hc in E.
  destruct (marked processed_orgs org_id) eqn:Hmk; cbn [andb] in E.
  - destruct (Z.leb_spec (count_after processed_orgs org_id) 3) as [Hle|Hgt].
    + unfold mbind at 1, M_bind at 1, get_token in E.
      unfold mbind at 1, M_bind at 1 in E.
      destruct (get_organization_details org_id (token_ref w) w)
        as [[o|ex] w1] eqn:Eo; [|done].
      destruct o as [oi|].
      * unfold mbind, M_bind in E.
        destruct (append_org_to_excel oi org_output_file w1) as [[[]|ex] w2];
          [|done].
        injection E as <- <- <-. split; [|split].
        -- intros k Hk. rewrite lookup_insert_ne by done. by apply Hframe.
        -- by rewrite lookup_insert_eq.
        -- intros _ _. split; [done|]. by rewrite lookup_insert_eq.
      * injection E as <- <- <-. split; [done|]. split.
        -- by rewrite Hl, <- Hc.
        -- intros _ _. split; [done|]. by rewrite Hl, <- Hi.
    + injection E as <- <- <-. split; [done|]. split.
      * by rewrite Hl, <- Hc.
      * intros _ Hle. lia.
  - injection E as <- <- <-. split; [done|]. split.
    + by rewrite Hl, <- Hc.
    + done.
Qed.
End cache_entry_facts.

(** ** What an append leaves in the files *)

Section append_facts.
Context `{Runtime}.

(** X15. Neither fallback of [append_to_excel] can save anything: the
    names [<file>.temp] and [<file>.backup] have extensions for which
    there is no Excel writer, so both writes raise ValueError.  When the
    destination is present and cannot be rewritten (it is open in another
    program, or it is not a workbook) the call therefore raises
    ValueError, no file is created or changed, and the batch is stored
    nowhere. *)
Theorem append_to_excel_fallbacks_save_nothing row_data output_file :
  excel_writer (output_file +:+ ".temp") = false
  ∧ excel_writer (output_file +:+ ".backup") = false
  ∧ ∀ w f, files w !! output_file = Some f →
           (f = Corrupt ∨ ∃ t, f = Locked t) →
           append_to_excel row_data output_file w = (Raise ValueError, w).
Proof.
  split; [apply excel_writer_temp|]. split; [apply excel_writer_backup|].
  intros w f. apply append_to_excel_unwritable.
Qed.

Lemma cell_not_column cs r k : k ∉ cs → cell (reindex cs r) k = VFloat NaN.
Proof.
  unfold cell, dict_get, reindex. induction cs as [|c cs IH]; cbn; [done|].
  intros Hk. apply not_elem_of_cons in Hk as [Hne Hk].
  destruct (String.eqb_spec k c); [done|]. by apply IH.
Qed.

(** X17. Appending to a readable, writable workbook (under a name with an
    Excel extension) keeps every earlier row in its place with the cells
    of its columns unchanged, and adds exactly one row. *)
Theorem append_keeps_earlier_rows r output_file w t :
  excel_writer output_file = true →
  files w !! output_file = Some (Sheet t) →
  ∃ w' written,
    append_to_excel [r] output_file w = (Ok tt, w')
    ∧ files w' !! output_file = Some (Sheet (xlsx written))
    ∧ length (rows written) = S (length (rows t))
    ∧ (∀ c, c ∈ columns t → c ∈ columns written)
    ∧ ∀ i row, rows t !! i = Some row →
        ∃ row', rows written !! i = Some row'
                ∧ ∀ c, c ∈ columns t → cell row' c = cell row c.
Proof.
  intros Hw E. unfold append_to_excel, exists_. run. rewrite E.
  rewrite bool_decide_eq_true_2 by by eexists. cbn.
  unfold read_excel at 1. rewrite E.
  rewrite to_excel_writes by (try done; intros t'; by rewrite E).
  eexists _, (concat t (DataFrame [r])). split; [done|].
  split; [cbn; by rewrite lookup_insert_eq|].
  split; [cbn; rewrite length_map, length_app; cbn; lia|].
  split; [intros c Hc; by apply merge_columns_incl_l|].
  intros i row Hi. unfold concat. cbn [rows].
  exists (reindex (merge_columns (columns t) (columns (DataFrame [r]))) row).
  split.
  - rewrite list_lookup_fmap, lookup_app_l by by eapply lookup_lt_Some.
    by rewrite Hi.
  - intros c Hc. apply cell_reindex. by apply merge_columns_incl_l.
Qed.
End append_facts.

(** ** The headers of the two stores *)

Section header_facts.
Context `{Runtime}.

(** X18. A matched row has exactly the columns of the matched table, in
    its order; so a frame made from it has that header, and appending it
    to a table with that header leaves the header as it is. *)
Theorem matched_row_keeps_header bgm_id jp_name cn_name best_match org_id
    org_info match_source :
  let row := make_row bgm_id jp_name cn_name best_match org_id org_info
                      match_source in
  map fst row = EXCEL_COLUMNS_MATCHED
  ∧ columns (DataFrame [row]) = EXCEL_COLUMNS_MATCHED
  ∧ ∀ t, columns t = EXCEL_COLUMNS_MATCHED →
         columns (concat t (DataFrame [row])) = EXCEL_COLUMNS_MATCHED.
Proof.
  cbn zeta. split; [done|]. split; [by vm_compute|].
  intros t Ht. unfold concat. cbn [columns]. rewrite Ht.
  unfold DataFrame. cbn [columns foldl map fst make_row]. by vm_compute.
Qed.

(** X19. An organization record is keyed [id], while the organization
    table is created with the column [org_id]: appending a fetched record
    to a table with the header of [EXCEL_COLUMNS_ORG] adds a seventh
    column [id] and leaves the [org_id] cell of the new row empty. *)
Theorem org_record_leaves_org_id_empty org_id token w result w' t :
  get_organization_details org_id token w = (Ok (Some result), w') →
  columns t = EXCEL_COLUMNS_ORG →
  columns (concat t (DataFrame [result])) = (EXCEL_COLUMNS_ORG ++ ["id"])%list
  ∧ ∃ row, last (rows (concat t (DataFrame [result]))) = Some row
           ∧ cell row "org_id" = VFloat NaN
           ∧ cell row "id" = VStr org_id.
Proof.
  intros E Ht. unfold get_organization_details in E. revert E. run.
  destruct (inbox w) as [|[s b|] ib]; cbn; [done| |done].
  destruct (organization_of org_id (Response s b)) as [o|] eqn:Eo; [|done].
  intros [= -> _].
  destruct (organization_of_shape _ _ _ Eo) as (od & _ & _ & website & _ & ->).
  unfold concat. cbn [columns rows]. rewrite Ht.
  split; [by vm_compute|].
  rewrite map_app. eexists. split; [apply last_snoc|].
  split; by vm_compute.
Qed.
End header_facts.

(** ** The run: loading, aborting, journal *)

Section run_facts.
Context `{Runtime}.
Implicit Types (processed_ids : gset string).

(** X20. Loading the checkpoint never raises and changes nothing; with
    the matched file missing, not a workbook, or without a [bgm_id] column
    the processed set is empty, so that every source row is processed. *)
Theorem load_processed_ids_never_raises output_file w :
  (∃ ids, load_processed_ids output_file w = (Ok ids, w))
  ∧ (files w !! output_file = None ∨ files w !! output_file = Some Corrupt →
       load_processed_ids output_file w = (Ok ∅, w))
  ∧ (∀ t, read_excel output_file w = (Ok t, w) → "bgm_id" ∉ columns t →
       load_processed_ids output_file w = (Ok ∅, w)).
Proof.
  unfold load_processed_ids, exists_, read_excel. run.
  destruct (files w !! output_file) as [[t|t|]|] eqn:E; cbn;
    rewrite ?E; cbn.
  - split; [case_bool_decide; by eexists|]. split; [by intros [|]|].
    intros t' [= <-] Hc. by rewrite bool_decide_eq_false_2.
  - split; [case_bool_decide; by eexists|]. split; [by intros [|]|].
    intros t' [= <-] Hc. by rewrite bool_decide_eq_false_2.
  - split; [by eexists|]. by split.
  - split; [by eexists|]. by split.
Qed.

Lemma preload_entries (rs : list dict) (m0 : gmap string org_entry) k e :
  foldl (λ m row, <[py_str (cell row "org_id") := OrgEntry row 0]> m) m0 rs
    !! k = Some e →
  m0 !! k = Some e
  ∨ (retry_count e = 0 ∧ info e ∈ rs ∧ k = py_str (cell (info e) "org_id")).
Proof.
  revert m0. induction rs as [|row rs IH]; intros m0 Hk; cbn in Hk; [by left|].
  apply IH in Hk as [Hk|(Hr & Hi & Hkey)].
  - destruct (decide (py_str (cell row "org_id") = k)) as [<-|Hne].
    + rewrite lookup_insert_eq in Hk. injection Hk as <-. right. cbn.
      split; [done|]. split; [by left|done].
    + rewrite lookup_insert_ne in Hk by done. by left.
  - right. split; [done|]. split; [by right|done].
Qed.

(** X21. Loading the organization cache never raises and changes
    nothing; every entry it creates has retry count 0, holds a row of the
    organization file and is keyed by the text of that row's [org_id]
    cell. *)
Theorem load_org_cache_entries org_output_file w :
  ∃ cache, load_org_cache org_output_file w = (Ok cache, w)
    ∧ ∀ k e, cache !! k = Some e →
        retry_count e = 0
        ∧ k = py_str (cell (info e) "org_id")
        ∧ ∃ t, read_excel org_output_file w = (Ok t, w) ∧ info e ∈ rows t.
Proof.
  unfold load_org_cache, exists_, read_excel. run.
  destruct (files w !! org_output_file) as [[t|t|]|] eqn:E; cbn;
    rewrite ?E; cbn;
    try (eexists; split; [done|]; by intros k e ?%lookup_empty_Some).
  - case_bool_decide; cbn;
      [|eexists; split; [done|]; by intros k e ?%lookup_empty_Some].
    eexists. split; [done|]. intros k e Hk.
    apply preload_entries in Hk as [Hk|(Hr & Hi & Hkey)];
      [by apply lookup_empty_Some in Hk|].
    split; [done|]. split; [done|]. by exists t.
  - case_bool_decide; cbn;
      [|eexists; split; [done|]; by intros k e ?%lookup_empty_Some].
    eexists. split; [done|]. intros k e Hk.
    apply preload_entries in Hk as [Hk|(Hr & Hi & Hkey)];
      [by apply lookup_empty_Some in Hk|].
    split; [done|]. split; [done|]. by exists t.
Qed.

(** X22. A source file that is missing or is not a workbook, or that
    lacks one of the two name columns, ends the run with an exception
    before anything is requested or written. *)
Theorem unusable_source_aborts_untouched input_file output_file unmatched_file
    org_output_file w :
  (files w !! input_file = None →
     match_bgm_games_and_save input_file output_file unmatched_file
                              org_output_file w
     = (([], Raise FileNotFoundError), w))
  ∧ (files w !! input_file = Some Corrupt →
     match_bgm_games_and_save input_file output_file unmatched_file
                              org_output_file w
     = (([], Raise BadZipFile), w))
  ∧ (∀ df, read_excel input_file w = (Ok df, w) →
       "日文名" ∉ columns df ∨ "中文名" ∉ columns df →
       match_bgm_games_and_save input_file output_file unmatched_file
                                org_output_file w
       = (([], Raise ValueError), w)).
Proof.
  unfold match_bgm_games_and_save, prepare. split; [|split].
  - intros E. unfold read_excel. run. by rewrite E.
  - intros E. unfold read_excel. run. by rewrite E.
  - intros df Er Hc. unfold mbind at 1, M_bind at 1. rewrite Er.
    assert (negb (bool_decide ("日文名" ∈ columns df))
            || negb (bool_decide ("中文名" ∈ columns df)) = true) as ->; [|done].
    destruct Hc as [Hc|Hc]; rewrite (bool_decide_eq_false_2 _ Hc); cbn;
      [done|by rewrite orb_true_r].
Qed.

(** X23. When no token can be obtained the run returns at once: one
    token request, no source row handled, and no file created or
    changed. *)
Theorem no_token_ends_run_untouched input_file output_file unmatched_file
    org_output_file fs r rest st tk df :
  fs !! input_file = Some (Sheet df) →
  "日文名" ∈ columns df → "中文名" ∈ columns df → refuses r →
  ∃ t, match_bgm_games_and_save input_file output_file unmatched_file
         org_output_file (World fs (r :: rest) st tk)
       = (([], Ok tt), World fs rest (st ++ [PostToken]) t)
       ∧ truthy t = false.
Proof.
  intros Hin Hj Hc Hr. unfold match_bgm_games_and_save, prepare.
  set (w := World fs (r :: rest) st tk).
  assert (read_excel input_file w = (Ok df, w)) as Er.
  { unfold read_excel. cbn. by rewrite Hin. }
  unfold mbind at 1, M_bind at 1. rewrite Er.
  rewrite !bool_decide_eq_true_2 by done. cbn [negb orb].
  destruct (load_processed_ids_pure output_file w) as [ids Eids].
  unfold mbind at 1, M_bind at 1. rewrite Eids.
  destruct (get_access_token_refuses r fs rest st tk Hr) as (t & Et & Ht).
  unfold mbind at 1, M_bind at 1. fold w in Et |- *. rewrite Et.
  exists t. split; [|done]. run. by rewrite Ht.
Qed.
End run_facts.

(** ** The loop body *)

Section loop_facts.
Context `{Runtime}.
Implicit Types (processed_ids : gset string).

(** X24. The loop handles the source rows one by one, in order: every
    entry of the journal is the outcome of processing the source row at
    its position, under that row's identifier; when the loop ends normally
    the journal has one entry per source row; and when an exception ends
    it, the journal has an entry for each row before the failing one only,
    the failing row being the one whose processing raised that exception
    and left the world in which the loop ends. *)
Theorem journal_has_one_entry_per_row output_file unmatched_file
    org_output_file processed_ids rows :
  ∀ idx processed_orgs w os r w',
  process_rows output_file unmatched_file org_output_file processed_ids idx
               rows processed_orgs w = ((os, r), w') →
  (r = Ok tt → length os = length rows)
  ∧ (∀ e, r = Raise e → (length os < length rows)%nat)
  ∧ map outcome_id os = take (length os) (source_ids idx rows)
  ∧ (∀ k o, os !! k = Some o →
       ∃ row cache cache' w0 w1,
         rows !! k = Some row
         ∧ process_row output_file unmatched_file org_output_file
                       processed_ids (idx + k) row cache w0
           = (Ok (o, cache'), w1))
  ∧ (∀ e, r = Raise e →
       ∃ row cache w0,
         rows !! length os = Some row
         ∧ process_row output_file unmatched_file org_output_file
                       processed_ids (idx + length os) row cache w0
           = (Raise e, w')).
Proof.
  induction rows as [|row rows IH]; intros idx cache w os r w' E.
  { cbn in E. injection E as <- <- <-.
    split; [done|]. split; [done|]. split; [done|]. split; [|done].
    by intros [|k] o. }
  pose proof (process_rows_journal _ _ _ _ _ _ _ _ _ _ _ E) as [Hids _].
  cbn [process_rows] in E.
  destruct (process_row _ _ _ _ idx row cache w) as [[[o cache1]|e] w1] eqn:Er.
  - destruct (process_rows _ _ _ _ (S idx) rows cache1 w1)
      as [[os1 r1] w2] eqn:Es.
    injection E as <- <- <-.
    destruct (IH _ _ _ _ _ _ Es) as (Hok & Hraise & _ & Hk & Hfail).
    split; [intros Hr; cbn; by rewrite Hok|].
    split; [intros e Hr; cbn; specialize (Hraise e Hr); lia|].
    split; [done|]. split.
    + intros [|k] o' Ho'.
      * cbn in Ho'. injection Ho' as <-. exists row, cache, cache1, w, w1.
        split; [done|]. by rewrite Nat.add_0_r.
      * cbn in Ho'. destruct (Hk k o' Ho') as (row' & c & c' & w0 & w0' & Hr & Hp).
        exists row', c, c', w0, w0'. split; [done|].
        by rewrite Nat.add_succ_r.
    + intros e Hr. destruct (Hfail e Hr) as (row' & c & w0 & Hrow & Hp).
      exists row', c, w0. split; [done|]. cbn [length].
      by rewrite Nat.add_succ_r.
  - injection E as <- <- <-.
    split; [done|]. split; [intros ? _; cbn; lia|]. split; [done|]. split.
    + by intros [|k] o'.
    + intros e' [= <-]. exists row, cache, w. split; [done|].
      cbn [length]. by rewrite Nat.add_0_r.
Qed.

Lemma append_unmatched_other name unmatched_file w r w' q :
  append_unmatched_to_excel name unmatched_file w = (r, w') →
  q ≠ unmatched_file → files w' !! q = files w !! q.
Proof.
  unfold append_unmatched_to_excel, exists_. run. intros E Hq.
  destruct (negb (bool_decide (is_Some (files w !! unmatched_file)))).
  - by eapply to_excel_other.
  - destruct (files w !! unmatched_file) as [[t|t|]|];
      injection E as <- <-; cbn; try done. by rewrite lookup_insert_ne.
Qed.

Lemma add_row_below_last t v :
  length (rows (add_row_below t v)) = S (length (rows t))
  ∧ ∃ row, last (rows (add_row_below t v)) = Some row
           ∧ ∀ c cs, columns t = c :: cs → cell row c = v.
Proof.
  unfold add_row_below. cbn [rows]. split.
  { rewrite length_app, length_map. cbn. lia. }
  eexists. split; [apply last_snoc|].
  intros c cs Hc. rewrite Hc. cbn [hd reindex map].
  unfold cell at 1, dict_get. cbn [dict_find]. rewrite String.eqb_refl.
  unfold cell, dict_get. cbn [dict_find]. by rewrite String.eqb_refl.
Qed.


(** X26. Rows without an identifier get the synthetic identifiers
    [ROW_<index>], which are pairwise distinct: a source table without an
    [id] column never yields the same identifier twice. *)
Theorem synthetic_ids_are_distinct rows idx :
  Forall (λ row, dict_find row "id" = None) rows →
  source_ids idx rows
  = map (λ i, "ROW_" +:+ pretty i) (seq idx (length rows))
  ∧ NoDup (source_ids idx rows).
Proof.
  intros Hrows.
  assert (source_ids idx rows
          = map (λ i, "ROW_" +:+ pretty i) (seq idx (length rows))) as ->.
  { revert idx. induction Hrows as [|row rows Hrow _ IH]; intros idx; cbn;
      [done|].
    unfold bgm_id_of. by rewrite Hrow, IH. }
  split; [done|]. apply NoDup_fmap_2; [|apply NoDup_seq].
  intros i j E. apply (inj pretty). by eapply String.app_inj.
Qed.

(** X27. Only non-empty names are searched, the first variant first:
    with both names empty nothing is requested and nothing is selected;
    with one name empty the outcome is that of the other name's search
    alone; and when both searches find nothing, nothing is selected and
    the source field is empty. *)
Theorem select_best_searches_non_empty_names w :
  select_best "" "" w = (Ok (None, Fin (-1), ""), w)
  ∧ (∀ cn_name ms w', cn_name ≠ "" →
       search_default cn_name w = (Ok ms, w') →
       select_best "" cn_name w
       = (Ok (better (None, Fin (-1), "") ms "中文名"), w'))
  ∧ (∀ jp_name ms w', jp_name ≠ "" →
       search_default jp_name w = (Ok ms, w') →
       select_best jp_name "" w
       = (Ok (better (None, Fin (-1), "") ms "日文名"), w'))
  ∧ (∀ jp_name cn_name w1 w2, jp_name ≠ "" → cn_name ≠ "" →
       search_default jp_name w = (Ok [], w1) →
       search_default cn_name w1 = (Ok [], w2) →
       select_best jp_name cn_name w = (Ok (None, Fin (-1), ""), w2)).
Proof.
  split; [done|]. split; [|split].
  - intros cn_name ms w' Hcn E. unfold select_best. cbn [String.eqb negb].
    apply String.eqb_neq in Hcn. rewrite Hcn. cbn [negb].
    unfold mbind at 1, M_bind at 1, mret at 1, M_ret at 1.
    unfold mbind, M_bind. by rewrite E.
  - intros jp_name ms w' Hjp E. unfold select_best.
    apply String.eqb_neq in Hjp. rewrite Hjp. cbn [String.eqb negb].
    unfold mbind at 1, M_bind at 1. unfold mbind, M_bind. by rewrite E.
  - intros jp_name cn_name w1 w2 Hjp Hcn Ej Ec. unfold select_best.
    apply String.eqb_neq in Hjp, Hcn. rewrite Hjp, Hcn. cbn [negb].
    unfold mbind at 1, M_bind at 1. unfold mbind at 1, M_bind at 1.
    rewrite Ej. unfold mret at 1, M_ret at 1.
    unfold mbind, M_bind. by rewrite Ec.
Qed.
End loop_facts.

(** ** The aligner: which row is joined, and when it fails *)

Section join_facts.
Context `{Runtime}.

Lemma best_bangumi_app ym_name l1 l2 best :
  best_bangumi ym_name (l1 ++ l2) best
  = best_bangumi ym_name l1 best ≫= best_bangumi ym_name l2.
Proof.
  revert best. induction l1 as [|row l1 IH]; intros best; cbn; [done|].
  destruct (row_get row "游戏名称") as [bg_name|]; cbn; [|done].
  destruct (calculate_similarity ym_name bg_name) as [sc|]; cbn; [|done].
  apply IH.
Qed.

Lemma best_bangumi_stays ym_name bg_rows names best :
  Forall2 (λ row n, dict_find row "游戏名称" = Some (VStr n)) bg_rows names →
  Forall (λ n, (similarity ym_name n <= snd best)%Q) names →
  best_bangumi (VStr ym_name) bg_rows best = Ok best.
Proof.
  intros Hrows. revert best.
  induction Hrows as [|row n bg_rows names Hrow _ IH]; intros best Hall;
    [done|].
  inversion Hall as [|?? Hn Hrest]; subst. cbn [best_bangumi]. unfold row_get. rewrite Hrow.
  unfold mbind at 1, res_bind at 1. rewrite calculate_similarity_strings.
  unfold mbind at 1, res_bind at 1.
  apply Qle_bool_iff in Hn. rewrite Hn. cbn [negb]. by apply IH.
Qed.

Lemma best_bangumi_below ym_name bg_rows names best (m : Q) :
  Forall2 (λ row n, dict_find row "游戏名称" = Some (VStr n)) bg_rows names →
  Forall (λ n, (similarity ym_name n < m)%Q) names →
  (snd best < m)%Q →
  ∃ best', best_bangumi (VStr ym_name) bg_rows best = Ok best'
           ∧ (snd best' < m)%Q.
Proof.
  intros Hrows. revert best.
  induction Hrows as [|row n bg_rows names Hrow _ IH]; intros best Hall Hb;
    [by exists best|].
  inversion Hall as [|?? Hn Hrest]; subst. cbn [best_bangumi]. unfold row_get. rewrite Hrow.
  unfold mbind at 1, res_bind at 1. rewrite calculate_similarity_strings.
  unfold mbind at 1, res_bind at 1.
  destruct (Qle_bool (similarity ym_name n) (snd best)); cbn [negb];
    by apply IH.
Qed.

(** X28. Among several candidate rows with the same largest similarity
    the earliest one is joined: a row whose similarity is at least 0.8,
    that every earlier row is strictly below and that no later row
    exceeds, supplies the name and the identifier of the joined row. *)
Theorem earliest_best_row_is_joined ym_row ym_name ym_cn_name ym_id
    l1 names1 bm n l2 names2 :
  dict_find ym_row "name" = Some (VStr ym_name) →
  dict_find ym_row "chineseName" = Some ym_cn_name →
  dict_find ym_row "ym_id" = Some ym_id →
  Forall2 (λ row n, dict_find row "游戏名称" = Some (VStr n)) l1 names1 →
  dict_find bm "游戏名称" = Some (VStr n) →
  Forall2 (λ row n, dict_find row "游戏名称" = Some (VStr n)) l2 names2 →
  Forall (λ n', (similarity ym_name n' < similarity ym_name n)%Q) names1 →
  Forall (λ n', (similarity ym_name n' <= similarity ym_name n)%Q) names2 →
  (8 # 10 <= similarity ym_name n)%Q →
  ∃ row, align_row ym_row (l1 ++ bm :: l2) = Ok (Some row)
         ∧ dict_find row "bangumi_name" = Some (VStr n)
         ∧ dict_find row "bangumi_id" = Some (dict_get bm "游戏ID" (VStr ""))
         ∧ dict_find row "ym_id" = Some ym_id
         ∧ dict_find row "match_score"
           = Some (VFloat (round4 (Fin (similarity ym_name n)))).
Proof.
  intros Hname Hcn Hid H1 Hbm H2 Hlt Hle Hth.
  assert (0 < similarity ym_name n)%Q as Hpos.
  { eapply Qlt_le_trans; [|exact Hth]. done. }
  destruct (best_bangumi_below ym_name l1 names1 (None, 0%Q) _ H1 Hlt Hpos)
    as (best1 & E1 & Hb1).
  assert (best_bangumi (VStr ym_name) (l1 ++ bm :: l2) (None, 0%Q)
          = Ok (Some bm, similarity ym_name n)) as Eb.
  { rewrite best_bangumi_app, E1. unfold mbind at 1, res_bind at 1.
    cbn [best_bangumi]. unfold row_get. rewrite Hbm.
    unfold mbind at 1, res_bind at 1. rewrite calculate_similarity_strings.
    unfold mbind at 1, res_bind at 1.
    assert (Qle_bool (similarity ym_name n) best1.2 = false) as ->.
    { destruct (Qle_bool (similarity ym_name n) best1.2) eqn:E; [|done].
      apply Qle_bool_iff in E. exfalso. by apply (Qlt_not_le _ _ Hb1). }
    cbn [negb]. by apply (best_bangumi_stays ym_name l2 names2). }
  unfold align_row, row_get. rewrite Hname, Hcn, Hid.
  unfold mbind at 1, res_bind at 1. unfold mbind at 1, res_bind at 1.
  unfold mbind at 1, res_bind at 1. unfold mbind at 1, res_bind at 1.
  rewrite Eb. apply Qle_bool_iff in Hth. rewrite Hth. rewrite Hbm. cbn.
  eexists. split; [done|]. by repeat split.
Qed.

(** X29. A name that is not a string makes the job fail: when the
    matched row's name or the first candidate's name is not a string (an
    empty cell reads back as NaN), [align_row] raises [AttributeError], and
    so does the whole batch. *)
Theorem non_string_name_raises ym_row ym_rest ym_name ym_cn_name ym_id
    bg_row bg_name bg_rest :
  dict_find ym_row "name" = Some ym_name →
  dict_find ym_row "chineseName" = Some ym_cn_name →
  dict_find ym_row "ym_id" = Some ym_id →
  dict_find bg_row "游戏名称" = Some bg_name →
  is_str ym_name = false ∨ is_str bg_name = false →
  align_row ym_row (bg_row :: bg_rest) = Raise AttributeError
  ∧ align_rows (ym_row :: ym_rest) (bg_row :: bg_rest) = Raise AttributeError.
Proof.
  intros Hname Hcn Hid Hbg Hstr.
  assert (align_row ym_row (bg_row :: bg_rest) = Raise AttributeError) as E.
  { unfold align_row, row_get. rewrite Hname, Hcn, Hid. cbn.
    unfold row_get. rewrite Hbg. cbn.
    assert (calculate_similarity ym_name bg_name = Raise AttributeError) as ->;
      [|done].
    unfold calculate_similarity.
    destruct Hstr as [Hs|Hs].
    - by destruct ym_name.
    - destruct ym_name; try done. by destruct bg_name. }
  split; [done|]. cbn [align_rows]. by rewrite E.
Qed.

(** X30. The batch produces at most one joined row per matched record,
    and every joined row has the ten output columns in their order; with
    an empty candidate table nothing is joined. *)
Theorem align_rows_at_most_one_each ym_rows bg_rows rs :
  align_rows ym_rows bg_rows = Ok rs →
  (length rs ≤ length ym_rows)%nat
  ∧ Forall (λ row, map fst row
                   = ["ym_id"; "ym_name"; "ym_chinese_name"; "bangumi_id";
                      "bangumi_name"; "bangumi_score"; "bangumi_rank";
                      "bangumi_votes"; "bangumi_summary"; "match_score"]) rs
  ∧ (bg_rows = [] → rs = []).
Proof.
  revert rs. induction ym_rows as [|ym_row ym_rows IH]; intros rs E; cbn in E.
  { injection E as <-. by repeat split. }
  destruct (align_row ym_row bg_rows) as [r|] eqn:Er; [|done].
  destruct (align_rows ym_rows bg_rows) as [rs'|]; [|done].
  destruct (IH rs' eq_refl) as (Hl & Hk & He). cbn in E. injection E as <-.
  assert (Hrow : ∀ row, r = Some row →
            map fst row
            = ["ym_id"; "ym_name"; "ym_chinese_name"; "bangumi_id";
               "bangumi_name"; "bangumi_score"; "bangumi_rank";
               "bangumi_votes"; "bangumi_summary"; "match_score"]).
  { intros row ->. unfold align_row in Er.
    destruct (row_get ym_row "name") as [a|]; [|done]. cbn in Er.
    destruct (row_get ym_row "chineseName") as [b|]; [|done]. cbn in Er.
    destruct (row_get ym_row "ym_id") as [c|]; [|done]. cbn in Er.
    destruct (best_bangumi a bg_rows (None, 0%Q)) as [[[bm|] bs]|]; try done.
    cbn in Er. destruct (Qle_bool (8 # 10) bs); [|done].
    destruct (row_get bm "游戏名称") as [d|]; [|done]. cbn in Er.
    by injection Er as <-. }
  assert (Hempty : bg_rows = [] → r = None).
  { intros ->. unfold align_row in Er.
    destruct (row_get ym_row "name") as [a|]; [|done]. cbn in Er.
    destruct (row_get ym_row "chineseName") as [b|]; [|done]. cbn in Er.
    destruct (row_get ym_row "ym_id") as [c|]; [|done]. cbn in Er.
    by injection Er as <-. }
  destruct r as [row|].
  - split; [cbn; lia|]. split; [constructor; [by apply Hrow|done]|].
    intros Hb. by specialize (Hempty Hb).
  - split; [cbn; lia|]. split; [done|]. exact He.
Qed.
End join_facts.

(** ** The further properties at concrete inputs *)

Section more_examples.
Import Examples MoreExamples.

Lemma get_access_token_single_request_witness :
  fst (get_access_token error_world) = Ok VNone.
Proof.
  exact (proj2 (get_access_token_single_request error_world) 500 None []
               eq_refl ltac:(discriminate)).
Defined.

Lemma parse_search_response_malformed_witness :
  parse_search_response (Some (VList [VInt 1])) = Ok []
  ∧ parse_search_response (Some (VDict [("data", VStr "x")])) = Ok [].
Proof.
  destruct parse_search_response_malformed as (_ & Hv & _ & Hd & _).
  split.
  - exact (Hv (VList [VInt 1]) eq_refl).
  - exact (Hd [("data", VStr "x")] (VStr "x") eq_refl eq_refl).
Defined.

Lemma parse_item_score_default_witness :
  parse_item (VDict null_score_item) = Ok null_score_candidate
  ∧ score null_score_candidate = Fin (0 # 10000).
Proof.
  assert (E : parse_item (VDict null_score_item) = Ok null_score_candidate)
    by reflexivity.
  split; [exact E|].
  exact (proj1 (proj2 (proj1 (parse_item_score_default null_score_item)
                         null_score_candidate E))
               VNone eq_refl (or_introl eq_refl)).
Defined.

Lemma top_matches_best_first_witness :
  let parsed := [cand "a" (5 # 10); cand "b" (7 # 10); cand "c" (6 # 10)] in
  Forall (λ c, finite (score c)) parsed
  ∧ descending score (top_matches 2 (Fin (8 # 10)) parsed).
Proof.
  intros parsed.
  assert (Hfin : Forall (λ c, finite (score c)) parsed).
  { repeat constructor; by eexists. }
  split; [exact Hfin|].
  exact (proj1 (proj2 (proj2 (top_matches_best_first 2 (Fin (8 # 10)) parsed))
                      Hfin)).
Defined.

Lemma first_listed_wins_ties_witness :
  head (top_matches 3 (Fin (8 # 10))
          ([cand "low" (5 # 10)]
           ++ cand "first" (7 # 10) :: [cand "second" (7 # 10); cand "c" (6 # 10)]))
  = Some (cand "first" (7 # 10)).
Proof.
  refine (proj2 (first_listed_wins_ties 3 (Fin (8 # 10)) [cand "low" (5 # 10)]
                   (cand "first" (7 # 10))
                   [cand "second" (7 # 10); cand "c" (6 # 10)] _ _) _).
  - repeat constructor.
  - repeat constructor.
  - lia.
Defined.

Lemma search_other_status_returns_empty_witness :
  search_ym_top_matches "k" 3 (Fin (8 # 10)) error_world
  = (Ok [], World ∅ [] [GetSearch "k" (VStr "T")] (VStr "T")).
Proof.
  exact (search_other_status_returns_empty "k" 3 (Fin (8 # 10)) error_world
           500 None [] eq_refl ltac:(discriminate) ltac:(discriminate)).
Defined.

Lemma search_keeps_credential_usable_witness :
  truthy (token_ref (snd (search_ym_top_matches "k" 3 (Fin (8 # 10))
                            (retry_world [])))) = true.
Proof.
  exact (proj2 (proj2 (search_keeps_credential_usable "k" 3 (Fin (8 # 10))
                         (retry_world []))) eq_refl).
Defined.

Lemma search_network_failure_escapes_witness :
  fst (search_ym_top_matches "k" 3 (Fin (8 # 10)) broken_world)
  = Raise ConnectionError.
Proof.
  exact (search_network_failure_escapes "k" 3 (Fin (8 # 10)) 1
           [Reply 401 None; token_reply "T2"] [] broken_world
           one_round ltac:(lia) (or_intror eq_refl)).
Defined.

Lemma get_organization_details_never_raises_witness :
  fst (get_organization_details "10" (VStr "T")
         (World ∅ [Reply 401 None] [] (VStr "T"))) = Ok None.
Proof.
  exact (proj1 (proj2 (get_organization_details_never_raises "10" (VStr "T")
                         (World ∅ [Reply 401 None] [] (VStr "T"))))
               401 None [] eq_refl ltac:(discriminate)).
Defined.

Lemma malformed_first_link_discards_record_witness :
  fst (get_organization_details "10" (VStr "T") null_title_world) = Ok None.
Proof.
  refine (malformed_first_link_discards_record "10" (VStr "T") null_title_world
            null_title_body _ _
            (VDict [("title", VNone); ("link", VStr "http://a")]) [] []
            eq_refl eq_refl eq_refl eq_refl _).
  right. eexists. split; reflexivity.
Defined.

Lemma organization_record_shape_witness :
  ∃ result,
    fst (get_organization_details "10" (VStr "T") org_world) = Ok (Some result)
    ∧ dict_find result "id" = Some (VStr "10").
Proof.
  eexists. split; [vm_compute; reflexivity|].
  refine (proj1 (proj2 (organization_record_shape "10" (VStr "T") org_world
                          _ _ _))).
  vm_compute. reflexivity.
Defined.

Lemma record_without_link_list_is_incomplete_witness :
  ∃ result w',
    get_organization_details "10" (VStr "T") org_world = (Ok (Some result), w')
    ∧ dict_find result "website" = Some (VStr "")
    ∧ incomplete result = true.
Proof.
  refine (record_without_link_list_is_incomplete "10" (VStr "T") org_world
            (org_body string_website_org) _ string_website_org []
            eq_refl eq_refl eq_refl _ _).
  - discriminate.
  - intros sites. discriminate.
Defined.

Lemma resolve_org_updates_own_entry_witness :
  let run := resolve_org "10" ∅ "org.xlsx" org_world in
  ∃ r cache, run.1 = Ok (r, cache)
             ∧ (retry_count <$> cache !! "10") = Some 1.
Proof.
  intros run. eexists _, _. split; [vm_compute; reflexivity|].
  refine (proj1 (proj2 (resolve_org_updates_own_entry "10" ∅ "org.xlsx"
                          org_world _ _ run.2 _))).
  vm_compute. reflexivity.
Defined.

Lemma append_to_excel_fallbacks_save_nothing_witness :
  append_to_excel [record] "out.xlsx" locked_world
  = (Raise ValueError, locked_world)
  ∧ append_to_excel [record] "org.xlsx" corrupt_world
    = (Raise ValueError, corrupt_world).
Proof.
  split.
  - refine (proj2 (proj2 (append_to_excel_fallbacks_save_nothing [record]
                            "out.xlsx")) locked_world _ eq_refl _).
    right. by eexists.
  - exact (proj2 (proj2 (append_to_excel_fallbacks_save_nothing [record]
                           "org.xlsx")) corrupt_world _ eq_refl
                 (or_introl eq_refl)).
Defined.

Lemma append_keeps_earlier_rows_witness :
  ∃ w' written,
    append_to_excel [record] "out.xlsx" writable_world = (Ok tt, w')
    ∧ files w' !! "out.xlsx" = Some (Sheet (xlsx written))
    ∧ length (rows written) = 2%nat.
Proof.
  destruct (append_keeps_earlier_rows record "out.xlsx" writable_world
              stored_frame eq_refl eq_refl) as (w' & written & E & Hf & Hl & _).
  by exists w', written.
Defined.

Lemma matched_row_keeps_header_witness :
  columns (concat stored_frame
             (DataFrame [make_row "2" "B" "" (cand "B1" (7 # 10)) "" None
                                  "日文名"]))
  = EXCEL_COLUMNS_MATCHED.
Proof.
  exact (proj2 (proj2 (matched_row_keeps_header "2" "B" "" (cand "B1" (7 # 10))
                         "" None "日文名")) stored_frame eq_refl).
Defined.

Lemma org_record_leaves_org_id_empty_witness :
  ∃ result,
    fst (get_organization_details "10" (VStr "T") org_world) = Ok (Some result)
    ∧ columns (concat (empty_frame EXCEL_COLUMNS_ORG) (DataFrame [result]))
      = (EXCEL_COLUMNS_ORG ++ ["id"])%list.
Proof.
  eexists. split; [vm_compute; reflexivity|].
  refine (proj1 (org_record_leaves_org_id_empty "10" (VStr "T") org_world _ _
                   (empty_frame EXCEL_COLUMNS_ORG) _ eq_refl)).
  vm_compute. reflexivity.
Defined.

Lemma load_processed_ids_never_raises_witness :
  load_processed_ids "org.xlsx" corrupt_world = (Ok ∅, corrupt_world)
  ∧ load_processed_ids "out.xlsx" writable_world
    = (Ok (ids_of stored_frame), writable_world).
Proof.
  split.
  - exact (proj1 (proj2 (load_processed_ids_never_raises "org.xlsx"
                           corrupt_world)) (or_intror eq_refl)).
  - reflexivity.
Defined.

Lemma unusable_source_aborts_untouched_witness :
  match_bgm_games_and_save "in.xlsx" "out.xlsx" "un.xlsx" "org.xlsx" idle_world
  = (([], Raise FileNotFoundError), idle_world)
  ∧ match_bgm_games_and_save "out.xlsx" "o.xlsx" "un.xlsx" "org.xlsx"
                             writable_world
    = (([], Raise ValueError), writable_world).
Proof.
  split.
  - exact (proj1 (unusable_source_aborts_untouched "in.xlsx" "out.xlsx"
                    "un.xlsx" "org.xlsx" idle_world) eq_refl).
  - refine (proj2 (proj2 (unusable_source_aborts_untouched "out.xlsx" "o.xlsx"
                            "un.xlsx" "org.xlsx" writable_world))
                  stored_frame eq_refl _).
    left. intros Hin. vm_compute in Hin.
    repeat (apply elem_of_cons in Hin as [Hin|Hin]; [discriminate Hin|]).
    by apply elem_of_nil in Hin.
Defined.

Lemma no_token_ends_run_untouched_witness :
  ∃ t, match_bgm_games_and_save "in.xlsx" "out.xlsx" "un.xlsx" "org.xlsx"
         (World {["in.xlsx" := Sheet named_source]} [Reply 500 None] []
                VNone)
       = (([], Ok tt),
          World {["in.xlsx" := Sheet named_source]} [] ([] ++ [PostToken]) t)
       ∧ truthy t = false.
Proof.
  refine (no_token_ends_run_untouched "in.xlsx" "out.xlsx" "un.xlsx" "org.xlsx"
            {["in.xlsx" := Sheet named_source]} (Reply 500 None) [] [] VNone
            named_source eq_refl _ _ _).
  - vm_compute. repeat constructor.
  - vm_compute. repeat constructor.
  - left. exists 500, None. split; [reflexivity|discriminate].
Defined.

Lemma journal_has_one_entry_per_row_witness :
  let run := process_rows "out.xlsx" "un.xlsx" "org.xlsx" ∅ 0
                          [nameless_row; nameless_row] ∅ idle_world in
  run.1.2 = Ok tt ∧ length run.1.1 = 2%nat.
Proof.
  intros run.
  assert (Hr : run.1.2 = Ok tt) by (vm_compute; reflexivity).
  split; [exact Hr|].
  refine (proj1 (journal_has_one_entry_per_row "out.xlsx" "un.xlsx" "org.xlsx"
                   ∅ [nameless_row; nameless_row] 0%nat ∅ idle_world
                   run.1.1 run.1.2 run.2 _) Hr).
  vm_compute. reflexivity.
Defined.


Lemma synthetic_ids_are_distinct_witness :
  source_ids 0 rows_without_id = ["ROW_0"; "ROW_1"; "ROW_2"]
  ∧ NoDup (source_ids 0 rows_without_id).
Proof.
  split; [reflexivity|].
  refine (proj2 (synthetic_ids_are_distinct rows_without_id 0%nat _)).
  repeat constructor.
Defined.

Lemma select_best_searches_non_empty_names_witness :
  select_best "" "B" (two_names_world (6 # 10) (75 # 100))
  = (Ok (Some (cand "A1" (6000 # 10000)), Fin (6000 # 10000), "中文名"),
     World ∅ [search_reply [result_item "B1" (75 # 100)]]
           [GetSearch "B" (VStr "T")] (VStr "T")).
Proof.
  exact (proj1 (proj2 (select_best_searches_non_empty_names
                         (two_names_world (6 # 10) (75 # 100))))
               "B" [cand "A1" (6000 # 10000)]
               (World ∅ [search_reply [result_item "B1" (75 # 100)]]
                      [GetSearch "B" (VStr "T")] (VStr "T"))
               ltac:(discriminate) eq_refl).
Defined.

Lemma earliest_best_row_is_joined_witness :
  ∃ row, align_row ym_row tied_rows = Ok (Some row)
         ∧ dict_find row "bangumi_name" = Some (VStr "CLANNAD")
         ∧ dict_find row "bangumi_id" = Some (VInt 6).
Proof.
  destruct (earliest_best_row_is_joined ym_row "Clannad" (VStr "团子") (VInt 7)
              [[("游戏ID", VInt 5); ("游戏名称", VStr "Kizuki")]] ["Kizuki"]
              [("游戏ID", VInt 6); ("游戏名称", VStr "CLANNAD")] "CLANNAD"
              [[("游戏ID", VInt 8); ("游戏名称", VStr "clannad")]] ["clannad"]
              eq_refl eq_refl eq_refl
              ltac:(repeat constructor) eq_refl ltac:(repeat constructor)
              ltac:(repeat constructor) ltac:(repeat constructor; by vm_compute)
              ltac:(by vm_compute))
    as (row & E & Hn & Hi & _).
  by exists row.
Defined.

Lemma non_string_name_raises_witness :
  align_rows [blank_name_row; ym_row] bangumi_rows = Raise AttributeError.
Proof.
  refine (proj2 (non_string_name_raises blank_name_row [ym_row] (VFloat NaN)
                   (VStr "团子") (VInt 7)
                   [("游戏ID", VInt 5); ("游戏名称", VStr "Kizuki")]
                   (VStr "Kizuki")
                   [[("游戏ID", VInt 6); ("游戏名称", VStr "CLANNAD")]]
                   eq_refl eq_refl eq_refl eq_refl (or_introl eq_refl))).
Defined.

Lemma align_rows_at_most_one_each_witness :
  ∃ rs, align_rows [ym_row; ym_row] bangumi_rows = Ok rs
        ∧ (length rs ≤ 2)%nat.
Proof.
  eexists. split; [vm_compute; reflexivity|].
  refine (proj1 (align_rows_at_most_one_each [ym_row; ym_row] bangumi_rows _ _)).
  vm_compute. reflexivity.
Defined.
End more_examples.
